(** * neuron-shim: a shallow embedding of the interception and dispatch layer

    The development follows the C sources of the shim:
    - [CString]   : the libc string routines the shim relies on
                    (snprintf, strncpy, atoi, basename, fgets, sscanf);
    - [Resolver]  : src/model_resolver.c;
    - [Config]    : src/config.c;
    - [Selector]  : src/backend_selector.c;
    - [Stub], [Onnx], [TFLite] : the three adapters;
    - [Runtime]   : src/shim_runtime.c, the public NeuronRuntime_* surface.

    C strings are modelled by [string] (the bytes before the terminating
    NUL), pointers that may be NULL by [option], [int] and [size_t] values
    by [Z], caller memory by a total map from addresses to bytes. *)

From Stdlib Require Import ZArith Ascii String DecimalString Lia.
From stdpp Require Import base gmap strings list.

Local Open Scope Z_scope.

(* ------------------------------------------------------------------ *)
(** * libc string routines                                              *)
(* ------------------------------------------------------------------ *)
Module CString.

Definition strlen (s : string) : Z := Z.of_nat (String.length s).

(** The first [n] bytes of [s] (all of [s] when it is shorter). *)
Fixpoint strn (n : nat) (s : string) : string :=
  match n, s with
  | O, _ => EmptyString
  | S _, EmptyString => EmptyString
  | S n', String c s' => String c (strn n' s')
  end.

Definition INT_MAX : Z := 2147483647.

(** [snprintf(dst, size, ...)] where the formatted text is [out]:
    the buffer receives at most [size - 1] bytes (nothing when
    [size = 0]); the return value is the untruncated length, or a
    negative value when that length does not fit an [int]. *)
Definition snprintf_buf (old : string) (size : Z) (out : string) : string :=
  if size <=? 0 then old else strn (Z.to_nat (size - 1)) out.

Definition snprintf_ret (out : string) : Z :=
  if INT_MAX <? strlen out then -1 else strlen out.

(** [strncpy(dst, src, n); dst[n] = 0] on a buffer of [n + 1] bytes. *)
Definition strncpy_term (n : nat) (src : string) : string := strn n src.

Definition slash : ascii := "/"%char.

(** POSIX [basename] (libgen.h): the last non-empty component of the
    path; [.] for the empty path and [/] for a path made of slashes
    only. [last] is the last complete component seen so far, [cur] the
    component being read. *)
Fixpoint basename_go (last cur s : string) : string :=
  match s with
  | EmptyString => match cur with EmptyString => last | _ => cur end
  | String c s' =>
      if Ascii.eqb c slash
      then basename_go (match cur with EmptyString => last | _ => cur end)
                       EmptyString s'
      else basename_go last (cur +:+ String c EmptyString) s'
  end.

Definition basename (path : string) : string :=
  match path with
  | EmptyString => "."
  | _ => match basename_go "" "" path with
         | EmptyString => "/"
         | b => b
         end
  end.

(** No byte of [s] is a slash. *)
Fixpoint no_slash (s : string) : bool :=
  match s with
  | EmptyString => true
  | String c s' => negb (Ascii.eqb c slash) && no_slash s'
  end.

(** Last byte of a string, if any: [s[strlen(s) - 1]]. *)
Fixpoint last_char (s : string) : option ascii :=
  match s with
  | EmptyString => None
  | String c EmptyString => Some c
  | String _ s' => last_char s'
  end.

(** [t] occurs in [s], at the front or further on. *)
Fixpoint contains (s t : string) : bool :=
  String.prefix t s ||
  match s with
  | EmptyString => false
  | String _ s' => contains s' t
  end.

(** [n] copies of the byte [c]. *)
Fixpoint repeat_char (c : ascii) (n : nat) : string :=
  match n with
  | O => EmptyString
  | S n' => String c (repeat_char c n')
  end.

(** ** Character classes and number parsing *)

Definition code (c : ascii) : Z := Z.of_N (N_of_ascii c).

(** [isspace] in the C locale: space, and HT LF VT FF CR. *)
Definition isspace (c : ascii) : bool :=
  (code c =? 32) || ((9 <=? code c) && (code c <=? 13)).

Definition digit_val (c : ascii) : option Z :=
  if (48 <=? code c) && (code c <=? 57) then Some (code c - 48) else None.

Fixpoint skip_space (s : string) : string :=
  match s with
  | String c s' => if isspace c then skip_space s' else s
  | EmptyString => EmptyString
  end.

Definition strip_sign (s : string) : bool * string :=
  match s with
  | String c r =>
      if Ascii.eqb c "-" then (true, r)
      else if Ascii.eqb c "+" then (false, r)
      else (false, s)
  | EmptyString => (false, s)
  end.

Fixpoint digits_go (acc : Z) (s : string) : Z :=
  match s with
  | String c s' =>
      match digit_val c with
      | Some d => digits_go (10 * acc + d) s'
      | None => acc
      end
  | EmptyString => acc
  end.

Definition LONG_MAX : Z := 9223372036854775807.
Definition LONG_MIN : Z := -9223372036854775808.

(** [strtol(s, NULL, 10)]: leading white space, an optional sign, the
    longest run of decimal digits (0 when there is none), saturating at
    the bounds of [long]. *)
Definition strtol10 (s : string) : Z :=
  let '(neg, r) := strip_sign (skip_space s) in
  let n := digits_go 0 r in
  let v := if neg then - n else n in
  Z.max LONG_MIN (Z.min LONG_MAX v).

(** Conversion of a [long] to [int]: wrap-around on 32 bits. *)
Definition int_wrap (z : Z) : Z := (z + 2 ^ 31) mod 2 ^ 32 - 2 ^ 31.

(** [atoi(s)], that is [(int) strtol(s, NULL, 10)]. *)
Definition atoi (s : string) : Z := int_wrap (strtol10 s).

(** [s] starts (after white space and an optional sign) with a decimal
    digit: the text is read as a number by [atoi]. *)
Definition parses_as_number (s : string) : bool :=
  match snd (strip_sign (skip_space s)) with
  | String c _ => match digit_val c with Some _ => true | None => false end
  | EmptyString => false
  end.

(** ** Line input and scanning *)

(** The successive results of [fgets(line, room + 1, f)] on a stream
    holding [s]: each chunk ends after a newline or when [room] bytes
    have been read. [cur] is the chunk read so far, [left] the room
    that remains in the buffer. *)
Fixpoint fgets_go (room left : nat) (cur s : string) : list string :=
  match s with
  | EmptyString => match cur with EmptyString => [] | _ => [cur] end
  | String c s' =>
      let cur' := cur +:+ String c EmptyString in
      if Ascii.eqb c "010" then cur' :: fgets_go room room EmptyString s'
      else match left with
           | O | S O => cur' :: fgets_go room room EmptyString s'
           | S left' => fgets_go room left' cur' s'
           end
  end.

Definition fgets_all (size : nat) (s : string) : list string :=
  fgets_go (size - 1) (size - 1) EmptyString s.

(** The C string that a buffer holds: its bytes up to the first NUL. *)
Fixpoint c_str (s : string) : string :=
  match s with
  | String c s' =>
      if Ascii.eqb c "000" then EmptyString else String c (c_str s')
  | EmptyString => EmptyString
  end.

(** Longest prefix of at most [n] bytes satisfying [keep], and the rest. *)
Fixpoint scan (keep : ascii -> bool) (n : nat) (s : string) : string * string :=
  match n, s with
  | S n', String c s' =>
      if keep c
      then let '(w, r) := scan keep n' s' in (String c w, r)
      else (EmptyString, s)
  | _, _ => (EmptyString, s)
  end.

(** [sscanf(p, "%63[^= ] = %511s", key, value) == 2], with the two
    strings it stores. *)
Definition sscanf_key_value (p : string) : option (string * string) :=
  let '(key, r1) :=
    scan (fun c => negb (Ascii.eqb c "=" || Ascii.eqb c " ")) 63 p in
  match key with
  | EmptyString => None
  | _ =>
      match skip_space r1 with
      | String c r2 =>
          if Ascii.eqb c "="
          then let '(value, _) :=
                 scan (fun c => negb (isspace c)) 511 (skip_space r2) in
               match value with
               | EmptyString => None
               | _ => Some (key, value)
               end
          else None
      | EmptyString => None
      end
  end.

End CString.

(* ------------------------------------------------------------------ *)
(** * src/model_resolver.c                                              *)
(* ------------------------------------------------------------------ *)
Module Resolver.
Import CString.

(** What one [fprintf(stderr, ...)] of the resolver prints. *)
Definition nl : string := String "010" "".

Definition msg_too_long : string :=
  "[neuron-shim] ERROR: resolved path too long" +:+ nl.

Definition msg_not_found (original_path resolved : string) : string :=
  nl +:+
  "╔══════════════════════════════════════════════════════════╗" +:+ nl +:+
  "║  neuron-shim: MODEL FILE NOT FOUND                      ║" +:+ nl +:+
  "╠══════════════════════════════════════════════════════════╣" +:+ nl +:+
  "║                                                          ║" +:+ nl +:+
  "║  Application requested:                                  ║" +:+ nl +:+
  "║    " +:+ original_path +:+ nl +:+
  "║                                                          ║" +:+ nl +:+
  "║  Shim looked for:                                        ║" +:+ nl +:+
  "║    " +:+ resolved +:+ nl +:+
  "║                                                          ║" +:+ nl.

Definition msg_fix_redirect (model_dir suffix resolved : string) : string :=
  "║  model_dir is set to:                                     ║" +:+ nl +:+
  "║    " +:+ model_dir +:+ nl +:+
  "║                                                          ║" +:+ nl +:+
  "║  To fix, place your converted model there:               ║" +:+ nl +:+
  "║    cp your_model" +:+ suffix +:+ " " +:+ resolved +:+ nl.

Definition msg_fix_in_place (suffix resolved : string) : string :=
  "║  To fix, place the converted model next to the original: ║" +:+ nl +:+
  "║    cp your_model" +:+ suffix +:+ " " +:+ resolved +:+ nl +:+
  "║                                                          ║" +:+ nl +:+
  "║  Or set model_dir in neuron-shim.conf to redirect:       ║" +:+ nl +:+
  "║    model_dir = /opt/models                               ║" +:+ nl.

Definition msg_box_end : string :=
  "║                                                          ║" +:+ nl +:+
  "╚══════════════════════════════════════════════════════════╝" +:+ nl +:+ nl.

(** [model_dir && model_dir[0] != 0] *)
Definition redirect_set (model_dir : option string) : bool :=
  match model_dir with
  | Some (String _ _) => true
  | _ => false
  end.

(** The separator chosen at lines 44-46. *)
Definition sep (model_dir : string) : string :=
  match last_char model_dir with
  | Some c => if Ascii.eqb c slash then "" else "/"
  | None => "/"
  end.

(** The text handed to the [snprintf] that fills [resolved]
    (lines 33-54), before any truncation to [resolved_len]. *)
Definition formatted (original_path suffix : string)
                     (model_dir : option string) : string :=
  match model_dir with
  | Some (String _ _ as dir) =>
      let tmp := snprintf_buf "" 1024 original_path in
      let base := basename tmp in
      dir +:+ sep dir +:+ base +:+ suffix
  | _ => original_path +:+ suffix
  end.

(** The model resolution rule in the words of the specification:
    without a redirect directory (unset or empty) the resolved path is
    [P + S]; with a redirect directory [D] it is [D], then a separator
    only if [D] lacks a trailing one, then [baseName(P)], then [S]. *)
Definition ends_with_slash (d : string) : bool :=
  match last_char d with
  | Some c => Ascii.eqb c slash
  | None => false
  end.

Definition resolution_rule (P suffix : string) (D : option string) : string :=
  match D with
  | None | Some EmptyString => P +:+ suffix
  | Some d =>
      d +:+ (if ends_with_slash d then "" else "/") +:+ basename P +:+ suffix
  end.

Record result := {
  rc : Z;                      (* return value *)
  resolved : option string;    (* output buffer afterwards; None = NULL *)
  diag : list string;          (* what was printed on stderr *)
}.

(** [access_R_OK p] is [access(p, R_OK) == 0]. *)
Definition neuron_shim_resolve_model
    (access_R_OK : string -> bool)
    (original_path suffix model_dir : option string)
    (resolved_in : option string) (resolved_len : Z) : result :=
  match original_path, suffix, resolved_in with
  | Some path, Some sfx, Some old =>
      let out := formatted path sfx model_dir in
      let written := snprintf_ret out in
      let buf := snprintf_buf old resolved_len out in
      if (written <? 0) || (resolved_len <=? written) then
        {| rc := -1; resolved := Some buf; diag := [msg_too_long] |}
      else if negb (access_R_OK buf) then
        {| rc := -1; resolved := Some buf;
           diag := [ msg_not_found path buf;
                     match model_dir with
                     | Some (String _ _ as dir) => msg_fix_redirect dir sfx buf
                     | _ => msg_fix_in_place sfx buf
                     end;
                     msg_box_end ] |}
      else {| rc := 0; resolved := Some buf; diag := [] |}
  | _, _, _ => {| rc := -1; resolved := resolved_in; diag := [] |}
  end.

End Resolver.

(* ------------------------------------------------------------------ *)
(** * src/config.c                                                      *)
(* ------------------------------------------------------------------ *)
Module Config.
Import CString.

Record NeuronShimConfig := {
  backend   : string;   (* char[32]:  auto | onnx | tflite | stub *)
  suffix    : string;   (* char[32]:  auto | .onnx | .tflite *)
  model_dir : string;   (* char[512]: empty = use original path *)
  threads   : Z;
  force_cpu : bool;
  log_level : Z;
}.

(** The initial value of the static [g_config]. *)
Definition g_config : NeuronShimConfig :=
  {| backend := "auto"; suffix := "auto"; model_dir := "";
     threads := 4; force_cpu := false; log_level := 3 |}.

Definition set_backend v c :=
  {| backend := v; suffix := suffix c; model_dir := model_dir c;
     threads := threads c; force_cpu := force_cpu c; log_level := log_level c |}.
Definition set_suffix v c :=
  {| backend := backend c; suffix := v; model_dir := model_dir c;
     threads := threads c; force_cpu := force_cpu c; log_level := log_level c |}.
Definition set_model_dir v c :=
  {| backend := backend c; suffix := suffix c; model_dir := v;
     threads := threads c; force_cpu := force_cpu c; log_level := log_level c |}.
Definition set_threads v c :=
  {| backend := backend c; suffix := suffix c; model_dir := model_dir c;
     threads := v; force_cpu := force_cpu c; log_level := log_level c |}.
Definition set_force_cpu v c :=
  {| backend := backend c; suffix := suffix c; model_dir := model_dir c;
     threads := threads c; force_cpu := v; log_level := log_level c |}.
Definition set_log_level v c :=
  {| backend := backend c; suffix := suffix c; model_dir := model_dir c;
     threads := threads c; force_cpu := force_cpu c; log_level := v |}.

(** Lines 37-51: the [strcmp] chain on a parsed [key = value]. *)
Definition apply_setting (key value : string) (c : NeuronShimConfig)
    : NeuronShimConfig :=
  if String.eqb key "backend" then set_backend (strncpy_term 31 value) c
  else if String.eqb key "suffix" then set_suffix (strncpy_term 31 value) c
  else if String.eqb key "model_dir" then
    set_model_dir (snprintf_buf (model_dir c) 512 value) c
  else if String.eqb key "threads" then set_threads (atoi value) c
  else if String.eqb key "force_cpu" then
    set_force_cpu (String.eqb value "true" || String.eqb value "1") c
  else if String.eqb key "log_level" then set_log_level (atoi value) c
  else c.

Fixpoint skip_blank (s : string) : string :=
  match s with
  | String c s' =>
      if Ascii.eqb c " " || Ascii.eqb c "009" then skip_blank s' else s
  | EmptyString => EmptyString
  end.

(** Lines 31-36: what one line read by [fgets] assigns, if anything.
    [line] holds the bytes that [fgets] stored; the loop reads them as a
    C string, which ends at the first NUL among them. *)
Definition parse_line (line : string) : option (string * string) :=
  match skip_blank (c_str line) with
  | EmptyString => None
  | String c _ as p =>
      if Ascii.eqb c "#" || Ascii.eqb c "010" then None
      else sscanf_key_value p
  end.

Definition config_line (c : NeuronShimConfig) (line : string)
    : NeuronShimConfig :=
  match parse_line line with
  | Some (key, value) => apply_setting key value c
  | None => c
  end.

(** The file system as the loader sees it: the text of each file that
    [fopen(path, "r")] can open. *)
Definition parse_config_file (fs : gmap string string) (path : string)
    (c : NeuronShimConfig) : NeuronShimConfig :=
  match fs !! path with
  | None => c
  | Some text => foldl config_line c (fgets_all 512 text)
  end.

Definition system_conf : string := "/etc/neuron-shim.conf".
Definition local_conf : string := "./neuron-shim.conf".

Definition env_override (env : gmap string string) (name : string)
    (upd : string -> NeuronShimConfig -> NeuronShimConfig)
    (c : NeuronShimConfig) : NeuronShimConfig :=
  match env !! name with
  | Some v => upd v c
  | None => c
  end.

(** [neuron_shim_config_load], started on the value [g] of [g_config];
    [env] is the process environment read by [getenv]. *)
Definition neuron_shim_config_load_from (g : NeuronShimConfig)
    (fs env : gmap string string) : NeuronShimConfig :=
  let c := parse_config_file fs system_conf g in
  let c := parse_config_file fs local_conf c in
  let c := env_override env "NEURON_SHIM_BACKEND"
             (fun v => set_backend (strncpy_term 31 v)) c in
  let c := env_override env "NEURON_SHIM_SUFFIX"
             (fun v => set_suffix (strncpy_term 31 v)) c in
  let c := env_override env "NEURON_SHIM_MODEL_DIR"
             (fun v c => set_model_dir (snprintf_buf (model_dir c) 512 v) c) c in
  let c := env_override env "NEURON_SHIM_NUM_THREADS"
             (fun v => set_threads (atoi v)) c in
  let c := env_override env "NEURON_SHIM_FORCE_CPU"
             (fun v => set_force_cpu (String.eqb v "1")) c in
  let c := env_override env "NEURON_SHIM_LOG_LEVEL"
             (fun v => set_log_level (atoi v)) c in
  c.

Definition neuron_shim_config_load := neuron_shim_config_load_from g_config.

(** [neuron_shim_config_get_suffix] *)
Definition neuron_shim_config_get_suffix (cfg : NeuronShimConfig) : string :=
  if negb (String.eqb (suffix cfg) "auto") then suffix cfg
  else if String.eqb (backend cfg) "tflite" then ".tflite"
  else ".onnx".

(** ** The layered reading of the sources

    A field, the value it holds, and what each source says about it. *)
Inductive field :=
  Backend | Suffix | ModelDir | Threads | ForceCpu | LogLevel.

Inductive value := VStr (s : string) | VInt (z : Z) | VBool (b : bool).

Definition get (f : field) (c : NeuronShimConfig) : value :=
  match f with
  | Backend => VStr (backend c)
  | Suffix => VStr (suffix c)
  | ModelDir => VStr (model_dir c)
  | Threads => VInt (threads c)
  | ForceCpu => VBool (force_cpu c)
  | LogLevel => VInt (log_level c)
  end.

Definition file_key (f : field) : string :=
  match f with
  | Backend => "backend"
  | Suffix => "suffix"
  | ModelDir => "model_dir"
  | Threads => "threads"
  | ForceCpu => "force_cpu"
  | LogLevel => "log_level"
  end.

Definition env_name (f : field) : string :=
  match f with
  | Backend => "NEURON_SHIM_BACKEND"
  | Suffix => "NEURON_SHIM_SUFFIX"
  | ModelDir => "NEURON_SHIM_MODEL_DIR"
  | Threads => "NEURON_SHIM_NUM_THREADS"
  | ForceCpu => "NEURON_SHIM_FORCE_CPU"
  | LogLevel => "NEURON_SHIM_LOG_LEVEL"
  end.

(** How the text found in a file, resp. in the environment, is stored
    into field [f]. *)
Definition file_conv (f : field) (v : string) : value :=
  match f with
  | Backend | Suffix => VStr (strn 31 v)
  | ModelDir => VStr (strn 511 v)
  | Threads | LogLevel => VInt (atoi v)
  | ForceCpu => VBool (String.eqb v "true" || String.eqb v "1")
  end.

Definition env_conv (f : field) (v : string) : value :=
  match f with
  | Backend | Suffix => VStr (strn 31 v)
  | ModelDir => VStr (strn 511 v)
  | Threads | LogLevel => VInt (atoi v)
  | ForceCpu => VBool (String.eqb v "1")
  end.

(** The value of a line that assigns [key]. *)
Definition assigns (key : string) (line : string) : option string :=
  match parse_line line with
  | Some (k, v) => if String.eqb k key then Some v else None
  | None => None
  end.

(** The text the file at [path] gives for field [f]: the value on the
    last of its lines that assigns the field's key; [None] when the file
    cannot be opened or has no such line. *)
Definition file_text (fs : gmap string string) (path : string) (f : field)
    : option string :=
  match fs !! path with
  | None => None
  | Some text => last (omap (assigns (file_key f)) (fgets_all 512 text))
  end.

(** What the file at [path], resp. the environment, sets field [f] to. *)
Definition file_sets (fs : gmap string string) (path : string) (f : field)
    : option value :=
  file_conv f <$> file_text fs path f.

Definition env_sets (env : gmap string string) (f : field) : option value :=
  env_conv f <$> env !! env_name f.

(** Environment, else local file, else system file, else the value
    compiled in. *)
Definition layered (g : NeuronShimConfig) (fs env : gmap string string)
    (f : field) : value :=
  match env_sets env f with
  | Some v => v
  | None =>
      match file_sets fs local_conf f with
      | Some v => v
      | None =>
          match file_sets fs system_conf f with
          | Some v => v
          | None => get f g
          end
      end
  end.

(** The text supplied for field [f] by the source that wins. *)
Definition supplied (fs env : gmap string string) (f : field) : option string :=
  match env !! env_name f with
  | Some v => Some v
  | None =>
      match file_text fs local_conf f with
      | Some v => Some v
      | None => file_text fs system_conf f
      end
  end.

Definition numeric (f : field) : bool :=
  match f with
  | Threads | LogLevel => true
  | _ => false
  end.

End Config.

(* ------------------------------------------------------------------ *)
(** * src/backend_selector.c                                            *)
(* ------------------------------------------------------------------ *)
Module Selector.

(** The three adapters of backend.h. *)
Inductive backend_id := BOnnx | BTflite | BStub.

Definition backend_name (b : backend_id) : string :=
  match b with
  | BOnnx => "onnx"
  | BTflite => "tflite"
  | BStub => "stub"
  end.

(** What the build and the machine provide: the two compile-time
    switches, and the shared libraries that [dlopen] finds (already
    loaded, or loadable). *)
Record platform := {
  SHIM_HAS_ONNX : bool;
  SHIM_HAS_TFLITE : bool;
  dlopen : string -> bool;
}.

Definition nl : string := String "010" "".

(** The auto-detection part, lines 24-57. *)
Definition auto_detect (p : platform) : backend_id * list string :=
  if SHIM_HAS_ONNX p && dlopen p "libonnxruntime.so" then
    (BOnnx, ["[neuron-shim] auto-selected: onnx" +:+ nl])
  else if SHIM_HAS_TFLITE p && dlopen p "libtensorflowlite_c.so" then
    (BTflite, ["[neuron-shim] auto-selected: tflite" +:+ nl])
  else (BStub, ["[neuron-shim] using stub backend" +:+ nl]).

(** [neuron_shim_select_backend]: the adapter and the text printed on
    stderr. [name = None] is the NULL pointer. *)
Definition neuron_shim_select_backend (p : platform) (name : option string)
    : backend_id * list string :=
  match name with
  | Some n =>
      if SHIM_HAS_ONNX p && String.eqb n "onnx" then (BOnnx, [])
      else if SHIM_HAS_TFLITE p && String.eqb n "tflite" then (BTflite, [])
      else if String.eqb n "stub" then (BStub, [])
      else
        let '(b, out) := auto_detect p in
        (b, ("[neuron-shim] unknown backend '" +:+ n +:+ "', falling back" +:+ nl)
              :: out)
  | None => auto_detect p
  end.

End Selector.

(* ------------------------------------------------------------------ *)
(** * Caller memory                                                     *)
(* ------------------------------------------------------------------ *)
Module Mem.

(** Addresses are integers, [0] is the NULL pointer; every address
    holds a byte. *)
Definition memory := Z -> Byte.byte.

Definition in_range (p n a : Z) : bool := (p <=? a) && (a <? p + n).

(** [memset(p, 0, n)] *)
Definition memset0 (m : memory) (p n : Z) : memory :=
  fun a => if in_range p n a then Byte.x00 else m a.

(** [memcpy(p, src, n)], the source given by its bytes. *)
Definition memcpy (m : memory) (p : Z) (src : Z -> Byte.byte) (n : Z) : memory :=
  fun a => if in_range p n a then src (a - p) else m a.

(** The [n] bytes at [p] are all zero. *)
Definition zero_filled (m : memory) (p n : Z) : Prop :=
  forall a, p <= a < p + n -> m a = Byte.x00.

(** One write made into caller memory: where, and how many bytes. *)
Record write := { w_dst : Z; w_len : Z }.

(** A caller buffer bound to a tensor slot. *)
Record binding := { b_buf : Z; b_size : Z }.

Definition no_binding : binding := {| b_buf := 0; b_size := 0 |}.

#[global] Instance binding_inhabited : Inhabited binding := populate no_binding.


(** Memory changed from [m] to [m'] at most where the writes [ws] went. *)
Definition only_written (ws : list write) (m m' : memory) : Prop :=
  forall a,
    (forall w, w ∈ ws -> in_range (w_dst w) (w_len w) a = false) ->
    m' a = m a.

(** The loop state [st'] extends [st] by writes that satisfy [P], and
    memory moved only where they went. *)
Definition adds (P : write -> Prop) (st st' : memory * list write) : Prop :=
  exists new,
    snd st' = snd st ++ new /\ Forall P new /\ only_written new (fst st) (fst st').

End Mem.

(* ------------------------------------------------------------------ *)
(** * src/backend_stub.c                                                *)
(* ------------------------------------------------------------------ *)
Module Stub.
Import CString Mem.

Definition MAX_TENSORS : Z := 32.

Record StubContext := {
  model_path : string;
  inputs : list Z;            (* inputs[i].size *)
  outputs : list binding;     (* outputs[i].size, outputs[i].buf *)
  input_count : Z;
  output_count : Z;
  inference_count : Z;
}.

(** The context [calloc] returns in [stub_create]. *)
Definition stub_create : Z * StubContext :=
  (0, {| model_path := ""; inputs := replicate 32 0;
         outputs := replicate 32 no_binding;
         input_count := 0; output_count := 0; inference_count := 0 |}).

Definition stub_load_from_file (c : StubContext) (path : string)
    : Z * StubContext :=
  (0, {| model_path := snprintf_buf (model_path c) 1024 path;
         inputs := inputs c; outputs := outputs c;
         input_count := 1; output_count := 1;
         inference_count := inference_count c |}).

(** [%zu] *)
Definition decimal (z : Z) : string :=
  NilZero.string_of_uint (N.to_uint (Z.to_N z)).

Definition stub_load_from_buffer (c : StubContext) (buf size : Z)
    : Z * StubContext :=
  (0, {| model_path :=
           snprintf_buf (model_path c) 1024
             ("<buffer:" +:+ decimal size +:+ " bytes>");
         inputs := inputs c; outputs := outputs c;
         input_count := 1; output_count := 1;
         inference_count := inference_count c |}).

Definition stub_get_input_count (c : StubContext) : Z * Z :=
  (0, if 0 <? input_count c then input_count c else 1).

Definition stub_get_output_count (c : StubContext) : Z * Z :=
  (0, if 0 <? output_count c then output_count c else 1).

(** The accessors and binders index the tables with any [index] below
    [MAX_TENSORS]; a negative index is an access outside the array, for
    which C defines no behaviour: the model gives [None] there. *)
Definition stub_get_input_size (c : StubContext) (index : Z)
    : option (Z * Z) :=
  if index <? MAX_TENSORS then
    if index <? 0 then None
    else let sz := inputs c !!! Z.to_nat index in
         Some (0, if 0 <? sz then sz else 1024)
  else Some (0, 1024).

Definition stub_get_output_size (c : StubContext) (index : Z)
    : option (Z * Z) :=
  if index <? MAX_TENSORS then
    if index <? 0 then None
    else let sz := b_size (outputs c !!! Z.to_nat index) in
         Some (0, if 0 <? sz then sz else 1024)
  else Some (0, 1024).

Definition stub_set_input (c : StubContext) (index buf size : Z)
    : option (Z * StubContext) :=
  if index <? MAX_TENSORS then
    if index <? 0 then None
    else Some (0, {| model_path := model_path c;
                     inputs := <[Z.to_nat index := size]> (inputs c);
                     outputs := outputs c;
                     input_count := if input_count c <=? index
                                    then index + 1 else input_count c;
                     output_count := output_count c;
                     inference_count := inference_count c |})
  else Some (0, c).

Definition stub_set_output (c : StubContext) (index buf size : Z)
    : option (Z * StubContext) :=
  if index <? MAX_TENSORS then
    if index <? 0 then None
    else Some (0, {| model_path := model_path c;
                     inputs := inputs c;
                     outputs := <[Z.to_nat index :=
                                   {| b_buf := buf; b_size := size |}]> (outputs c);
                     input_count := input_count c;
                     output_count := if output_count c <=? index
                                     then index + 1 else output_count c;
                     inference_count := inference_count c |})
  else Some (0, c).

(** The indices visited by [for (i = 0; i < output_count && i < MAX_TENSORS; i++)]. *)
Definition visited (c : StubContext) : list nat :=
  seq 0 (Z.to_nat (Z.min (output_count c) MAX_TENSORS)).

(** One turn of the loop of [stub_invoke] on slot [b]. *)
Definition zero_slot (st : memory * list write) (b : binding)
    : memory * list write :=
  if negb (b_buf b =? 0) && (0 <? b_size b)
  then (memset0 (fst st) (b_buf b) (b_size b),
        snd st ++ [{| w_dst := b_buf b; w_len := b_size b |}])
  else st.

(** [stub_invoke]: return value, context, memory, and the writes made.
    The counter is an [int]: its increment wraps on 32 bits. *)
Definition stub_invoke (c : StubContext) (m : memory)
    : Z * StubContext * memory * list write :=
  let c' := {| model_path := model_path c; inputs := inputs c;
               outputs := outputs c; input_count := input_count c;
               output_count := output_count c;
               inference_count := int_wrap (inference_count c + 1) |} in
  let '(m', ws) :=
    foldl (fun st i => zero_slot st (outputs c !!! i)) (m, []) (visited c) in
  (0, c', m', ws).

(** The loop of [stub_invoke], from any loop state. *)
Definition zero_loop (c : StubContext) (st : memory * list write)
    (l : list nat) : memory * list write :=
  foldl (fun st i => zero_slot st (outputs c !!! i)) st l.

(** The write comes from a slot that the loop of [stub_invoke] visits,
    and covers the whole bound size. *)
Definition from_visited (c : StubContext) (w : write) : Prop :=
  exists i : nat,
    i ∈ visited c /\ b_buf (outputs c !!! i) <> 0 /\
    0 < b_size (outputs c !!! i) /\
    w_dst w = b_buf (outputs c !!! i) /\ w_len w = b_size (outputs c !!! i).


(** Address [a] lies in a buffer that [stub_invoke] visits. *)
Definition covered (c : StubContext) (a : Z) : bool :=
  existsb (fun i => let b := outputs c !!! i in
                    negb (b_buf b =? 0) && in_range (b_buf b) (b_size b) a)
          (visited c).

(** ** Sequences of calls

    What an application does with a context between create and release;
    [Store] is the application writing a byte of its own memory. *)
Inductive op :=
| LoadFromFile (path : string)
| LoadFromBuffer (buf size : Z)
| SetInput (index buf size : Z)
| SetOutput (index buf size : Z)
| Invoke
| Store (addr : Z) (b : Byte.byte).

Definition step (st : StubContext * memory) (o : op)
    : option (StubContext * memory) :=
  let '(c, m) := st in
  match o with
  | LoadFromFile path => Some (snd (stub_load_from_file c path), m)
  | LoadFromBuffer buf size => Some (snd (stub_load_from_buffer c buf size), m)
  | SetInput i buf size =>
      match stub_set_input c i buf size with
      | Some (_, c') => Some (c', m)
      | None => None
      end
  | SetOutput i buf size =>
      match stub_set_output c i buf size with
      | Some (_, c') => Some (c', m)
      | None => None
      end
  | Invoke => let '(_, c', m', _) := stub_invoke c m in Some (c', m')
  | Store addr b => Some (c, fun a => if a =? addr then b else m a)
  end.

Fixpoint run (ops : list op) (st : StubContext * memory)
    : option (StubContext * memory) :=
  match ops with
  | [] => Some st
  | o :: ops' =>
      match step st o with
      | Some st' => run ops' st'
      | None => None
      end
  end.

(** The output buffers bound by the calls so far, in the words of the
    interface: [set_output] binds a buffer to a slot of the table
    (indices [0 .. MAX_TENSORS - 1]), a later [set_output] on the slot
    replaces it, and loading a model starts afresh. *)
Definition rebind (bound : Z -> option binding) (o : op) : Z -> option binding :=
  match o with
  | LoadFromFile _ | LoadFromBuffer _ _ => fun _ => None
  | SetOutput i buf size =>
      if (0 <=? i) && (i <? MAX_TENSORS)
      then fun j => if j =? i then Some {| b_buf := buf; b_size := size |}
                    else bound j
      else bound
  | _ => bound
  end.

Definition bound_after (ops : list op) : Z -> option binding :=
  foldl rebind (fun _ => None) ops.

(** The table of the context agrees with the bindings made so far. *)
Definition tracks (bound : Z -> option binding) (c : StubContext) : Prop :=
  length (outputs c) = 32%nat /\
  forall i b, bound i = Some b ->
    0 <= i < 32 /\ i < output_count c /\ outputs c !!! Z.to_nat i = b.

End Stub.

(* ------------------------------------------------------------------ *)
(** * src/backend_onnx.c                                                *)
(* ------------------------------------------------------------------ *)
Module Onnx.
Import Mem.

Definition MAX_TENSORS : Z := 32.
Definition SIZE_MAX1 : Z := 2 ^ 64.   (* size_t is 64 bits wide *)

(** [(size_t)index] for an [int] index. *)
Definition to_size_t (z : Z) : Z := z mod SIZE_MAX1.

(** The element types [ort_element_size] tells apart. *)
Inductive elem_type :=
  FLOAT | UINT8 | INT8 | UINT16 | INT16 | INT32 | INT64 | FLOAT16 | DOUBLE
| BOOL | OTHER.

Definition ort_element_size (t : elem_type) : Z :=
  match t with
  | FLOAT => 4 | UINT8 => 1 | INT8 => 1 | UINT16 => 2 | INT16 => 2
  | INT32 => 4 | INT64 => 8 | FLOAT16 => 2 | DOUBLE => 8 | BOOL => 1
  | OTHER => 4
  end.

(** [compute_tensor_size]: the product is taken in [size_t]. *)
Definition compute_tensor_size (shape : list Z) (t : elem_type) : Z :=
  foldl (fun total d => to_size_t (total * (if d <=? 0 then 1 else d)))
        (ort_element_size t) shape.

(** What ONNX Runtime reports about one tensor of a session. *)
Record tensor_info := { ti_shape : list Z; ti_type : elem_type }.

(** The queries [populate_tensor_info] puts to ONNX Runtime under
    [ORT_CHECK]: six about every tensor it visits, in this order, and
    three about the session. *)
Inductive tensor_query :=
  GetName | GetTypeInfo | CastTypeInfoToTensorInfo | GetTensorElementType
| GetDimensionsCount | GetDimensions.

Inductive ort_query :=
| GetAllocatorWithDefaultOptions
| SessionGetInputCount
| InputQuery (i : nat) (q : tensor_query)
| SessionGetOutputCount
| OutputQuery (i : nat) (q : tensor_query).

(** A session as the adapter sees it: the tensors of the model, and the
    queries that report an error. *)
Record OrtSession := {
  s_inputs : list tensor_info;
  s_outputs : list tensor_info;
  s_fails : ort_query -> bool;
}.

Record OnnxContext := {
  session : option OrtSession;
  inputs : list Z;              (* inputs[i].size *)
  input_count : Z;
  outputs : list Z;             (* outputs[i].size *)
  output_count : Z;
  input_bindings : list binding;
  output_bindings : list binding;
}.

(** The zeroed context of [onnx_create]. *)
Definition onnx_created : OnnxContext :=
  {| session := None; inputs := replicate 32 0; input_count := 0;
     outputs := replicate 32 0; output_count := 0;
     input_bindings := replicate 32 no_binding;
     output_bindings := replicate 32 no_binding |}.

(** One of the two loops of [populate_tensor_info], lines 265-296 and
    302-333, from tensor [i] on: [infos] are the tensors still to visit,
    [table] holds the sizes. The loop leaves with -1 at the first query
    that reports an error. [GetDimensions] is handed the array
    [shape[8]] together with the dimension count of the tensor: for a
    tensor of more than 8 dimensions the store falls outside the array,
    and the model gives [None]. *)
Fixpoint fill (fails : nat -> tensor_query -> bool) (i : nat)
    (infos : list tensor_info) (table : list Z) : option (Z * list Z) :=
  match infos with
  | [] => Some (0, table)
  | ti :: rest =>
      if fails i GetName || fails i GetTypeInfo
         || fails i CastTypeInfoToTensorInfo || fails i GetTensorElementType
         || fails i GetDimensionsCount
      then Some (-1, table)
      else if (8 <? length (ti_shape ti))%nat then None
      else if fails i GetDimensions then Some (-1, table)
      else fill fails (S i) rest
             (<[i := compute_tensor_size (ti_shape ti) (ti_type ti)]> table)
  end.

(** The count a session reports, clamped to [MAX_TENSORS]. *)
Definition clamped (infos : list tensor_info) : Z :=
  Z.min MAX_TENSORS (Z.of_nat (length infos)).

(** [populate_tensor_info] on the session [s] that [CreateSession] has
    stored in the context: the status and the context it leaves, [None]
    when a store falls outside [shape[8]]. *)
Definition populate_tensor_info (c : OnnxContext) (s : OrtSession)
    : option (Z * OnnxContext) :=
  let c0 := {| session := Some s; inputs := inputs c;
               input_count := input_count c; outputs := outputs c;
               output_count := output_count c;
               input_bindings := input_bindings c;
               output_bindings := output_bindings c |} in
  if s_fails s GetAllocatorWithDefaultOptions then Some (-1, c0)
  else if s_fails s SessionGetInputCount then Some (-1, c0)
  else
    match fill (fun i q => s_fails s (InputQuery i q)) 0
               (take (Z.to_nat (clamped (s_inputs s))) (s_inputs s))
               (inputs c) with
    | None => None
    | Some (r, sizes_in) =>
        let c1 := {| session := Some s; inputs := sizes_in;
                     input_count := clamped (s_inputs s);
                     outputs := outputs c; output_count := output_count c;
                     input_bindings := input_bindings c;
                     output_bindings := output_bindings c |} in
        if negb (r =? 0) then Some (-1, c1)
        else if s_fails s SessionGetOutputCount then Some (-1, c1)
        else
          match fill (fun i q => s_fails s (OutputQuery i q)) 0
                     (take (Z.to_nat (clamped (s_outputs s))) (s_outputs s))
                     (outputs c) with
          | None => None
          | Some (r, sizes_out) =>
              Some (r, {| session := Some s; inputs := sizes_in;
                          input_count := clamped (s_inputs s);
                          outputs := sizes_out;
                          output_count := clamped (s_outputs s);
                          input_bindings := input_bindings c;
                          output_bindings := output_bindings c |})
          end
    end.

(** [onnx_load_from_file]; [create_session] is [CreateSession], [None]
    when it reports an error. *)
Definition onnx_load_from_file (create_session : string -> option OrtSession)
    (c : OnnxContext) (path : string) : option (Z * OnnxContext) :=
  match create_session path with
  | None => Some (-1, c)
  | Some s => populate_tensor_info c s
  end.

(** The context has its two tables of 32 sizes. *)
Definition well_formed (c : OnnxContext) : Prop :=
  length (inputs c) = 32%nat /\ length (outputs c) = 32%nat.

Definition onnx_get_input_count (c : OnnxContext) : Z * Z :=
  (0, input_count c mod 2 ^ 32).

Definition onnx_get_output_count (c : OnnxContext) : Z * Z :=
  (0, output_count c mod 2 ^ 32).

(** Return value and, when it is written, the value stored in [*size]. *)
Definition onnx_get_input_size (c : OnnxContext) (index : Z)
    : Z * option Z :=
  if input_count c <=? to_size_t index then (-1, None)
  else (0, Some (inputs c !!! Z.to_nat index)).

Definition onnx_get_output_size (c : OnnxContext) (index : Z)
    : Z * option Z :=
  if output_count c <=? to_size_t index then (-1, None)
  else (0, Some (outputs c !!! Z.to_nat index)).

Definition onnx_set_input (c : OnnxContext) (index buf size : Z)
    : Z * OnnxContext :=
  if MAX_TENSORS <=? to_size_t index then (-1, c)
  else (0, {| session := session c; inputs := inputs c;
              input_count := input_count c; outputs := outputs c;
              output_count := output_count c;
              input_bindings := <[Z.to_nat index :=
                                   {| b_buf := buf; b_size := size |}]>
                                  (input_bindings c);
              output_bindings := output_bindings c |}).

Definition onnx_set_output (c : OnnxContext) (index buf size : Z)
    : Z * OnnxContext :=
  if MAX_TENSORS <=? to_size_t index then (-1, c)
  else (0, {| session := session c; inputs := inputs c;
              input_count := input_count c; outputs := outputs c;
              output_count := output_count c;
              input_bindings := input_bindings c;
              output_bindings := <[Z.to_nat index :=
                                    {| b_buf := buf; b_size := size |}]>
                                   (output_bindings c) |}).

(** One run of the engine, as far as the adapter observes it:
    whether the input tensor [i] could be wrapped around its bound
    buffer, whether [Run] succeeded, the tensor it produced for output
    [i] (its bytes; [None] for a NULL [OrtValue]), and whether
    [GetTensorMutableData] succeeded on it. *)
Record OrtRun := {
  input_ok : nat -> binding -> bool;
  run_ok : bool;
  output_tensor : nat -> option (Z -> Byte.byte);
  data_ok : nat -> bool;
}.

(** The copy loop, lines 457-470; it leaves with -1 as soon as an
    [ORT_CHECK] fails. *)
Fixpoint copy_outputs (r : OrtRun) (c : OnnxContext) (idx : list nat)
    (m : memory) (ws : list write) : Z * memory * list write :=
  match idx with
  | [] => (0, m, ws)
  | i :: idx' =>
      let b := output_bindings c !!! i in
      match output_tensor r i with
      | Some data =>
          if b_buf b =? 0 then copy_outputs r c idx' m ws
          else if negb (data_ok r i) then (-1, m, ws)
          else
            let copy_size :=
              if outputs c !!! i <? b_size b then outputs c !!! i
              else b_size b in
            copy_outputs r c idx' (memcpy m (b_buf b) data copy_size)
                         (ws ++ [{| w_dst := b_buf b; w_len := copy_size |}])
      | None => copy_outputs r c idx' m ws
      end
  end.

Definition onnx_invoke (r : OrtRun) (c : OnnxContext) (m : memory)
    : Z * memory * list write :=
  match session c with
  | None => (-1, m, [])
  | Some _ =>
      if negb (forallb (fun i => input_ok r i (input_bindings c !!! i))
                       (seq 0 (Z.to_nat (input_count c))))
      then (-1, m, [])
      else if negb (run_ok r) then (-1, m, [])
      else copy_outputs r c (seq 0 (Z.to_nat (output_count c))) m []
  end.


End Onnx.

(* ------------------------------------------------------------------ *)
(** * src/backend_tflite.c                                              *)
(* ------------------------------------------------------------------ *)
Module TFLite.
Import Mem.

Definition MAX_TENSORS : Z := 32.

(** A tensor of the interpreter: its byte size and its bytes. *)
Record TfLiteTensor := { bytes : Z; data : Z -> Byte.byte }.

(** The interpreter as the adapter sees it through the TFLite C API. *)
Record TfLiteInterpreter := {
  input_tensors : list TfLiteTensor;
  output_tensors : list TfLiteTensor;
}.

(** The lookup of a library that checks the index: a tensor exactly for
    [0 <= index < count], NULL otherwise. *)
Definition get_tensor (ts : list TfLiteTensor) (index : Z)
    : option TfLiteTensor :=
  if index <? 0 then None else ts !! Z.to_nat index.

(** [TfLiteInterpreterGetInputTensor] / [...GetOutputTensor], functions
    of the TFLite C API, not of this repository. The adapter tests their
    result against NULL and never compares [index] with a tensor count
    itself: what they answer for an index that names no tensor is up to
    the library. *)
Record TfLiteApi := {
  TfLiteInterpreterGetInputTensor :
    TfLiteInterpreter -> Z -> option TfLiteTensor;
  TfLiteInterpreterGetOutputTensor :
    TfLiteInterpreter -> Z -> option TfLiteTensor;
}.

(** The library that checks the index. The copy loop of [tflite_invoke]
    and [tflite_set_input] below are written over it. *)
Definition checked_lookup : TfLiteApi :=
  {| TfLiteInterpreterGetInputTensor it index :=
       get_tensor (input_tensors it) index;
     TfLiteInterpreterGetOutputTensor it index :=
       get_tensor (output_tensors it) index |}.

Record TFLiteContext := {
  interpreter : option TfLiteInterpreter;
  output_bindings : list binding;
  output_binding_count : Z;
}.

Definition tflite_created : TFLiteContext :=
  {| interpreter := None; output_bindings := replicate 32 no_binding;
     output_binding_count := 0 |}.

Definition tflite_get_input_count (c : TFLiteContext) : Z * option Z :=
  match interpreter c with
  | None => (-1, None)
  | Some it => (0, Some (Z.of_nat (length (input_tensors it))))
  end.

Definition tflite_get_output_count (c : TFLiteContext) : Z * option Z :=
  match interpreter c with
  | None => (-1, None)
  | Some it => (0, Some (Z.of_nat (length (output_tensors it))))
  end.

(** [tflite_get_input_size] and [tflite_get_output_size] over a
    library [api]. *)
Definition tflite_get_input_size_with (api : TfLiteApi) (c : TFLiteContext)
    (index : Z) : Z * option Z :=
  match interpreter c with
  | None => (-1, None)
  | Some it =>
      match TfLiteInterpreterGetInputTensor api it index with
      | None => (-1, None)
      | Some t => (0, Some (bytes t))
      end
  end.

Definition tflite_get_output_size_with (api : TfLiteApi) (c : TFLiteContext)
    (index : Z) : Z * option Z :=
  match interpreter c with
  | None => (-1, None)
  | Some it =>
      match TfLiteInterpreterGetOutputTensor api it index with
      | None => (-1, None)
      | Some t => (0, Some (bytes t))
      end
  end.

(** The two accessors over the library that checks the index. *)
Definition tflite_get_input_size (c : TFLiteContext) (index : Z)
    : Z * option Z :=
  tflite_get_input_size_with checked_lookup c index.

Definition tflite_get_output_size (c : TFLiteContext) (index : Z)
    : Z * option Z :=
  tflite_get_output_size_with checked_lookup c index.

(** [tflite_set_output]; as in the stub, a negative index passes the
    guard and the store falls outside the table ([None]). *)
Definition tflite_set_output (c : TFLiteContext) (index buf size : Z)
    : option (Z * TFLiteContext) :=
  if MAX_TENSORS <=? index then Some (-1, c)
  else if index <? 0 then None
  else Some (0, {| interpreter := interpreter c;
                   output_bindings := <[Z.to_nat index :=
                                         {| b_buf := buf; b_size := size |}]>
                                        (output_bindings c);
                   output_binding_count :=
                     if output_binding_count c <=? index then index + 1
                     else output_binding_count c |}).

(** One turn of the copy loop, lines 219-233.
    [TfLiteTensorCopyToBuffer] is given [copy_size] and writes no more
    than that; the model takes the largest write. *)
Definition copy_slot (it : TfLiteInterpreter) (c : TFLiteContext)
    (st : memory * list write) (i : nat) : memory * list write :=
  let b := output_bindings c !!! i in
  if b_buf b =? 0 then st
  else match get_tensor (output_tensors it) (Z.of_nat i) with
       | None => st
       | Some t =>
           let copy_size := if bytes t <? b_size b then bytes t else b_size b in
           (memcpy (fst st) (b_buf b) (data t) copy_size,
            snd st ++ [{| w_dst := b_buf b; w_len := copy_size |}])
       end.

(** [tflite_invoke]; [invoke_ok] tells whether
    [TfLiteInterpreterInvoke] returned [kTfLiteOk]. *)
Definition tflite_invoke (invoke_ok : bool) (c : TFLiteContext) (m : memory)
    : Z * memory * list write :=
  match interpreter c with
  | None => (-1, m, [])
  | Some it =>
      if negb invoke_ok then (-1, m, [])
      else
        let '(m', ws) :=
          foldl (copy_slot it c) (m, [])
                (seq 0 (Z.to_nat (output_binding_count c))) in
        (0, m', ws)
  end.


End TFLite.

(* ------------------------------------------------------------------ *)
(** * src/shim_runtime.c                                                *)
(* ------------------------------------------------------------------ *)
Module Runtime.
Import CString Config Selector.

(** NeuronRuntimeError, RuntimeAPI.h *)
Definition NEURONRUNTIME_NO_ERROR : Z := 0.
Definition NEURONRUNTIME_BAD_DATA : Z := 1.
Definition NEURONRUNTIME_BAD_STATE : Z := 2.
Definition NEURONRUNTIME_UNEXPECTED_NULL : Z := 3.
Definition NEURONRUNTIME_INCOMPLETE : Z := 4.
Definition NEURONRUNTIME_OUTPUT_INSUFFICIENT : Z := 5.
Definition NEURONRUNTIME_UNAVAILABLE : Z := 6.
Definition NEURONRUNTIME_OP_FAILED : Z := 7.
Definition NEURONRUNTIME_UNMAPPABLE : Z := 8.

(** ** The diagnostic stream

    A line of the [SHIM_LOG] macro is kept as its tag, its format and
    its arguments; the text printed by the resolver and the selector is
    kept as it is. *)
Inductive log_arg := AStr (s : string) | AInt (z : Z) | APtr.

Inductive output :=
| Printed (text : string)
| Logged (tag fmt : string) (args : list log_arg).

Definition SHIM_LOG (g_log_level level : Z) (tag fmt : string)
    (args : list log_arg) : list output :=
  if level <=? g_log_level then [Logged tag fmt args] else [].

(** Some text printed on the stream holds every string of [parts]. *)
Definition printed_with (e : list output) (parts : list string) : bool :=
  existsb (fun o => match o with
                    | Printed m => forallb (contains m) parts
                    | Logged _ _ _ => false
                    end) e.

(** The stream names the requested and the computed path, and gives the
    copy command that puts the converted model in place. *)
Definition names_paths_and_remedy (e : list output)
    (requested computed suffix : string) : bool :=
  printed_with e [requested; computed]
  && printed_with e ["cp your_model" +:+ suffix +:+ " " +:+ computed].

Definition LOG_ERR lvl := SHIM_LOG lvl 1 "ERROR".
Definition LOG_WARN lvl := SHIM_LOG lvl 2 "WARN".
Definition LOG_INFO lvl := SHIM_LOG lvl 3 "INFO".
Definition LOG_DBG lvl := SHIM_LOG lvl 4 "DEBUG".

(** ** Global state, set once by [shim_global_init] *)
Record globals := {
  g_config : NeuronShimConfig;
  g_backend : backend_id;
  g_suffix : string;
  g_log_level : Z;
}.

Definition shim_global_init (p : platform) (fs env : gmap string string)
    : globals * list output :=
  let cfg := neuron_shim_config_load fs env in
  let lvl := log_level cfg in
  let '(b, printed) :=
    neuron_shim_select_backend p
      (if String.eqb (backend cfg) "auto" then None else Some (backend cfg)) in
  let sfx := neuron_shim_config_get_suffix cfg in
  ({| g_config := cfg; g_backend := b; g_suffix := sfx; g_log_level := lvl |},
   LOG_INFO lvl "=== neuron-shim initializing ===" []
   ++ LOG_INFO lvl "config: backend=%s suffix=%s threads=%d force_cpu=%d"
        [AStr (backend cfg); AStr (suffix cfg); AInt (threads cfg);
         AInt (if force_cpu cfg then 1 else 0)]
   ++ (if String.eqb (model_dir cfg) "" then []
       else LOG_INFO lvl "config: model_dir=%s" [AStr (model_dir cfg)])
   ++ map Printed printed
   ++ LOG_INFO lvl "active backend: %s" [AStr (backend_name b)]
   ++ LOG_INFO lvl "model suffix: %s" [AStr sfx]
   ++ (if String.eqb (model_dir cfg) "" then
         LOG_INFO lvl "model resolution: <path>.dla → <path>.dla%s" [AStr sfx]
       else
         LOG_INFO lvl "model resolution: <path>.dla → %s/<basename>.dla%s"
           [AStr (model_dir cfg); AStr sfx])).

(** The text the resolver formats for a call of the dispatcher on the
    requested path [p]. *)
Definition computed_path (g : globals) (p : string) : string :=
  Resolver.formatted p (g_suffix g) (Some (model_dir (g_config g))).

(** NeuronTensorInfo, RuntimeAPI.h; [scale] is kept as its bit pattern. *)
Record NeuronTensorInfo := {
  dimensions : list Z;
  dimensionCount : Z;
  type : Z;
  scale : Z;
  zeroPoint : Z;
  sizeBytes : Z;
}.

Definition zero_info : NeuronTensorInfo :=
  {| dimensions := replicate 8 0; dimensionCount := 0; type := 0;
     scale := 0; zeroPoint := 0; sizeBytes := 0 |}.

(** The adapter functions the dispatcher may call, with their arguments. *)
Inductive adapter_call :=
| ACreate
| ADestroy
| ALoadFromFile (path : string)
| ALoadFromBuffer (buf size : Z)
| AGetInputCount
| AGetOutputCount
| AGetInputSize (index : Z)
| AGetOutputSize (index : Z)
| ASetInput (index buf size : Z)
| ASetOutput (index buf size : Z)
| AInvoke.

Section Dispatcher.

(** The state an adapter context stands for. *)
Context {C : Type}.

(** NeuronShimBackend, backend.h: the table of operations. A query
    returns its status and the value it stores through its out
    pointer, if it stores one. *)
Record NeuronShimBackend := {
  name : string;
  create : Z * C;             (* status, and the context stored in *ctx *)
  load_from_file : C -> string -> Z * C;
  load_from_buffer : C -> Z -> Z -> Z * C;
  get_input_count : C -> Z * option Z;
  get_output_count : C -> Z * option Z;
  get_input_size : C -> Z -> Z * option Z;
  get_output_size : C -> Z -> Z * option Z;
  set_input : C -> Z -> Z -> Z -> Z * C;
  set_output : C -> Z -> Z -> Z -> Z * C;
  invoke : C -> Z * C;
}.

(** The adapters compiled in, by identity. *)
Variable vtable : backend_id -> NeuronShimBackend.

(** [access(path, R_OK) == 0] *)
Variable access_R_OK : string -> bool.

Variable g : globals.

(** ShimRuntime: the object behind a non-NULL handle. *)
Record ShimRuntime := { rt_backend : backend_id; backend_ctx : C }.

(** The result of a public call: the returned code, the runtime object
    afterwards ([None]: NULL handle, or released), the adapter
    functions called, the diagnostics, and the content of the cell
    behind the out pointer ([None]: NULL pointer). *)
Record result (A : Type) := {
  ret : Z;
  rt_after : option ShimRuntime;
  calls : list adapter_call;
  err : list output;
  cell : option A;
}.
Arguments ret {A}.
Arguments rt_after {A}.
Arguments calls {A}.
Arguments err {A}.
Arguments cell {A}.

Definition result_of {A} (r : Z) (rt : option ShimRuntime)
    (cs : list adapter_call) (e : list output) (x : option A) : result A :=
  {| ret := r; rt_after := rt; calls := cs; err := e; cell := x |}.

Definition code_of (r : Z) : Z :=
  if r =? 0 then NEURONRUNTIME_NO_ERROR else NEURONRUNTIME_OP_FAILED.

Definition with_ctx (rt : ShimRuntime) (c : C) : ShimRuntime :=
  {| rt_backend := rt_backend rt; backend_ctx := c |}.

(** [NeuronRuntime_create], after [ensure_init]; [alloc_ok] tells
    whether [calloc] succeeded. *)
Definition NeuronRuntime_create (alloc_ok : bool) : result unit :=
  if negb alloc_ok then
    result_of NEURONRUNTIME_OP_FAILED None []
              (LOG_ERR (g_log_level g) "alloc failed" []) None
  else
    let '(r, c) := create (vtable (g_backend g)) in
    if negb (r =? 0) then
      result_of NEURONRUNTIME_OP_FAILED None [ACreate]
        (LOG_ERR (g_log_level g) "backend create failed: %d" [AInt r]) None
    else
      result_of NEURONRUNTIME_NO_ERROR
        (Some {| rt_backend := g_backend g; backend_ctx := c |})
        [ACreate]
        (LOG_DBG (g_log_level g) "runtime created: %p" [APtr]) None.

Definition NeuronRuntime_release (runtime : option ShimRuntime)
    : result unit :=
  match runtime with
  | None => result_of NEURONRUNTIME_UNEXPECTED_NULL None [] [] None
  | Some rt =>
      result_of NEURONRUNTIME_NO_ERROR None [ADestroy]
        (LOG_DBG (g_log_level g) "runtime release: %p" [APtr]) None
  end.

Definition NeuronRuntime_loadNetworkFromFile
    (runtime : option ShimRuntime) (path : option string) : result unit :=
  match runtime, path with
  | Some rt, Some p =>
      let r := Resolver.neuron_shim_resolve_model access_R_OK
                 (Some p) (Some (g_suffix g))
                 (Some (model_dir (g_config g))) (Some "") 1024 in
      let e := LOG_INFO (g_log_level g) "loadNetwork: %s" [AStr p]
               ++ map Printed (Resolver.diag r) in
      if negb (Resolver.rc r =? 0) then
        result_of NEURONRUNTIME_BAD_DATA runtime []
          (e ++ LOG_ERR (g_log_level g) "model not found: %s%s"
                  [AStr p; AStr (g_suffix g)]) None
      else
        let resolved := default "" (Resolver.resolved r) in
        let '(st, c) :=
          load_from_file (vtable (rt_backend rt)) (backend_ctx rt) resolved in
        let e := e ++ LOG_INFO (g_log_level g) "loading: %s" [AStr resolved] in
        if negb (st =? 0) then
          result_of NEURONRUNTIME_OP_FAILED (Some (with_ctx rt c))
            [ALoadFromFile resolved]
            (e ++ LOG_ERR (g_log_level g) "backend failed to load: %s"
                    [AStr resolved]) None
        else
          result_of NEURONRUNTIME_NO_ERROR (Some (with_ctx rt c))
            [ALoadFromFile resolved] e None
  | _, _ => result_of NEURONRUNTIME_UNEXPECTED_NULL runtime [] [] None
  end.

(** [buffer = 0] is the NULL pointer. *)
Definition NeuronRuntime_loadNetworkFromBuffer
    (runtime : option ShimRuntime) (buffer size : Z) : result unit :=
  match runtime with
  | Some rt =>
      if buffer =? 0 then
        result_of NEURONRUNTIME_UNEXPECTED_NULL runtime [] [] None
      else
        let '(st, c) :=
          load_from_buffer (vtable (rt_backend rt)) (backend_ctx rt)
                           buffer size in
        result_of (code_of st) (Some (with_ctx rt c))
          [ALoadFromBuffer buffer size]
          (LOG_INFO (g_log_level g) "loadNetworkFromBuffer: %zu bytes"
             [AInt size]) None
  | None => result_of NEURONRUNTIME_UNEXPECTED_NULL runtime [] [] None
  end.

Definition NeuronRuntime_setInput (runtime : option ShimRuntime)
    (index buffer size padding : Z) : result unit :=
  match runtime with
  | None => result_of NEURONRUNTIME_UNEXPECTED_NULL runtime [] [] None
  | Some rt =>
      let '(st, c) :=
        set_input (vtable (rt_backend rt)) (backend_ctx rt) index buffer size in
      result_of (code_of st) (Some (with_ctx rt c))
        [ASetInput index buffer size]
        (LOG_DBG (g_log_level g) "setInput[%d] %zu bytes"
           [AInt index; AInt size]) None
  end.

Definition NeuronRuntime_setOutput (runtime : option ShimRuntime)
    (index buffer size padding : Z) : result unit :=
  match runtime with
  | None => result_of NEURONRUNTIME_UNEXPECTED_NULL runtime [] [] None
  | Some rt =>
      let '(st, c) :=
        set_output (vtable (rt_backend rt)) (backend_ctx rt) index buffer size in
      result_of (code_of st) (Some (with_ctx rt c))
        [ASetOutput index buffer size]
        (LOG_DBG (g_log_level g) "setOutput[%d] %zu bytes"
           [AInt index; AInt size]) None
  end.

(** The four queries share their shape: null checks, one adapter
    query, the value stored through the out pointer. *)
Definition query (runtime : option ShimRuntime) (out : option Z)
    (call : adapter_call)
    (q : NeuronShimBackend -> C -> Z * option Z) : result Z :=
  match runtime, out with
  | Some rt, Some old =>
      let '(st, v) := q (vtable (rt_backend rt)) (backend_ctx rt) in
      result_of (code_of st) runtime [call] [] (Some (default old v))
  | _, _ => result_of NEURONRUNTIME_UNEXPECTED_NULL runtime [] [] out
  end.

Definition NeuronRuntime_getInputCount runtime (count : option Z) :=
  query runtime count AGetInputCount get_input_count.

Definition NeuronRuntime_getOutputCount runtime (count : option Z) :=
  query runtime count AGetOutputCount get_output_count.

Definition NeuronRuntime_getInputSize runtime (index : Z) (size : option Z) :=
  query runtime size (AGetInputSize index) (fun b c => get_input_size b c index).

Definition NeuronRuntime_getOutputSize runtime (index : Z) (size : option Z) :=
  query runtime size (AGetOutputSize index) (fun b c => get_output_size b c index).

Definition info_query (runtime : option ShimRuntime)
    (info : option NeuronTensorInfo) (call : adapter_call)
    (q : NeuronShimBackend -> C -> Z * option Z) : result NeuronTensorInfo :=
  match runtime, info with
  | Some rt, Some _ =>
      let '(st, v) := q (vtable (rt_backend rt)) (backend_ctx rt) in
      result_of (code_of st) runtime [call] []
        (Some {| dimensions := dimensions zero_info;
                 dimensionCount := 0; type := 0; scale := 0; zeroPoint := 0;
                 sizeBytes := default 0 v |})
  | _, _ => result_of NEURONRUNTIME_UNEXPECTED_NULL runtime [] [] info
  end.

Definition NeuronRuntime_getInputInfo runtime (index : Z)
    (info : option NeuronTensorInfo) :=
  info_query runtime info (AGetInputSize index)
             (fun b c => get_input_size b c index).

Definition NeuronRuntime_getOutputInfo runtime (index : Z)
    (info : option NeuronTensorInfo) :=
  info_query runtime info (AGetOutputSize index)
             (fun b c => get_output_size b c index).

Definition NeuronRuntime_inference (runtime : option ShimRuntime)
    : result unit :=
  match runtime with
  | None => result_of NEURONRUNTIME_UNEXPECTED_NULL runtime [] [] None
  | Some rt =>
      let '(st, c) := invoke (vtable (rt_backend rt)) (backend_ctx rt) in
      result_of (code_of st) (Some (with_ctx rt c)) [AInvoke]
        (LOG_DBG (g_log_level g) "inference begin" []
         ++ LOG_DBG (g_log_level g) "inference done: %d" [AInt st]) None
  end.

(** QoSOptions: the two fields the shim writes. *)
Record QoSOptions := { profiledQoSData : Z; profiledQoSDataSize : Z }.

Definition NeuronRuntime_setQoSOption (runtime : option ShimRuntime)
    (qos : option QoSOptions) : result QoSOptions :=
  result_of NEURONRUNTIME_NO_ERROR runtime [] [] qos.

Definition NeuronRuntime_getProfiledQoSData (runtime : option ShimRuntime)
    (qos : option QoSOptions) : result QoSOptions :=
  result_of NEURONRUNTIME_NO_ERROR runtime [] []
    (match qos with
     | Some _ => Some {| profiledQoSData := 0; profiledQoSDataSize := 0 |}
     | None => None
     end).

(** ** The public surface as one type

    A call of the API with its arguments, and what the properties
    below observe of it: the returned code and the adapter functions
    called. *)
Inductive api_call :=
| Release (runtime : option ShimRuntime)
| LoadNetworkFromFile (runtime : option ShimRuntime) (path : option string)
| LoadNetworkFromBuffer (runtime : option ShimRuntime) (buffer size : Z)
| SetInput (runtime : option ShimRuntime) (index buffer size padding : Z)
| SetOutput (runtime : option ShimRuntime) (index buffer size padding : Z)
| GetInputCount (runtime : option ShimRuntime) (count : option Z)
| GetOutputCount (runtime : option ShimRuntime) (count : option Z)
| GetInputSize (runtime : option ShimRuntime) (index : Z) (size : option Z)
| GetOutputSize (runtime : option ShimRuntime) (index : Z) (size : option Z)
| GetInputInfo (runtime : option ShimRuntime) (index : Z)
               (info : option NeuronTensorInfo)
| GetOutputInfo (runtime : option ShimRuntime) (index : Z)
                (info : option NeuronTensorInfo)
| Inference (runtime : option ShimRuntime)
| SetQoSOption (runtime : option ShimRuntime) (qos : option QoSOptions)
| GetProfiledQoSData (runtime : option ShimRuntime) (qos : option QoSOptions).

Definition observe {A} (r : result A) : Z * list adapter_call :=
  (ret r, calls r).

Definition run_call (a : api_call) : Z * list adapter_call :=
  match a with
  | Release rt => observe (NeuronRuntime_release rt)
  | LoadNetworkFromFile rt p => observe (NeuronRuntime_loadNetworkFromFile rt p)
  | LoadNetworkFromBuffer rt b n =>
      observe (NeuronRuntime_loadNetworkFromBuffer rt b n)
  | SetInput rt i b n pad => observe (NeuronRuntime_setInput rt i b n pad)
  | SetOutput rt i b n pad => observe (NeuronRuntime_setOutput rt i b n pad)
  | GetInputCount rt c => observe (NeuronRuntime_getInputCount rt c)
  | GetOutputCount rt c => observe (NeuronRuntime_getOutputCount rt c)
  | GetInputSize rt i sz => observe (NeuronRuntime_getInputSize rt i sz)
  | GetOutputSize rt i sz => observe (NeuronRuntime_getOutputSize rt i sz)
  | GetInputInfo rt i info => observe (NeuronRuntime_getInputInfo rt i info)
  | GetOutputInfo rt i info => observe (NeuronRuntime_getOutputInfo rt i info)
  | Inference rt => observe (NeuronRuntime_inference rt)
  | SetQoSOption rt q => observe (NeuronRuntime_setQoSOption rt q)
  | GetProfiledQoSData rt q => observe (NeuronRuntime_getProfiledQoSData rt q)
  end.

(** The handle of a call. *)
Definition handle_of (a : api_call) : option ShimRuntime :=
  match a with
  | Release rt | LoadNetworkFromFile rt _ | LoadNetworkFromBuffer rt _ _
  | SetInput rt _ _ _ _ | SetOutput rt _ _ _ _
  | GetInputCount rt _ | GetOutputCount rt _
  | GetInputSize rt _ _ | GetOutputSize rt _ _
  | GetInputInfo rt _ _ | GetOutputInfo rt _ _
  | Inference rt | SetQoSOption rt _ | GetProfiledQoSData rt _ => rt
  end.

(** The call passes NULL for its model path, its model buffer, or its
    count / size / info out pointer. *)
Definition null_argument (a : api_call) : bool :=
  match a with
  | LoadNetworkFromFile _ None => true
  | LoadNetworkFromBuffer _ b _ => b =? 0
  | GetInputCount _ None | GetOutputCount _ None => true
  | GetInputSize _ _ None | GetOutputSize _ _ None => true
  | GetInputInfo _ _ None | GetOutputInfo _ _ None => true
  | _ => false
  end.

(** The call passes NULL for a caller buffer to bind. *)
Definition null_io_buffer (a : api_call) : bool :=
  match a with
  | SetInput _ _ b _ _ | SetOutput _ _ b _ _ => b =? 0
  | _ => false
  end.

Definition is_qos (a : api_call) : bool :=
  match a with
  | SetQoSOption _ _ | GetProfiledQoSData _ _ => true
  | _ => false
  end.

End Dispatcher.

Arguments NeuronShimBackend : clear implicits.
Arguments ShimRuntime : clear implicits.
Arguments api_call : clear implicits.
Arguments ret {C A}.
Arguments rt_after {C A}.
Arguments calls {C A}.
Arguments err {C A}.
Arguments cell {C A}.

(** ** The stub adapter behind the table of operations

    The state the stub context stands for is the context together with
    the caller memory its buffers live in; [None] once a call has left
    the behaviour C defines (a negative index into a table). *)
Definition stub_state : Type := option (Stub.StubContext * Mem.memory).

Definition lift_ctx (st : stub_state)
    (f : Stub.StubContext -> option (Z * Stub.StubContext)) : Z * stub_state :=
  match st with
  | Some (c, m) =>
      match f c with
      | Some (r, c') => (r, Some (c', m))
      | None => (0, None)
      end
  | None => (0, None)
  end.

Definition lift_query (st : stub_state)
    (f : Stub.StubContext -> option (Z * Z)) : Z * option Z :=
  match st with
  | Some (c, _) =>
      match f c with
      | Some (r, v) => (r, Some v)
      | None => (0, None)
      end
  | None => (0, None)
  end.

Definition stub_backend (m0 : Mem.memory) : NeuronShimBackend stub_state :=
  {| name := "stub";
     create := (fst Stub.stub_create, Some (snd Stub.stub_create, m0));
     load_from_file st path :=
       lift_ctx st (fun c => Some (Stub.stub_load_from_file c path));
     load_from_buffer st buf size :=
       lift_ctx st (fun c => Some (Stub.stub_load_from_buffer c buf size));
     get_input_count st :=
       lift_query st (fun c => Some (Stub.stub_get_input_count c));
     get_output_count st :=
       lift_query st (fun c => Some (Stub.stub_get_output_count c));
     get_input_size st index :=
       lift_query st (fun c => Stub.stub_get_input_size c index);
     get_output_size st index :=
       lift_query st (fun c => Stub.stub_get_output_size c index);
     set_input st index buf size :=
       lift_ctx st (fun c => Stub.stub_set_input c index buf size);
     set_output st index buf size :=
       lift_ctx st (fun c => Stub.stub_set_output c index buf size);
     invoke st :=
       match st with
       | Some (c, m) =>
           let '(r, c', m', _) := Stub.stub_invoke c m in (r, Some (c', m'))
       | None => (0, None)
       end |}.

(** A build without the two engines: every identity the selector can
    return there is the stub. [m0] is the caller memory when the runtime
    is created. *)
Definition stub_only (m0 : Mem.memory) (b : backend_id)
    : NeuronShimBackend stub_state :=
  stub_backend m0.

End Runtime.

(* ------------------------------------------------------------------ *)
(** * Concrete settings used by the examples                            *)
(* ------------------------------------------------------------------ *)

(** A requested path of 1020 bytes. *)
Definition long_path : string := "/" +:+ CString.repeat_char "a" 1019.

(** A machine on which neither engine is compiled in or installed. *)
Definition bare_platform : Selector.platform :=
  {| Selector.SHIM_HAS_ONNX := false; Selector.SHIM_HAS_TFLITE := false;
     Selector.dlopen := fun _ => false |}.

(** A build with both engines, on a machine where only TensorFlow Lite
    is installed. *)
Definition tflite_platform : Selector.platform :=
  {| Selector.SHIM_HAS_ONNX := true; Selector.SHIM_HAS_TFLITE := true;
     Selector.dlopen := fun lib => String.eqb lib "libtensorflowlite_c.so" |}.

(** The globals after initialisation with no configuration file and an
    empty environment on the bare machine: stub backend, suffix [.onnx],
    no redirect directory. *)
Definition bare_globals : Runtime.globals :=
  fst (Runtime.shim_global_init bare_platform ∅ ∅).

Definition dirty : Mem.memory := fun _ => Byte.xff.

(** A runtime created there, all of memory holding the byte 0xff. *)
Definition bare_runtime : Runtime.ShimRuntime Runtime.stub_state :=
  {| Runtime.rt_backend := Selector.BStub;
     Runtime.backend_ctx := snd (Runtime.create (Runtime.stub_backend dirty)) |}.

(** The calls of the test program on the stub: load, bind a 224*224*3
    input and a 1001-float output at address 1000, dirty the output,
    infer, dirty it again. *)
Definition demo_ops : list Stub.op :=
  [ Stub.LoadFromFile "/tmp/test_model.dla.onnx";
    Stub.SetInput 0 500000 150528;
    Stub.SetOutput 0 1000 4004;
    Stub.Store 1000 Byte.xff;
    Stub.Invoke;
    Stub.Store 1003 Byte.x07 ].

Definition demo_state : Stub.StubContext * Mem.memory :=
  default (snd Stub.stub_create, dirty)
          (Stub.run demo_ops (snd Stub.stub_create, dirty)).

(** An ONNX session with one input and one output, and a TFLite
    interpreter with one output tensor of 8 bytes. *)
Definition demo_session : Onnx.OrtSession :=
  {| Onnx.s_inputs := [{| Onnx.ti_shape := [1; 224; 224; 3];
                          Onnx.ti_type := Onnx.UINT8 |}];
     Onnx.s_outputs := [{| Onnx.ti_shape := [1; 1001];
                           Onnx.ti_type := Onnx.FLOAT |}];
     Onnx.s_fails := fun _ => false |}.

(** The context after [demo_session] has been loaded. *)
Definition demo_loaded : Onnx.OnnxContext :=
  default Onnx.onnx_created
          (snd <$> Onnx.populate_tensor_info Onnx.onnx_created demo_session).

Definition demo_interpreter : TFLite.TfLiteInterpreter :=
  {| TFLite.input_tensors := [{| TFLite.bytes := 16;
                                 TFLite.data := fun _ => Byte.x01 |}];
     TFLite.output_tensors := [{| TFLite.bytes := 8;
                                  TFLite.data := fun _ => Byte.x02 |}] |}.

Definition demo_tflite : TFLite.TFLiteContext :=
  {| TFLite.interpreter := Some demo_interpreter;
     TFLite.output_bindings := replicate 32 Mem.no_binding;
     TFLite.output_binding_count := 0 |}.

(** The onnx context after loading [demo_session] and binding the output
    at address 1000, once with room for the whole tensor and once with 16
    bytes only; and a run of the engine that succeeds. *)
Definition demo_onnx (size : Z) : Onnx.OnnxContext :=
  snd (Onnx.onnx_set_output demo_loaded 0 1000 size).

Definition demo_run : Onnx.OrtRun :=
  {| Onnx.input_ok := fun _ _ => true;
     Onnx.run_ok := true;
     Onnx.output_tensor := fun _ => Some (fun _ => Byte.x2a);
     Onnx.data_ok := fun _ => true |}.

(** An environment whose thread count is not a number, and a local
    configuration file whose log level is not one. *)
Definition env_bad_threads : gmap string string :=
  {[ "NEURON_SHIM_NUM_THREADS" := "abc" ]}.

Definition fs_bad_log_level : gmap string string :=
  {[ Config.local_conf := "log_level = high" +:+ String "010" "" ]}.

(* ------------------------------------------------------------------ *)
(** * Predicates on text used by the properties of the parser          *)
(* ------------------------------------------------------------------ *)
Module Text.

(** Every byte of [s] satisfies [p]. *)
Fixpoint all_chars (p : ascii -> bool) (s : string) : bool :=
  match s with
  | EmptyString => true
  | String c s' => p c && all_chars p s'
  end.

(** [s] is empty or starts with a byte that satisfies [p]. *)
Definition starts_with (p : ascii -> bool) (s : string) : bool :=
  match s with
  | EmptyString => true
  | String c _ => p c
  end.

(** The chunks of a text put back together. *)
Definition join (chunks : list string) : string :=
  foldr String.append EmptyString chunks.

(** The scan sets of the [sscanf] format of config.c. *)
Definition key_char (c : ascii) : bool :=
  negb (Ascii.eqb c "=" || Ascii.eqb c " ").

Definition value_char (c : ascii) : bool := negb (CString.isspace c).



(** The six keys of a configuration file. *)
Definition known_key (k : string) : bool :=
  String.eqb k "backend" || String.eqb k "suffix" || String.eqb k "model_dir"
  || String.eqb k "threads" || String.eqb k "force_cpu"
  || String.eqb k "log_level".

End Text.

(* ------------------------------------------------------------------ *)
(** * Kinds of configuration lines                                      *)
(* ------------------------------------------------------------------ *)
Module ConfigText.
Import Text.

(** The bytes that make the loop of [parse_config_file] skip a line when
    they come first after the leading blanks. *)
Definition comment_start (c : ascii) : bool :=
  Ascii.eqb c "#" || Ascii.eqb c "010".


(** The line assigns nothing that the loader knows: it is skipped, or
    does not scan as [key = value], or its key is none of the six. *)
Definition ignorable (line : string) : bool :=
  match Config.parse_line line with
  | Some (k, _) => negb (known_key k)
  | None => true
  end.

(** A value that fits the C object behind field [f]. *)
Definition fits (f : Config.field) (v : Config.value) : Prop :=
  match f, v with
  | (Config.Backend | Config.Suffix), Config.VStr s =>
      (String.length s <= 31)%nat
  | Config.ModelDir, Config.VStr s => (String.length s <= 511)%nat
  | (Config.Threads | Config.LogLevel), Config.VInt z =>
      - 2 ^ 31 <= z < 2 ^ 31
  | Config.ForceCpu, Config.VBool _ => True
  | _, _ => False
  end.

End ConfigText.

(* ------------------------------------------------------------------ *)
(** * Adapters of a build                                               *)
(* ------------------------------------------------------------------ *)
Module Build.
Import Selector.

(** The adapter is compiled into the shim. *)
Definition compiled (p : platform) (b : backend_id) : bool :=
  match b with
  | BOnnx => SHIM_HAS_ONNX p
  | BTflite => SHIM_HAS_TFLITE p
  | BStub => true
  end.

(** The shared library that auto-detection probes for the adapter. *)
Definition library (b : backend_id) : option string :=
  match b with
  | BOnnx => Some "libonnxruntime.so"
  | BTflite => Some "libtensorflowlite_c.so"
  | BStub => None
  end.

(** The name selects an adapter of this build. *)
Definition selectable (p : platform) (n : string) : bool :=
  (SHIM_HAS_ONNX p && String.eqb n "onnx")
  || (SHIM_HAS_TFLITE p && String.eqb n "tflite")
  || String.eqb n "stub".

(** The model file extension of the adapter. *)
Definition extension (b : backend_id) : string :=
  match b with
  | BTflite => ".tflite"
  | _ => ".onnx"
  end.

End Build.

(* ------------------------------------------------------------------ *)
(** * Well-formed stub contexts                                         *)
(* ------------------------------------------------------------------ *)
Module StubShape.
Import Stub.

(** The two tables have their [MAX_TENSORS] slots and the counts stay
    within them. *)
Definition well_formed (c : StubContext) : Prop :=
  length (inputs c) = 32%nat /\ length (outputs c) = 32%nat /\
  0 <= input_count c <= 32 /\ 0 <= output_count c <= 32.

End StubShape.

(* ------------------------------------------------------------------ *)
(** * src/backend_onnx.c: sizes, the copy loop, creation                *)
(* ------------------------------------------------------------------ *)
Module OnnxMore.
Import CString Mem Onnx.

(** A dimension as [compute_tensor_size] counts it. *)
Definition counted (d : Z) : Z := if d <=? 0 then 1 else d.

Definition dims_product (shape : list Z) : Z :=
  foldr (fun d acc => counted d * acc) 1 shape.

(** The number of bytes the copy loop of [onnx_invoke] moves for slot
    [i], and whether the loop writes for the slot at all. *)
Definition copy_size (c : OnnxContext) (i : nat) : Z :=
  if outputs c !!! i <? b_size (output_bindings c !!! i)
  then outputs c !!! i else b_size (output_bindings c !!! i).

Definition written (r : OrtRun) (c : OnnxContext) (i : nat) : bool :=
  match output_tensor r i with
  | Some _ => negb (b_buf (output_bindings c !!! i) =? 0)
  | None => false
  end.

(** A slot the loop writes for does not reach address [a]. *)
Definition misses (r : OrtRun) (c : OnnxContext) (a : Z) (j : nat) : Prop :=
  written r c j = true ->
  in_range (b_buf (output_bindings c !!! j)) (copy_size c j) a = false.

(** ** [onnx_create]

    What the ONNX Runtime library of the host answers to the calls of
    [onnx_create]: [true] for a call that succeeds (no error status, and
    for the provider options a non-NULL object). *)
Record OrtHost := {
  calloc_ok : bool;
  api_ok : bool;               (* OrtGetApiBase()->GetApi *)
  env_ok : bool;               (* CreateEnv *)
  session_options_ok : bool;   (* CreateSessionOptions *)
  tensorrt_options_ok : bool;  (* CreateTensorRTProviderOptions *)
  tensorrt_append_ok : bool;   (* ...AppendExecutionProvider_TensorRT_V2 *)
  cuda_options_ok : bool;      (* CreateCUDAProviderOptions *)
  cuda_append_ok : bool;       (* ...AppendExecutionProvider_CUDA_V2 *)
  migraphx_ok : bool;          (* ...AppendExecutionProvider_MIGraphX *)
  rocm_ok : bool;              (* ...AppendExecutionProvider_ROCM *)
  memory_info_ok : bool;       (* CreateCpuMemoryInfo *)
  error_message : string;      (* GetErrorMessage of a failed call *)
  ORT_API_VERSION : Z;
}.

Inductive provider := TensorRT | CUDA | MIGraphX | ROCm.

Definition nl : string := String "010" "".

Definition registered_line (p : provider) : string :=
  match p with
  | TensorRT => "[neuron-shim][onnx] TensorRT EP: registered"
  | CUDA => "[neuron-shim][onnx] CUDA EP: registered"
  | MIGraphX => "[neuron-shim][onnx] MIGraphX EP: registered"
  | ROCm => "[neuron-shim][onnx] ROCm EP: registered"
  end +:+ nl.

(** What [ORT_CHECK] prints before it returns -1. *)
Definition ort_error (h : OrtHost) : string :=
  "[neuron-shim][onnx] ERROR: " +:+ error_message h +:+ nl.

(** The thread count handed to [SetIntraOpNumThreads]. *)
Definition num_threads (env : gmap string string) : Z :=
  match env !! "NEURON_SHIM_NUM_THREADS" with
  | Some v => atoi v
  | None => 4
  end.

(** The execution providers registered, in the order of the calls
    (lines 172-229); none when NEURON_SHIM_FORCE_CPU is [1]. *)
Definition gpu_allowed (env : gmap string string) : bool :=
  match env !! "NEURON_SHIM_FORCE_CPU" with
  | Some v => negb (String.eqb v "1")
  | None => true
  end.

Definition register_providers (h : OrtHost) (env : gmap string string)
    : list provider :=
  if gpu_allowed env then
    (if tensorrt_options_ok h && tensorrt_append_ok h then [TensorRT] else [])
    ++ (if cuda_options_ok h && cuda_append_ok h then [CUDA] else [])
    ++ (if migraphx_ok h then [MIGraphX]
        else if rocm_ok h then [ROCm] else [])
  else [].

Record creation := {
  status : Z;
  context : option OnnxContext;   (* what is stored in [*ctx], if anything *)
  threads_set : option Z;
  providers : list provider;
  printed : list string;
}.

Definition onnx_create (h : OrtHost) (env : gmap string string) : creation :=
  if negb (calloc_ok h) then
    {| status := -1; context := None; threads_set := None; providers := [];
       printed := [] |}
  else if negb (api_ok h) then
    {| status := -1; context := None; threads_set := None; providers := [];
       printed := ["[neuron-shim][onnx] failed to get ORT API v"
                   +:+ Stub.decimal (ORT_API_VERSION h) +:+ nl] |}
  else if negb (env_ok h) then
    {| status := -1; context := None; threads_set := None; providers := [];
       printed := [ort_error h] |}
  else if negb (session_options_ok h) then
    {| status := -1; context := None; threads_set := None; providers := [];
       printed := [ort_error h] |}
  else
    let eps := register_providers h env in
    let out := map registered_line eps
               ++ ["[neuron-shim][onnx] CPU EP: always available" +:+ nl] in
    if negb (memory_info_ok h) then
      {| status := -1; context := None; threads_set := Some (num_threads env);
         providers := eps; printed := out ++ [ort_error h] |}
    else
      {| status := 0; context := Some onnx_created;
         threads_set := Some (num_threads env);
         providers := eps; printed := out |}.

End OnnxMore.

(* ------------------------------------------------------------------ *)
(** * src/backend_tflite.c: creation, loading, input binding            *)
(* ------------------------------------------------------------------ *)
Module TFLiteMore.
Import CString Mem TFLite.

Definition nl : string := String "010" "".

(** ** [tflite_create]

    [enable_gpu] is the compile-time switch NEURON_SHIM_ENABLE_GPU,
    [delegate_ok] tells whether [TfLiteGpuDelegateV2Create] returned a
    delegate. The result: status, the context stored in [*ctx] if any,
    the thread count set on the options, whether the GPU delegate was
    added, and the text printed. *)
Definition num_threads (env : gmap string string) : Z :=
  match env !! "NEURON_SHIM_NUM_THREADS" with
  | Some v => atoi v
  | None => 4
  end.

Record creation := {
  status : Z;
  context : option TFLiteContext;
  threads_set : option Z;
  gpu_delegate : bool;
  printed : list string;
}.

Definition tflite_create (calloc_ok enable_gpu delegate_ok : bool)
    (env : gmap string string) : creation :=
  if negb calloc_ok then
    {| status := -1; context := None; threads_set := None;
       gpu_delegate := false; printed := [] |}
  else
    {| status := 0; context := Some tflite_created;
       threads_set := Some (num_threads env);
       gpu_delegate := enable_gpu && delegate_ok;
       printed := if enable_gpu && delegate_ok
                  then ["[neuron-shim][tflite] GPU delegate enabled" +:+ nl]
                  else [] |}.

(** ** Loading

    The TFLite library as the loading functions see it: the model a file
    holds ([None] when [TfLiteModelCreateFromFile] returns NULL), the
    interpreter built for a model ([None] when [TfLiteInterpreterCreate]
    returns NULL) and whether [TfLiteInterpreterAllocateTensors]
    succeeds on it. The context of the model keeps the interpreter only;
    the [model] pointer is read nowhere but in [tflite_destroy] and in
    the test that opens [tflite_build_interpreter], which the two
    loaders reach with the model they have just created. *)
Record TfLiteLibrary (Model : Type) := {
  model_from_file : string -> option Model;
  model_from_buffer : Z -> Z -> option Model;
  interpreter_create : Model -> option TfLiteInterpreter;
  allocate_ok : TfLiteInterpreter -> bool;
}.
Arguments model_from_file {Model}.
Arguments model_from_buffer {Model}.
Arguments interpreter_create {Model}.
Arguments allocate_ok {Model}.

Definition decimal (z : Z) : string := Stub.decimal z.

Definition with_interpreter (c : TFLiteContext)
    (it : option TfLiteInterpreter) : TFLiteContext :=
  {| interpreter := it; output_bindings := output_bindings c;
     output_binding_count := output_binding_count c |}.

(** [tflite_build_interpreter] on a non-NULL model: status, context,
    text printed. *)
Definition tflite_build_interpreter {Model : Type} (lib : TfLiteLibrary Model)
    (c : TFLiteContext) (model : Model) : Z * TFLiteContext * list string :=
  match interpreter_create lib model with
  | None =>
      (-1, with_interpreter c None,
       ["[neuron-shim][tflite] failed to create interpreter" +:+ nl])
  | Some it =>
      if negb (allocate_ok lib it) then
        (-1, with_interpreter c (Some it),
         ["[neuron-shim][tflite] AllocateTensors failed" +:+ nl])
      else
        (0, with_interpreter c (Some it),
         ["[neuron-shim][tflite] model loaded: "
          +:+ decimal (Z.of_nat (length (input_tensors it))) +:+ " inputs, "
          +:+ decimal (Z.of_nat (length (output_tensors it))) +:+ " outputs"
          +:+ nl])
  end.

Definition tflite_load_from_file {Model : Type} (lib : TfLiteLibrary Model)
    (c : TFLiteContext) (path : string) : Z * TFLiteContext * list string :=
  match model_from_file lib path with
  | None => (-1, c, ["[neuron-shim][tflite] failed to load: " +:+ path +:+ nl])
  | Some model => tflite_build_interpreter lib c model
  end.

Definition tflite_load_from_buffer {Model : Type} (lib : TfLiteLibrary Model)
    (c : TFLiteContext) (buf size : Z) : Z * TFLiteContext * list string :=
  match model_from_buffer lib buf size with
  | None => (-1, c, ["[neuron-shim][tflite] failed to load from buffer" +:+ nl])
  | Some model => tflite_build_interpreter lib c model
  end.

(** ** [tflite_set_input]

    [copy_ok t size] tells whether [TfLiteTensorCopyFromBuffer] accepts
    [size] bytes for tensor [t]. The bytes go into the tensor, inside the
    library; the context of the adapter is not changed. *)
Definition tflite_set_input (copy_ok : TfLiteTensor -> Z -> bool)
    (c : TFLiteContext) (index buf size : Z) : Z :=
  match interpreter c with
  | None => -1
  | Some it =>
      match get_tensor (input_tensors it) index with
      | None => -1
      | Some t => if negb (copy_ok t size) then -1 else 0
      end
  end.

End TFLiteMore.

(* ------------------------------------------------------------------ *)
(** * src/shim_runtime.c: what a call forwards and prints               *)
(* ------------------------------------------------------------------ *)
Module RuntimeMore.
Import Runtime.

(** The adapter function a public call stands for, with the arguments it
    is given: the padding is dropped, the info queries ask for the size.
    Loading from a file goes through the resolver first and the QoS
    calls stand for nothing. *)
Definition forwarded {C : Type} (a : api_call C) : option adapter_call :=
  match a with
  | Release _ => Some ADestroy
  | LoadNetworkFromFile _ _ => None
  | LoadNetworkFromBuffer _ b n => Some (ALoadFromBuffer b n)
  | SetInput _ i b n _ => Some (ASetInput i b n)
  | SetOutput _ i b n _ => Some (ASetOutput i b n)
  | GetInputCount _ _ => Some AGetInputCount
  | GetOutputCount _ _ => Some AGetOutputCount
  | GetInputSize _ i _ | GetInputInfo _ i _ => Some (AGetInputSize i)
  | GetOutputSize _ i _ | GetOutputInfo _ i _ => Some (AGetOutputSize i)
  | Inference _ => Some AInvoke
  | SetQoSOption _ _ | GetProfiledQoSData _ _ => None
  end.

(** The status the adapter [b] returns for an adapter call on context
    [c]; [destroy] returns nothing, which counts as 0. *)
Definition adapter_status {C : Type} (b : NeuronShimBackend C) (c : C)
    (call : adapter_call) : Z :=
  match call with
  | ACreate => fst (create b)
  | ADestroy => 0
  | ALoadFromFile path => fst (load_from_file b c path)
  | ALoadFromBuffer buf n => fst (load_from_buffer b c buf n)
  | AGetInputCount => fst (get_input_count b c)
  | AGetOutputCount => fst (get_output_count b c)
  | AGetInputSize i => fst (get_input_size b c i)
  | AGetOutputSize i => fst (get_output_size b c i)
  | ASetInput i buf n => fst (set_input b c i buf n)
  | ASetOutput i buf n => fst (set_output b c i buf n)
  | AInvoke => fst (invoke b c)
  end.

(** What a public call puts on the diagnostic stream. *)
Definition run_err {C : Type} (vtable : Selector.backend_id -> NeuronShimBackend C)
    (access_R_OK : string -> bool) (g : globals) (a : api_call C)
    : list output :=
  match a with
  | Release rt => err (NeuronRuntime_release g rt)
  | LoadNetworkFromFile rt p =>
      err (NeuronRuntime_loadNetworkFromFile vtable access_R_OK g rt p)
  | LoadNetworkFromBuffer rt b n =>
      err (NeuronRuntime_loadNetworkFromBuffer vtable g rt b n)
  | SetInput rt i b n pad => err (NeuronRuntime_setInput vtable g rt i b n pad)
  | SetOutput rt i b n pad => err (NeuronRuntime_setOutput vtable g rt i b n pad)
  | GetInputCount rt c => err (NeuronRuntime_getInputCount vtable rt c)
  | GetOutputCount rt c => err (NeuronRuntime_getOutputCount vtable rt c)
  | GetInputSize rt i sz => err (NeuronRuntime_getInputSize vtable rt i sz)
  | GetOutputSize rt i sz => err (NeuronRuntime_getOutputSize vtable rt i sz)
  | GetInputInfo rt i info => err (NeuronRuntime_getInputInfo vtable rt i info)
  | GetOutputInfo rt i info => err (NeuronRuntime_getOutputInfo vtable rt i info)
  | Inference rt => err (NeuronRuntime_inference vtable g rt)
  | SetQoSOption rt q => err (NeuronRuntime_setQoSOption rt q)
  | GetProfiledQoSData rt q => err (NeuronRuntime_getProfiledQoSData rt q)
  end.

(** The level of the [SHIM_LOG] macro behind each tag. *)
Definition tag_level (tag : string) : Z :=
  if String.eqb tag "ERROR" then 1
  else if String.eqb tag "WARN" then 2
  else if String.eqb tag "INFO" then 3
  else 4.

(** Every line of the log macro on the stream is allowed by the level. *)
Definition gated (level : Z) (e : list output) : Prop :=
  forall tag fmt args, Logged tag fmt args ∈ e -> tag_level tag <= level.

End RuntimeMore.

(** A TFLite library that reads every file as a model of
    [demo_interpreter]. *)
Definition demo_library : TFLiteMore.TfLiteLibrary unit :=
  {| TFLiteMore.model_from_file := fun _ => Some tt;
     TFLiteMore.model_from_buffer := fun _ _ => Some tt;
     TFLiteMore.interpreter_create := fun _ => Some demo_interpreter;
     TFLiteMore.allocate_ok := fun _ => true |}.

(** A host whose ONNX Runtime has the CPU provider only. *)
Definition cpu_host : OnnxMore.OrtHost :=
  {| OnnxMore.calloc_ok := true; OnnxMore.api_ok := true;
     OnnxMore.env_ok := true; OnnxMore.session_options_ok := true;
     OnnxMore.tensorrt_options_ok := false;
     OnnxMore.tensorrt_append_ok := false;
     OnnxMore.cuda_options_ok := false; OnnxMore.cuda_append_ok := false;
     OnnxMore.migraphx_ok := false; OnnxMore.rocm_ok := false;
     OnnxMore.memory_info_ok := true; OnnxMore.error_message := "";
     OnnxMore.ORT_API_VERSION := 17 |}.

(* ================================================================== *)
(** * Properties                                                        *)
(* ================================================================== *)

Local Arguments String.append : simpl nomatch.

(** ** Strings *)
Section StringFacts.
Import CString.

Lemma append_assoc (a b c : string) : (a +:+ b) +:+ c = a +:+ (b +:+ c).
Proof. induction a as [|x a IH]; simpl; [reflexivity | now rewrite IH]. Qed.

Lemma append_nil_r (a : string) : a +:+ "" = a.
Proof. induction a as [|x a IH]; simpl; [reflexivity | now rewrite IH]. Qed.

Lemma length_append (a b : string) :
  String.length (a +:+ b) = (String.length a + String.length b)%nat.
Proof. induction a as [|x a IH]; simpl; [reflexivity | now rewrite IH]. Qed.

Lemma strn_all (n : nat) (s : string) :
  (String.length s <= n)%nat -> strn n s = s.
Proof.
  revert n; induction s as [|x s IH]; intros [|n] Hn; simpl in *;
    try reflexivity; try lia.
  f_equal. apply IH. lia.
Qed.

Lemma strn_length (n : nat) (s : string) :
  (String.length (strn n s) <= n)%nat.
Proof.
  revert s; induction n as [|n IH]; intros [|x s]; simpl; try lia.
  specialize (IH s). lia.
Qed.

Lemma snprintf_buf_fits (old out : string) (size : Z) :
  strlen out < size -> snprintf_buf old size out = out.
Proof.
  unfold snprintf_buf, strlen. intros H.
  destruct (Z.leb_spec size 0); [lia |].
  apply strn_all. lia.
Qed.

Lemma prefix_append (t b : string) : String.prefix t (t +:+ b) = true.
Proof.
  induction t as [|x t IH]; simpl.
  - now destruct b.
  - destruct (ascii_dec x x); [exact IH | congruence].
Qed.

Lemma contains_here (t b : string) : contains (t +:+ b) t = true.
Proof.
  assert (U : forall s, String.prefix t s = true -> contains s t = true) by
    (intros [|x s] H; cbn [contains]; rewrite H; reflexivity).
  apply U, prefix_append.
Qed.

Lemma contains_later (a s t : string) :
  contains s t = true -> contains (a +:+ s) t = true.
Proof.
  intros H. induction a as [|x a IH]; simpl; [exact H |].
  rewrite IH. apply orb_true_r.
Qed.

Lemma contains_middle (a t b : string) : contains (a +:+ t +:+ b) t = true.
Proof. apply contains_later, contains_here. Qed.

End StringFacts.

(** ** Model path resolution *)
Section ResolverFacts.
Import CString Resolver.

Lemma sep_rule (d : string) :
  sep d = if ends_with_slash d then "" else "/".
Proof. unfold sep, ends_with_slash. now destruct (last_char d). Qed.

(** As long as the requested path fits the 1024-byte scratch copy, the
    text formatted by the code is the one the rule describes. *)
Lemma formatted_rule (P suffix : string) (D : option string) :
  (redirect_set D = true -> strlen P < 1024) ->
  formatted P suffix D = resolution_rule P suffix D.
Proof.
  intros HP. destruct D as [[|c d]|]; simpl; try reflexivity.
  rewrite snprintf_buf_fits by (apply HP; reflexivity).
  now rewrite sep_rule.
Qed.

(** [basename] returns the file name of a path that ends in one. *)
Lemma basename_go_name (last cur name : string) :
  no_slash name = true ->
  basename_go last cur name
  = match cur +:+ name with EmptyString => last | b => b end.
Proof.
  revert cur. induction name as [| c name IH]; intros cur H; simpl in *.
  - rewrite append_nil_r. now destruct cur.
  - apply andb_true_iff in H as [Hc Hn].
    destruct (Ascii.eqb c slash); [discriminate |].
    rewrite (IH _ Hn), append_assoc. reflexivity.
Qed.

Lemma basename_go_dir (dir name last cur : string) :
  exists last', basename_go last cur (dir +:+ "/" +:+ name)
                = basename_go last' "" name.
Proof.
  revert last cur. induction dir as [| c dir IH]; intros last cur.
  - eexists. reflexivity.
  - simpl. destruct (Ascii.eqb c slash); apply IH.
Qed.

Lemma basename_join (dir name : string) :
  name <> "" -> no_slash name = true ->
  basename (dir +:+ "/" +:+ name) = name.
Proof.
  intros Hne Hns.
  assert (E : basename_go "" "" (dir +:+ "/" +:+ name) = name).
  { destruct (basename_go_dir dir name "" "") as [l ->].
    rewrite (basename_go_name _ _ _ Hns). simpl. now destruct name. }
  unfold basename. rewrite E.
  destruct dir; simpl; now destruct name.
Qed.

End ResolverFacts.

(** C1 (amended): whenever the string given by the resolution rule is
    shorter than the output buffer (and its length fits an [int]) and,
    with a redirect directory, the requested path is shorter than 1024
    bytes, [neuron_shim_resolve_model] leaves exactly that string in the
    output buffer: [P + S] without a redirect directory, and
    [D + sep + baseName(P) + S] with one, where [sep] is empty when [D]
    ends in a slash and a single slash otherwise. It then returns 0 or -1
    according to whether that path is readable. *)
Theorem resolve_model_exact
    (access_R_OK : string -> bool) (P suffix : string) (D : option string)
    (old : string) (resolved_len : Z) :
  CString.strlen (Resolver.resolution_rule P suffix D) < resolved_len ->
  CString.strlen (Resolver.resolution_rule P suffix D) <= CString.INT_MAX ->
  (Resolver.redirect_set D = true -> CString.strlen P < 1024) ->
  let r := Resolver.neuron_shim_resolve_model access_R_OK
             (Some P) (Some suffix) D (Some old) resolved_len in
  Resolver.resolved r = Some (Resolver.resolution_rule P suffix D) /\
  Resolver.rc r =
    if access_R_OK (Resolver.resolution_rule P suffix D) then 0 else -1.
Proof.
  intros Hlen Hint HP. cbv zeta.
  unfold Resolver.neuron_shim_resolve_model.
  rewrite (formatted_rule P suffix D HP).
  set (out := Resolver.resolution_rule P suffix D) in *.
  rewrite (snprintf_buf_fits old out resolved_len Hlen).
  unfold CString.snprintf_ret.
  destruct (Z.ltb_spec CString.INT_MAX (CString.strlen out)); [lia |].
  assert (0 <= CString.strlen out) by (unfold CString.strlen; lia).
  destruct (Z.ltb_spec (CString.strlen out) 0); [lia |].
  destruct (Z.leb_spec resolved_len (CString.strlen out)); [lia |].
  simpl. destruct (access_R_OK out); simpl; split; reflexivity.
Qed.

Lemma resolve_model_exact_witness :
  let r := Resolver.neuron_shim_resolve_model (fun _ => true)
             (Some "/data/m.dla") (Some ".onnx") (Some "/opt/models/")
             (Some "") 1024 in
  Resolver.resolved r = Some "/opt/models/m.dla.onnx" /\ Resolver.rc r = 0.
Proof.
  apply (resolve_model_exact (fun _ => true) "/data/m.dla" ".onnx"
           (Some "/opt/models/") "" 1024).
  - vm_compute; reflexivity.
  - vm_compute; discriminate.
  - intros _; vm_compute; reflexivity.
Defined.

(** C1 as stated fails: with the dispatcher's buffer of 1024 bytes and no
    redirect directory, a requested path of 1020 bytes and the suffix
    [.onnx] make 1025 bytes; the buffer receives only the first 1023 of
    them and the call returns -1. *)
Lemma resolve_model_truncates :
  let r := Resolver.neuron_shim_resolve_model (fun _ => true)
             (Some long_path) (Some ".onnx") (Some "") (Some "") 1024 in
  Resolver.resolved r <> Some (Resolver.resolution_rule long_path ".onnx" (Some ""))
  /\ Resolver.rc r = -1
  /\ Resolver.diag r = [Resolver.msg_too_long].
Proof.
  cbv zeta. split; [| split; vm_compute; reflexivity].
  intros H.
  apply (f_equal (fun o => String.length (default "" o))) in H.
  vm_compute in H. discriminate H.
Qed.

(** ** The dispatcher *)
Section RuntimeFacts.
Import CString Config Runtime.

Context {C : Type}.
Variable vtable : Selector.backend_id -> NeuronShimBackend C.
Variable access_R_OK : string -> bool.
Variable g : globals.

Lemma printed_with_app (a b : list output) (parts : list string) :
  printed_with (a ++ b) parts = printed_with a parts || printed_with b parts.
Proof. apply existsb_app. Qed.

Lemma printed_with_here (m : string) (rest : list output) (parts : list string) :
  forallb (contains m) parts = true ->
  printed_with (Printed m :: rest) parts = true.
Proof. intros H. unfold printed_with. simpl. now rewrite H. Qed.

Lemma printed_with_skip (o : output) (rest : list output) (parts : list string) :
  printed_with rest parts = true -> printed_with (o :: rest) parts = true.
Proof. intros H. unfold printed_with in *. simpl. rewrite H. apply orb_true_r. Qed.

(** What the resolver answers when the computed path fits the buffer of
    the dispatcher and cannot be read. *)
Lemma resolve_unreadable (p : string) :
  strlen (computed_path g p) < 1024 ->
  access_R_OK (computed_path g p) = false ->
  Resolver.neuron_shim_resolve_model access_R_OK (Some p) (Some (g_suffix g))
    (Some (model_dir (g_config g))) (Some "") 1024
  = {| Resolver.rc := -1;
       Resolver.resolved := Some (computed_path g p);
       Resolver.diag :=
         [ Resolver.msg_not_found p (computed_path g p);
           match model_dir (g_config g) with
           | String _ _ as dir =>
               Resolver.msg_fix_redirect dir (g_suffix g) (computed_path g p)
           | EmptyString =>
               Resolver.msg_fix_in_place (g_suffix g) (computed_path g p)
           end;
           Resolver.msg_box_end ] |}.
Proof.
  intros Hlen Hacc. unfold Resolver.neuron_shim_resolve_model.
  fold (computed_path g p).
  rewrite (snprintf_buf_fits "" (computed_path g p) 1024 Hlen).
  unfold snprintf_ret.
  assert (0 <= strlen (computed_path g p)) by (unfold strlen; lia).
  destruct (Z.ltb_spec INT_MAX (strlen (computed_path g p)));
    [unfold INT_MAX in *; lia |].
  destruct (Z.ltb_spec (strlen (computed_path g p)) 0); [lia |].
  destruct (Z.leb_spec 1024 (strlen (computed_path g p))); [lia |].
  simpl. rewrite Hacc. simpl. now destruct (model_dir (g_config g)).
Qed.

End RuntimeFacts.

Local Arguments CString.contains : simpl never.
Local Arguments Resolver.msg_not_found : simpl never.
Local Arguments Resolver.msg_fix_redirect : simpl never.
Local Arguments Resolver.msg_fix_in_place : simpl never.
Local Opaque Resolver.msg_box_end Resolver.msg_too_long.

Ltac find_segment :=
  repeat first [apply contains_here | apply contains_later].

Lemma not_found_names_both (p c : string) :
  forallb (CString.contains (Resolver.msg_not_found p c)) [p; c] = true.
Proof.
  unfold Resolver.msg_not_found. cbn [forallb].
  rewrite !andb_true_iff. repeat split; find_segment.
Qed.

Lemma copy_command_split (sfx c rest : string) :
  "║    cp your_model" +:+ sfx +:+ " " +:+ c +:+ rest
  = "║    " +:+ ("cp your_model" +:+ sfx +:+ " " +:+ c) +:+ rest.
Proof. rewrite !append_assoc. reflexivity. Qed.

Lemma fix_redirect_gives_command (dir sfx c : string) :
  CString.contains (Resolver.msg_fix_redirect dir sfx c)
                   ("cp your_model" +:+ sfx +:+ " " +:+ c) = true.
Proof.
  unfold Resolver.msg_fix_redirect.
  do 9 apply contains_later.
  rewrite copy_command_split. apply contains_middle.
Qed.

Lemma fix_in_place_gives_command (sfx c : string) :
  CString.contains (Resolver.msg_fix_in_place sfx c)
                   ("cp your_model" +:+ sfx +:+ " " +:+ c) = true.
Proof.
  unfold Resolver.msg_fix_in_place.
  do 2 apply contains_later.
  rewrite copy_command_split. apply contains_middle.
Qed.

(** C8 (amended): for every valid handle and every requested path whose
    computed path is shorter than the 1024-byte buffer of the dispatcher
    and is not readable, [NeuronRuntime_loadNetworkFromFile] returns
    NEURONRUNTIME_BAD_DATA without calling the adapter, the handle stays
    valid, and the diagnostic stream names the requested path and the
    computed path and gives the copy command that fixes it, whatever the
    log level and whether or not the requested path itself is readable. *)
Theorem load_unreadable_model_is_bad_data {C : Type}
    (vtable : Selector.backend_id -> Runtime.NeuronShimBackend C)
    (access_R_OK : string -> bool) (g : Runtime.globals)
    (rt : Runtime.ShimRuntime C) (p : string) :
  CString.strlen (Runtime.computed_path g p) < 1024 ->
  access_R_OK (Runtime.computed_path g p) = false ->
  let r := Runtime.NeuronRuntime_loadNetworkFromFile vtable access_R_OK g
             (Some rt) (Some p) in
  Runtime.ret r = Runtime.NEURONRUNTIME_BAD_DATA /\
  Runtime.calls r = [] /\
  Runtime.rt_after r = Some rt /\
  Runtime.names_paths_and_remedy (Runtime.err r) p (Runtime.computed_path g p)
    (Runtime.g_suffix g) = true.
Proof.
  intros Hlen Hacc. cbv zeta.
  unfold Runtime.NeuronRuntime_loadNetworkFromFile.
  rewrite (resolve_unreadable access_R_OK g p Hlen Hacc). simpl.
  repeat split.
  unfold Runtime.names_paths_and_remedy.
  rewrite !printed_with_app. apply andb_true_iff. split.
  - rewrite (printed_with_here (Resolver.msg_not_found p (Runtime.computed_path g p)))
      by apply not_found_names_both.
    now rewrite !orb_true_r.
  - assert (E : Runtime.printed_with
                  [Runtime.Printed (Resolver.msg_not_found p (Runtime.computed_path g p));
                   Runtime.Printed
                     match Config.model_dir (Runtime.g_config g) with
                     | EmptyString =>
                         Resolver.msg_fix_in_place (Runtime.g_suffix g)
                           (Runtime.computed_path g p)
                     | String _ _ as dir =>
                         Resolver.msg_fix_redirect dir (Runtime.g_suffix g)
                           (Runtime.computed_path g p)
                     end;
                   Runtime.Printed Resolver.msg_box_end]
                  ["cp your_model" +:+ Runtime.g_suffix g +:+ " "
                   +:+ Runtime.computed_path g p] = true).
    { apply printed_with_skip, printed_with_here. cbn [forallb].
      rewrite andb_true_r.
      destruct (Config.model_dir (Runtime.g_config g)).
      - apply fix_in_place_gives_command.
      - apply fix_redirect_gives_command. }
    rewrite E. now rewrite !orb_true_r.
Qed.

Lemma load_unreadable_model_witness :
  let r := Runtime.NeuronRuntime_loadNetworkFromFile (Runtime.stub_only dirty)
             (fun _ => false) bare_globals
             (Some bare_runtime) (Some "/tmp/test_model.dla") in
  Runtime.ret r = 1 /\
  Runtime.calls r = [] /\
  Runtime.rt_after r = Some bare_runtime /\
  Runtime.names_paths_and_remedy (Runtime.err r) "/tmp/test_model.dla"
    "/tmp/test_model.dla.onnx" ".onnx" = true.
Proof.
  apply (load_unreadable_model_is_bad_data (Runtime.stub_only dirty) (fun _ => false)
           bare_globals bare_runtime "/tmp/test_model.dla");
    vm_compute; reflexivity.
Defined.

(** C8 as stated fails: a requested path of 1020 bytes makes, with the
    suffix [.onnx], a computed path of 1025 bytes that no file has. The
    call returns NEURONRUNTIME_BAD_DATA, but all the resolver prints is
    that the resolved path is too long: no text on the stream holds the
    computed path or a copy command. *)
Lemma load_too_long_path_has_no_remedy :
  let r := Runtime.NeuronRuntime_loadNetworkFromFile (Runtime.stub_only dirty)
             (fun _ => false) bare_globals
             (Some bare_runtime) (Some long_path) in
  Runtime.ret r = Runtime.NEURONRUNTIME_BAD_DATA /\
  Runtime.err r =
    [ Runtime.Logged "INFO" "loadNetwork: %s" [Runtime.AStr long_path];
      Runtime.Printed Resolver.msg_too_long;
      Runtime.Logged "ERROR" "model not found: %s%s"
        [Runtime.AStr long_path; Runtime.AStr ".onnx"] ] /\
  Runtime.printed_with (Runtime.err r) ["cp your_model"] = false /\
  Runtime.names_paths_and_remedy (Runtime.err r) long_path
    (Runtime.computed_path bare_globals long_path) ".onnx" = false.
Proof. cbv zeta. repeat split; vm_compute; reflexivity. Qed.

(** C5 (amended): for every public operation other than create and the
    two QoS operations, a NULL handle, or a NULL model path, model
    buffer, or count / size / info out pointer, makes the call return
    NEURONRUNTIME_UNEXPECTED_NULL without any adapter function being
    called; the two QoS operations return NEURONRUNTIME_NO_ERROR whatever
    their arguments, also without calling the adapter. *)
Theorem null_arguments_rejected {C : Type}
    (vtable : Selector.backend_id -> Runtime.NeuronShimBackend C)
    (access_R_OK : string -> bool) (g : Runtime.globals)
    (a : Runtime.api_call C) :
  (Runtime.is_qos a = false ->
   Runtime.handle_of a = None \/ Runtime.null_argument a = true ->
   Runtime.run_call vtable access_R_OK g a
   = (Runtime.NEURONRUNTIME_UNEXPECTED_NULL, [])) /\
  (Runtime.is_qos a = true ->
   Runtime.run_call vtable access_R_OK g a = (Runtime.NEURONRUNTIME_NO_ERROR, [])).
Proof.
  split.
  - intros Hq [Hh | Hn].
    + destruct a; simpl in Hh, Hq; try discriminate; subst; reflexivity.
    + destruct a as [rt | rt [p|] | rt b n | | | rt [c|] | rt [c|]
                     | rt i [sz|] | rt i [sz|] | rt i [info|] | rt i [info|]
                     | | | ];
        simpl in Hn, Hq; try discriminate; destruct rt as [rt|];
        try reflexivity;
        unfold Runtime.run_call, Runtime.NeuronRuntime_loadNetworkFromBuffer;
        rewrite Hn; reflexivity.
  - intros Hq. destruct a; simpl in Hq; try discriminate; reflexivity.
Qed.

Lemma null_arguments_rejected_witness :
  Runtime.run_call (Runtime.stub_only dirty) (fun _ => false) bare_globals
    (Runtime.Inference None) = (3, []) /\
  Runtime.run_call (Runtime.stub_only dirty) (fun _ => false) bare_globals
    (Runtime.GetOutputSize (Some bare_runtime) 0 None) = (3, []) /\
  Runtime.run_call (Runtime.stub_only dirty) (fun _ => false) bare_globals
    (Runtime.GetProfiledQoSData (Some bare_runtime) None) = (0, []).
Proof.
  split; [| split].
  - apply (null_arguments_rejected (Runtime.stub_only dirty) (fun _ => false)
             bare_globals (Runtime.Inference None));
      [reflexivity | left; reflexivity].
  - apply (null_arguments_rejected (Runtime.stub_only dirty) (fun _ => false)
             bare_globals (Runtime.GetOutputSize (Some bare_runtime) 0 None));
      [reflexivity | right; reflexivity].
  - apply (null_arguments_rejected (Runtime.stub_only dirty) (fun _ => false)
             bare_globals (Runtime.GetProfiledQoSData (Some bare_runtime) None));
      reflexivity.
Defined.

(** C5 as stated fails: [NeuronRuntime_setQoSOption] on a NULL handle
    returns NEURONRUNTIME_NO_ERROR, and [NeuronRuntime_setOutput] with a
    valid handle and a NULL buffer is passed on to the adapter. *)
Lemma null_not_always_rejected :
  Runtime.run_call (Runtime.stub_only dirty) (fun _ => false) bare_globals
    (Runtime.SetQoSOption None None)
  = (Runtime.NEURONRUNTIME_NO_ERROR, []) /\
  Runtime.run_call (Runtime.stub_only dirty) (fun _ => false) bare_globals
    (Runtime.SetOutput (Some bare_runtime) 0 0 4004 (-1))
  = (Runtime.NEURONRUNTIME_NO_ERROR, [Runtime.ASetOutput 0 0 4004]).
Proof. split; vm_compute; reflexivity. Qed.

(** ** Configuration *)
Section ConfigFacts.
Import CString Config.

(** A parsed [key = value] changes the field of that key and no other. *)
Lemma get_apply_setting (f : field) (k v : string) (c : NeuronShimConfig) :
  get f (apply_setting k v c)
  = if String.eqb k (file_key f) then file_conv f v else get f c.
Proof.
  unfold apply_setting.
  destruct (String.eqb_spec k "backend");
    [subst; destruct f; reflexivity |].
  destruct (String.eqb_spec k "suffix");
    [subst; destruct f; reflexivity |].
  destruct (String.eqb_spec k "model_dir");
    [subst; destruct f; reflexivity |].
  destruct (String.eqb_spec k "threads");
    [subst; destruct f; reflexivity |].
  destruct (String.eqb_spec k "force_cpu");
    [subst; destruct f; reflexivity |].
  destruct (String.eqb_spec k "log_level");
    [subst; destruct f; reflexivity |].
  destruct f; simpl;
    match goal with
    | |- _ = if String.eqb k ?lit then _ else _ =>
        destruct (String.eqb_spec k lit); [congruence | reflexivity]
    end.
Qed.

Lemma get_config_line (f : field) (line : string) (c : NeuronShimConfig) :
  get f (config_line c line)
  = from_option (file_conv f) (get f c) (assigns (file_key f) line).
Proof.
  unfold config_line, assigns.
  destruct (parse_line line) as [[k v]|]; [| reflexivity].
  rewrite get_apply_setting. now destruct (String.eqb k (file_key f)).
Qed.

(** The loop over the lines of a file leaves in each field the value of
    the last line that assigns it. *)
Lemma get_foldl_config_line (f : field) (lines : list string)
    (c : NeuronShimConfig) :
  get f (foldl config_line c lines)
  = from_option (file_conv f) (get f c)
      (last (omap (assigns (file_key f)) lines)).
Proof.
  induction lines as [| line lines IH] using rev_ind; [reflexivity |].
  rewrite foldl_app, omap_app. simpl.
  rewrite get_config_line, IH.
  destruct (assigns (file_key f) line) as [v|]; simpl.
  - now rewrite last_snoc.
  - now rewrite app_nil_r.
Qed.

Lemma get_parse_config_file (fs : gmap string string) (path : string)
    (f : field) (c : NeuronShimConfig) :
  get f (parse_config_file fs path c)
  = default (get f c) (file_sets fs path f).
Proof.
  unfold parse_config_file, file_sets, file_text.
  destruct (fs !! path) as [text|]; [| reflexivity].
  rewrite get_foldl_config_line.
  now destruct (last _).
Qed.

(** Field by field, the loader computes the layered reading. *)
Lemma load_from_layered (g : NeuronShimConfig) (fs env : gmap string string)
    (f : field) :
  get f (neuron_shim_config_load_from g fs env) = layered g fs env f.
Proof.
  set (c := parse_config_file fs local_conf (parse_config_file fs system_conf g)).
  assert (E : get f (neuron_shim_config_load_from g fs env)
              = from_option (env_conv f) (get f c) (env !! env_name f)).
  { unfold neuron_shim_config_load_from, env_override. fold c. clearbody c.
    destruct f; simpl;
      destruct (env !! "NEURON_SHIM_BACKEND"),
               (env !! "NEURON_SHIM_SUFFIX"),
               (env !! "NEURON_SHIM_MODEL_DIR"),
               (env !! "NEURON_SHIM_NUM_THREADS"),
               (env !! "NEURON_SHIM_FORCE_CPU"),
               (env !! "NEURON_SHIM_LOG_LEVEL"); reflexivity. }
  rewrite E. unfold c, layered, env_sets.
  rewrite !get_parse_config_file.
  destruct (env !! env_name f); simpl; [reflexivity |].
  destruct (file_sets fs local_conf f); simpl; [reflexivity |].
  now destruct (file_sets fs system_conf f).
Qed.

Lemma atoi_no_number (v : string) :
  parses_as_number v = false -> atoi v = 0.
Proof.
  unfold parses_as_number, atoi, strtol10.
  destruct (strip_sign (skip_space v)) as [neg r]. simpl.
  destruct r as [| c r]; simpl.
  - now destruct neg.
  - destruct (digit_val c); [discriminate |]. now destruct neg.
Qed.

End ConfigFacts.

(** C3: for every field, the snapshot produced by
    [neuron_shim_config_load] holds the value given by the environment
    variable of the field if it is set; otherwise the value on the last
    line of ./neuron-shim.conf that assigns the field, if there is one;
    otherwise that of /etc/neuron-shim.conf; otherwise the compiled-in
    default. Each source decides only the fields it sets. *)
Theorem config_precedence (fs env : gmap string string) (f : Config.field) :
  Config.get f (Config.neuron_shim_config_load fs env)
  = Config.layered Config.g_config fs env f.
Proof. apply load_from_layered. Qed.

(** C7 (amended): for the numeric fields [threads] and [log_level], if
    the text supplied by the winning source (environment variable, else
    local file, else system file) does not start with a number, the
    field of the final snapshot is 0, the value [atoi] gives, and not the
    compiled-in default. *)
Theorem unparsable_number_gives_zero (fs env : gmap string string)
    (f : Config.field) (v : string) :
  Config.numeric f = true ->
  Config.supplied fs env f = Some v ->
  CString.parses_as_number v = false ->
  Config.get f (Config.neuron_shim_config_load fs env) = Config.VInt 0.
Proof.
  intros Hnum Hsup Hv.
  unfold Config.neuron_shim_config_load. rewrite load_from_layered.
  unfold Config.layered, Config.env_sets, Config.file_sets.
  unfold Config.supplied in Hsup.
  destruct (env !! Config.env_name f) as [e|]; simpl.
  { injection Hsup as ->.
    destruct f; try discriminate; simpl; now rewrite atoi_no_number. }
  destruct (Config.file_text fs Config.local_conf f) as [l|]; simpl.
  { injection Hsup as ->.
    destruct f; try discriminate; simpl; now rewrite atoi_no_number. }
  rewrite Hsup. simpl.
  destruct f; try discriminate; simpl; now rewrite atoi_no_number.
Qed.

Lemma unparsable_number_witness :
  Config.get Config.Threads (Config.neuron_shim_config_load ∅ env_bad_threads)
  = Config.VInt 0.
Proof.
  apply (unparsable_number_gives_zero ∅ env_bad_threads Config.Threads "abc");
    vm_compute; reflexivity.
Defined.

(** C7 as stated fails: a thread count of [abc] in the environment
    leaves 0 threads, not the default 4; a log level of [high] in the
    local file leaves log level 0, not the default 3. *)
Lemma unparsable_number_is_not_default :
  CString.parses_as_number "abc" = false /\
  Config.threads (Config.neuron_shim_config_load ∅ env_bad_threads) = 0 /\
  Config.threads Config.g_config = 4 /\
  CString.parses_as_number "high" = false /\
  Config.log_level (Config.neuron_shim_config_load fs_bad_log_level ∅) = 0 /\
  Config.log_level Config.g_config = 3.
Proof. repeat split; vm_compute; reflexivity. Qed.

(** ** Suffix and selected backend *)

(** With suffix [auto], the resolved suffix follows the configured
    backend name alone. *)
Lemma auto_suffix_follows_name (cfg : Config.NeuronShimConfig) :
  Config.suffix cfg = "auto" ->
  Config.neuron_shim_config_get_suffix cfg
  = if String.eqb (Config.backend cfg) "tflite" then ".tflite" else ".onnx".
Proof. intros H. unfold Config.neuron_shim_config_get_suffix. now rewrite H. Qed.

(** C4 (the code at the failing input): with no configuration at all
    (backend [auto], suffix [auto]) on a machine where auto-detection
    finds only TensorFlow Lite, [shim_global_init] selects the tflite
    adapter and yet resolves the model suffix to [.onnx]. *)
Theorem auto_detected_tflite_gets_onnx_suffix :
  let g := fst (Runtime.shim_global_init tflite_platform ∅ ∅) in
  Config.backend (Runtime.g_config g) = "auto" /\
  Config.suffix (Runtime.g_config g) = "auto" /\
  Runtime.g_backend g = Selector.BTflite /\
  Runtime.g_suffix g = ".onnx".
Proof. cbv zeta. repeat split; vm_compute; reflexivity. Qed.

(** ** Writes into caller memory *)
Section MemFacts.
Import Mem.

Lemma adds_refl (P : write -> Prop) (st : memory * list write) : adds P st st.
Proof.
  exists []. split; [now rewrite app_nil_r |].
  split; [constructor | intros a _; reflexivity].
Qed.

Lemma adds_trans (P : write -> Prop) (s1 s2 s3 : memory * list write) :
  adds P s1 s2 -> adds P s2 s3 -> adds P s1 s3.
Proof.
  intros (n1 & E1 & F1 & W1) (n2 & E2 & F2 & W2).
  exists (n1 ++ n2). split; [| split].
  - rewrite E2, E1. now rewrite app_assoc.
  - now apply Forall_app.
  - intros a Ha. rewrite W2, W1; [reflexivity | |];
      intros w Hw; apply Ha; apply elem_of_app; auto.
Qed.

Lemma adds_write (P : write -> Prop) (st : memory * list write)
    (m' : memory) (p n : Z) :
  P {| w_dst := p; w_len := n |} ->
  (forall a, in_range p n a = false -> m' a = fst st a) ->
  adds P st (m', snd st ++ [{| w_dst := p; w_len := n |}]).
Proof.
  intros HP Hm. exists [{| w_dst := p; w_len := n |}]. simpl.
  split; [reflexivity | split].
  - now constructor.
  - intros a Ha. apply Hm. apply (Ha {| w_dst := p; w_len := n |}).
    apply list_elem_of_singleton. reflexivity.
Qed.

Lemma adds_foldl {A : Type} (P : write -> Prop)
    (f : memory * list write -> A -> memory * list write) (l : list A) :
  (forall st x, x ∈ l -> adds P st (f st x)) ->
  forall st, adds P st (foldl f st l).
Proof.
  induction l as [| x l IH]; intros Hf st; simpl.
  - apply adds_refl.
  - eapply adds_trans.
    + apply Hf. apply list_elem_of_here.
    + apply IH. intros st' y Hy. apply Hf. now apply list_elem_of_further.
Qed.

Lemma adds_from_start (P : write -> Prop) (m : memory)
    (st : memory * list write) :
  adds P (m, []) st -> Forall P (snd st) /\ only_written (snd st) m (fst st).
Proof. intros (new & E & F & W). simpl in *. rewrite E. now split. Qed.

Lemma memset0_outside (m : memory) (p n a : Z) :
  in_range p n a = false -> memset0 m p n a = m a.
Proof. intros H. unfold memset0. now rewrite H. Qed.

Lemma memcpy_outside (m : memory) (p n a : Z) (src : Z -> Byte.byte) :
  in_range p n a = false -> memcpy m p src n a = m a.
Proof. intros H. unfold memcpy. now rewrite H. Qed.

Lemma in_range_spec (p n a : Z) : in_range p n a = true <-> p <= a < p + n.
Proof. unfold in_range. rewrite andb_true_iff, Z.leb_le, Z.ltb_lt. tauto. Qed.


End MemFacts.

(** ** The stub adapter *)
Section StubFacts.
Import Mem Stub.


Lemma visited_intro (c : StubContext) (i : Z) :
  0 <= i -> i < output_count c -> i < 32 -> Z.to_nat i ∈ visited c.
Proof.
  unfold visited, MAX_TENSORS. rewrite elem_of_seq. lia.
Qed.

Lemma zero_slot_adds (c : StubContext) (st : memory * list write) (i : nat) :
  i ∈ visited c -> adds (from_visited c) st (zero_slot st (outputs c !!! i)).
Proof.
  intros Hi. unfold zero_slot.
  destruct (Z.eqb_spec (b_buf (outputs c !!! i)) 0); simpl;
    [apply adds_refl |].
  destruct (Z.ltb_spec 0 (b_size (outputs c !!! i))); simpl;
    [| apply adds_refl].
  apply adds_write.
  - exists i. simpl. auto.
  - intros a Ha. now apply memset0_outside.
Qed.

Lemma stub_invoke_unfold (c : StubContext) (m : memory) :
  stub_invoke c m
  = (0,
     {| model_path := model_path c; inputs := inputs c; outputs := outputs c;
        input_count := input_count c; output_count := output_count c;
        inference_count := CString.int_wrap (inference_count c + 1) |},
     fst (zero_loop c (m, []) (visited c)),
     snd (zero_loop c (m, []) (visited c))).
Proof.
  unfold stub_invoke, zero_loop. now destruct (foldl _ _ _).
Qed.

Lemma zero_loop_adds (c : StubContext) (m : memory) :
  adds (from_visited c) (m, []) (zero_loop c (m, []) (visited c)).
Proof.
  unfold zero_loop. apply adds_foldl. intros st i Hi. now apply zero_slot_adds.
Qed.

(** Zero bytes stay zero through the loop. *)
Lemma zero_loop_keeps_zero (c : StubContext) (l : list nat)
    (st : memory * list write) (a : Z) :
  fst st a = Byte.x00 -> fst (zero_loop c st l) a = Byte.x00.
Proof.
  revert st. induction l as [| i l IH]; intros st H; simpl; [exact H |].
  apply IH. unfold zero_slot.
  destruct (negb _ && _); simpl; [| exact H].
  unfold memset0. now destruct (in_range _ _ a).
Qed.

(** A visited slot with a buffer is zero after the loop. *)
Lemma zero_loop_fills (c : StubContext) (l : list nat)
    (st : memory * list write) (i : nat) :
  i ∈ l -> b_buf (outputs c !!! i) <> 0 ->
  zero_filled (fst (zero_loop c st l))
              (b_buf (outputs c !!! i)) (b_size (outputs c !!! i)).
Proof.
  revert st. induction l as [| j l IH]; intros st Hi Hb a Ha.
  - now apply elem_of_nil in Hi.
  - apply elem_of_cons in Hi as [-> | Hi].
    + simpl. apply zero_loop_keeps_zero. unfold zero_slot.
      destruct (Z.eqb_spec (b_buf (outputs c !!! j)) 0); [contradiction |].
      destruct (Z.ltb_spec 0 (b_size (outputs c !!! j))); [| lia].
      simpl. unfold memset0.
      now rewrite (proj2 (in_range_spec _ _ a) Ha).
    + simpl. now apply IH.
Qed.

(** Outside the buffers it visits, [stub_invoke] leaves memory alone. *)
Lemma zero_loop_frame (c : StubContext) (m : memory) (a : Z) :
  covered c a = false -> fst (zero_loop c (m, []) (visited c)) a = m a.
Proof.
  intros Hc.
  destruct (adds_from_start _ _ _ (zero_loop_adds c m)) as [F W].
  apply W.
  intros w Hw. rewrite Forall_forall in F.
  destruct (F w Hw) as (i & Hi & Hb & _ & -> & ->).
  unfold covered in Hc.
  destruct (in_range _ _ a) eqn:E; [| reflexivity].
  assert (existsb (fun i => negb (b_buf (outputs c !!! i) =? 0)
                            && in_range (b_buf (outputs c !!! i))
                                        (b_size (outputs c !!! i)) a)
                  (visited c) = true); [| congruence].
  apply existsb_exists. exists i. split.
  - now apply list_elem_of_In.
  - rewrite E. now destruct (Z.eqb_spec (b_buf (outputs c !!! i)) 0).
Qed.

End StubFacts.

(** ** Sequences of calls on the stub adapter *)
Section StubTraceFacts.
Import Mem Stub.

Lemma tracks_created : tracks (fun _ => None) (snd stub_create).
Proof. split; [reflexivity | intros i b H; discriminate]. Qed.

Lemma step_tracks (bound : Z -> option binding) (c c' : StubContext)
    (m m' : memory) (o : op) :
  tracks bound c -> step (c, m) o = Some (c', m') -> tracks (rebind bound o) c'.
Proof.
  intros [Hlen Hb] Hstep. destruct o as [path | buf size | i buf size
                                         | i buf size | | addr x]; simpl in *.
  - injection Hstep as <- <-. split; [exact Hlen | intros i b H; discriminate].
  - injection Hstep as <- <-. split; [exact Hlen | intros i b H; discriminate].
  - unfold stub_set_input, MAX_TENSORS in Hstep.
    destruct (Z.ltb_spec i 32); [destruct (Z.ltb_spec i 0); [discriminate |] |];
      injection Hstep as <- <-; split; auto.
  - unfold stub_set_output, MAX_TENSORS in *.
    destruct (Z.ltb_spec i 32).
    + destruct (Z.ltb_spec i 0); [discriminate |].
      injection Hstep as <- <-.
      destruct (Z.leb_spec 0 i); [| lia]. simpl.
      split; [simpl; now rewrite length_insert |].
      intros j b. destruct (Z.eqb_spec j i) as [-> | Hne]; intros Hj.
      * injection Hj as <-. simpl.
        split; [lia |]. split.
        -- destruct (Z.leb_spec (output_count c) i); lia.
        -- apply list_lookup_total_insert_eq. lia.
      * destruct (Hb j b Hj) as (Hr & Hc & Hs). simpl.
        split; [lia |]. split.
        -- destruct (Z.leb_spec (output_count c) i); lia.
        -- rewrite list_lookup_total_insert_ne by lia. exact Hs.
    + injection Hstep as <- <-.
      destruct (Z.leb_spec 0 i); simpl; split; auto.
  - rewrite stub_invoke_unfold in Hstep. injection Hstep as <- <-.
    split; auto.
  - injection Hstep as <- <-. split; auto.
Qed.

Lemma run_tracks (ops : list op) (bound : Z -> option binding)
    (c c' : StubContext) (m m' : memory) :
  tracks bound c -> run ops (c, m) = Some (c', m') ->
  tracks (foldl rebind bound ops) c'.
Proof.
  revert bound c m. induction ops as [| o ops IH]; intros bound c m Ht Hrun.
  - simpl in *. now injection Hrun as <- <-.
  - cbn [run] in Hrun. destruct (step (c, m) o) as [[c1 m1] |] eqn:E; [| discriminate].
    simpl. eapply IH; [| exact Hrun]. eapply step_tracks; eauto.
Qed.

End StubTraceFacts.

(** C2 (amended): take any sequence of calls on a stub context after its
    creation: loads, [set_input], [set_output], invokes, and writes of
    the application into its own memory, in any order and number. At
    every invoke that follows, each output buffer that is bound at that
    moment, that is, bound by the latest [set_output] on a slot
    [0 .. 31] since the model was last loaded, is zero over its whole
    bound size after the invoke, whatever it held before; the invoke
    returns 0. *)
Theorem stub_invoke_zero_fills
    (ops : list Stub.op) (m0 m : Mem.memory) (c : Stub.StubContext)
    (i : Z) (b : Mem.binding) :
  Stub.run ops (snd Stub.stub_create, m0) = Some (c, m) ->
  Stub.bound_after ops i = Some b ->
  Mem.b_buf b <> 0 ->
  let '(r, _, m', _) := Stub.stub_invoke c m in
  r = 0 /\ Mem.zero_filled m' (Mem.b_buf b) (Mem.b_size b).
Proof.
  intros Hrun Hbound Hbuf.
  destruct (run_tracks ops _ _ _ _ _ tracks_created Hrun) as [_ Ht].
  destruct (Ht i b Hbound) as (Hr & Hc & Hs).
  rewrite stub_invoke_unfold. split; [reflexivity |].
  rewrite <- Hs in Hbuf |- *.
  apply zero_loop_fills; [| exact Hbuf].
  apply visited_intro; lia.
Qed.

Lemma stub_invoke_zero_fills_witness :
  let '(r, _, m', _) := Stub.stub_invoke (fst demo_state) (snd demo_state) in
  r = 0 /\ Mem.zero_filled m' 1000 4004.
Proof.
  apply (stub_invoke_zero_fills demo_ops dirty (snd demo_state) (fst demo_state)
           0 {| Mem.b_buf := 1000; Mem.b_size := 4004 |}).
  - vm_compute; reflexivity.
  - vm_compute; reflexivity.
  - discriminate.
Defined.

(** C2 as stated fails. A buffer bound at index 32 is accepted
    ([stub_set_output] returns 0) and is not touched by the invoke that
    follows; and a buffer bound at index 1 before the model is loaded is
    not touched either, the load having put the output count back to 1. *)
Lemma stub_invoke_leaves_bound_buffer_dirty :
  Stub.stub_set_output (snd Stub.stub_create) 32 1000 4
  = Some (0, snd Stub.stub_create) /\
  match Stub.run [Stub.SetOutput 32 1000 4] (snd Stub.stub_create, dirty) with
  | Some (c, m) =>
      let '(r, _, m', _) := Stub.stub_invoke c m in r = 0 /\ m' 1000 = Byte.xff
  | None => False
  end /\
  match Stub.run [Stub.SetOutput 1 1000 4; Stub.LoadFromFile "m.dla.onnx"]
                 (snd Stub.stub_create, dirty) with
  | Some (c, m) =>
      let '(r, _, m', _) := Stub.stub_invoke c m in r = 0 /\ m' 1000 = Byte.xff
  | None => False
  end.
Proof. split; [| split]; vm_compute; split; reflexivity. Qed.

(** C10: in the stub adapter, [set_output] with an index of 32 or more
    returns 0 and hands back the context as it was (binding table and
    output count included), so the invoke that follows writes only where
    the earlier bindings lie, and nowhere at all on a context just
    created; the onnx adapter's [set_output] returns -1 for the same
    index. *)
Theorem stub_set_output_past_table_is_ignored
    (c : Stub.StubContext) (oc : Onnx.OnnxContext) (m : Mem.memory)
    (index buf size : Z) :
  Stub.MAX_TENSORS <= index -> index <= CString.INT_MAX ->
  Stub.stub_set_output c index buf size = Some (0, c) /\
  (let '(_, _, m', _) := Stub.stub_invoke c m in
   forall a, Stub.covered c a = false -> m' a = m a) /\
  (let '(_, _, m', ws) := Stub.stub_invoke (snd Stub.stub_create) m in
   ws = [] /\ forall a, m' a = m a) /\
  Onnx.onnx_set_output oc index buf size = (-1, oc).
Proof.
  unfold Stub.MAX_TENSORS, CString.INT_MAX. intros Hlo Hhi.
  split; [| split; [| split]].
  - unfold Stub.stub_set_output, Stub.MAX_TENSORS.
    destruct (Z.ltb_spec index 32); [lia | reflexivity].
  - rewrite stub_invoke_unfold. intros a Ha. now apply zero_loop_frame.
  - rewrite stub_invoke_unfold. split; [reflexivity |].
    intros a. now apply zero_loop_frame.
  - unfold Onnx.onnx_set_output, Onnx.MAX_TENSORS, Onnx.to_size_t, Onnx.SIZE_MAX1.
    rewrite Z.mod_small by lia.
    destruct (Z.leb_spec 32 index); [reflexivity | lia].
Qed.

Lemma stub_set_output_past_table_witness :
  Stub.stub_set_output (fst demo_state) 32 1000 4 = Some (0, fst demo_state) /\
  (let '(_, _, m', _) := Stub.stub_invoke (fst demo_state) dirty in
   forall a, Stub.covered (fst demo_state) a = false -> m' a = dirty a) /\
  (let '(_, _, m', ws) := Stub.stub_invoke (snd Stub.stub_create) dirty in
   ws = [] /\ forall a, m' a = dirty a) /\
  Onnx.onnx_set_output Onnx.onnx_created 32 1000 4 = (-1, Onnx.onnx_created).
Proof.
  apply (stub_set_output_past_table_is_ignored (fst demo_state)
           Onnx.onnx_created dirty 32 1000 4).
  - vm_compute; discriminate.
  - vm_compute; discriminate.
Defined.

(** ** Loading a model into the onnx adapter *)
Section OnnxLoadFacts.
Import Onnx.

Lemma take_clamped (infos : list tensor_info) :
  take (Z.to_nat (clamped infos)) infos = take 32 infos.
Proof.
  unfold clamped, MAX_TENSORS.
  destruct (le_lt_dec (length infos) 32) as [H | H].
  - rewrite Z.min_r by lia. rewrite Nat2Z.id.
    now rewrite firstn_all, take_ge by lia.
  - rewrite Z.min_l by lia. reflexivity.
Qed.

Lemma clamped_range (infos : list tensor_info) : 0 <= clamped infos <= 32.
Proof. unfold clamped, MAX_TENSORS. lia. Qed.

(** A load that returns 0 has stored the session and the two clamped
    counts. *)
Lemma populate_counts (c oc : OnnxContext) (s : OrtSession) :
  populate_tensor_info c s = Some (0, oc) ->
  session oc = Some s /\
  input_count oc = clamped (s_inputs s) /\
  output_count oc = clamped (s_outputs s).
Proof.
  unfold populate_tensor_info.
  destruct (s_fails s GetAllocatorWithDefaultOptions); [discriminate |].
  destruct (s_fails s SessionGetInputCount); [discriminate |].
  destruct (fill _ 0 _ (inputs c)) as [[r1 t1] |]; [| discriminate].
  destruct (negb (r1 =? 0)); [discriminate |].
  destruct (s_fails s SessionGetOutputCount); [discriminate |].
  destruct (fill _ 0 _ (outputs c)) as [[r2 t2] |]; [| discriminate].
  intros H. injection H as _ <-. simpl. auto.
Qed.

(** The loop over tensors of at most 8 dimensions, no query failing:
    it ends with 0, every tensor visited has its size in the table, and
    the slots below the first one are left alone. *)
Lemma fill_ok (fails : nat -> tensor_query -> bool) (infos : list tensor_info) :
  forall (i : nat) (table : list Z),
    (forall k q, fails k q = false) ->
    Forall (fun ti => (length (ti_shape ti) <= 8)%nat) infos ->
    (i + length infos <= length table)%nat ->
    exists table',
      fill fails i infos table = Some (0, table') /\
      length table' = length table /\
      (forall j, (j < i)%nat -> table' !!! j = table !!! j) /\
      (forall k ti, infos !! k = Some ti ->
         table' !!! (i + k)%nat
         = compute_tensor_size (ti_shape ti) (ti_type ti)).
Proof.
  induction infos as [| ti rest IH]; intros i table Hf Hr Hlen.
  - exists table. split; [reflexivity |]. split; [reflexivity |].
    split; [intros j _; reflexivity |].
    intros k t Hk. discriminate Hk.
  - apply Forall_cons in Hr as [Hti Hr]. cbn [length] in Hlen.
    cbn [fill]. rewrite !Hf. cbn [orb].
    destruct (Nat.ltb_spec 8 (length (ti_shape ti))); [lia |].
    set (sz := compute_tensor_size (ti_shape ti) (ti_type ti)).
    destruct (IH (S i) (<[i := sz]> table) Hf Hr) as (t' & E & Hl & Hlow & Hk).
    { rewrite length_insert. lia. }
    rewrite length_insert in Hl.
    exists t'. split; [exact E |]. split; [exact Hl |]. split.
    + intros j Hj. rewrite Hlow by lia.
      apply list_lookup_total_insert_ne. lia.
    + intros [| k] t Ht.
      * injection Ht as <-. rewrite Nat.add_0_r, Hlow by lia.
        apply list_lookup_total_insert_eq. lia.
      * replace (i + S k)%nat with (S i + k)%nat by lia. now apply Hk.
Qed.

End OnnxLoadFacts.

(** ** The index-based size accessors *)

(** C6 (amended): once a model is loaded, the onnx adapter answers
    [get_input_size] / [get_output_size] with -1 for every index greater
    than or equal to the number of input / output tensors of the model.
    The tflite adapter compares no index with a count: with a model
    loaded it answers -1 exactly when the lookup of the TFLite library
    returns NULL for the index. The stub adapter answers every index
    from 0 upwards with 0 (success), reporting the size stored for the
    slot when the index is below 32 and that size is positive, and 1024
    otherwise. *)
Theorem size_accessors_past_the_end
    (create_session : string -> option Onnx.OrtSession)
    (c0 oc : Onnx.OnnxContext) (path : string) (s : Onnx.OrtSession)
    (api : TFLite.TfLiteApi)
    (tc : TFLite.TFLiteContext) (it : TFLite.TfLiteInterpreter)
    (sc : Stub.StubContext) (index : Z) :
  create_session path = Some s ->
  Onnx.onnx_load_from_file create_session c0 path = Some (0, oc) ->
  TFLite.interpreter tc = Some it ->
  0 <= index <= CString.INT_MAX ->
  (Z.of_nat (length (Onnx.s_inputs s)) <= index ->
   Onnx.onnx_get_input_size oc index = (-1, None)) /\
  (Z.of_nat (length (Onnx.s_outputs s)) <= index ->
   Onnx.onnx_get_output_size oc index = (-1, None)) /\
  (fst (TFLite.tflite_get_input_size_with api tc index) = -1 <->
   TFLite.TfLiteInterpreterGetInputTensor api it index = None) /\
  (fst (TFLite.tflite_get_output_size_with api tc index) = -1 <->
   TFLite.TfLiteInterpreterGetOutputTensor api it index = None) /\
  Stub.stub_get_input_size sc index
  = Some (0, if (index <? 32) && (0 <? Stub.inputs sc !!! Z.to_nat index)
             then Stub.inputs sc !!! Z.to_nat index else 1024) /\
  Stub.stub_get_output_size sc index
  = Some (0, if (index <? 32)
                && (0 <? Mem.b_size (Stub.outputs sc !!! Z.to_nat index))
             then Mem.b_size (Stub.outputs sc !!! Z.to_nat index) else 1024).
Proof.
  unfold CString.INT_MAX. intros Hs Hload Hit Hidx.
  unfold Onnx.onnx_load_from_file in Hload. rewrite Hs in Hload.
  apply populate_counts in Hload as (_ & Hin & Hout).
  assert (Hmod : Onnx.to_size_t index = index)
    by (unfold Onnx.to_size_t, Onnx.SIZE_MAX1; apply Z.mod_small; lia).
  split; [| split; [| split; [| split; [| split]]]].
  - intros H. unfold Onnx.onnx_get_input_size. rewrite Hmod, Hin.
    unfold Onnx.clamped, Onnx.MAX_TENSORS.
    destruct (Z.leb_spec (Z.min 32 (Z.of_nat (length (Onnx.s_inputs s)))) index);
      [reflexivity | lia].
  - intros H. unfold Onnx.onnx_get_output_size. rewrite Hmod, Hout.
    unfold Onnx.clamped, Onnx.MAX_TENSORS.
    destruct (Z.leb_spec (Z.min 32 (Z.of_nat (length (Onnx.s_outputs s)))) index);
      [reflexivity | lia].
  - unfold TFLite.tflite_get_input_size_with. rewrite Hit.
    destruct (TFLite.TfLiteInterpreterGetInputTensor api it index); simpl;
      [split; intros H; [exfalso; lia | discriminate H]
      | split; intros _; reflexivity].
  - unfold TFLite.tflite_get_output_size_with. rewrite Hit.
    destruct (TFLite.TfLiteInterpreterGetOutputTensor api it index); simpl;
      [split; intros H; [exfalso; lia | discriminate H]
      | split; intros _; reflexivity].
  - unfold Stub.stub_get_input_size, Stub.MAX_TENSORS.
    destruct (index <? 32); [| reflexivity].
    destruct (Z.ltb_spec index 0); [lia | reflexivity].
  - unfold Stub.stub_get_output_size, Stub.MAX_TENSORS.
    destruct (index <? 32); [| reflexivity].
    destruct (Z.ltb_spec index 0); [lia | reflexivity].
Qed.

Lemma size_accessors_past_the_end_witness :
  Onnx.onnx_get_input_size demo_loaded 1 = (-1, None) /\
  Onnx.onnx_get_output_size demo_loaded 1 = (-1, None) /\
  fst (TFLite.tflite_get_input_size_with TFLite.checked_lookup demo_tflite 1)
  = -1 /\
  fst (TFLite.tflite_get_output_size_with TFLite.checked_lookup demo_tflite 1)
  = -1 /\
  Stub.stub_get_input_size (fst demo_state) 0 = Some (0, 150528) /\
  Stub.stub_get_output_size (fst demo_state) 1 = Some (0, 1024).
Proof.
  destruct (size_accessors_past_the_end (fun _ => Some demo_session)
              Onnx.onnx_created demo_loaded "m.dla.onnx" demo_session
              TFLite.checked_lookup demo_tflite demo_interpreter
              (fst demo_state) 1 eq_refl
              ltac:(vm_compute; reflexivity) eq_refl
              ltac:(vm_compute; split; discriminate))
    as (H1 & H2 & H3 & H4 & _ & H6).
  destruct (size_accessors_past_the_end (fun _ => Some demo_session)
              Onnx.onnx_created demo_loaded "m.dla.onnx" demo_session
              TFLite.checked_lookup demo_tflite demo_interpreter
              (fst demo_state) 0 eq_refl
              ltac:(vm_compute; reflexivity) eq_refl
              ltac:(vm_compute; split; discriminate))
    as (_ & _ & _ & _ & H5 & _).
  split; [apply H1; simpl; lia |].
  split; [apply H2; simpl; lia |].
  split; [apply H3; reflexivity |].
  split; [apply H4; reflexivity |].
  split; [rewrite H5 | rewrite H6]; vm_compute; reflexivity.
Defined.

(** C6 as stated fails for the stub adapter: after a load it reports one
    input and one output tensor, and answers the size queries for index
    5 with 0 (success) and the size 1024. *)
Lemma stub_size_accessors_never_fail :
  let c := snd (Stub.stub_load_from_file (snd Stub.stub_create) "m.dla.onnx") in
  Stub.stub_get_input_count c = (0, 1) /\
  Stub.stub_get_output_count c = (0, 1) /\
  Stub.stub_get_input_size c 5 = Some (0, 1024) /\
  Stub.stub_get_output_size c 5 = Some (0, 1024).
Proof. cbv zeta. repeat split; vm_compute; reflexivity. Qed.

(** ** What invoke writes into the bound output buffers *)
Section InvokeFacts.
Import Mem.






End InvokeFacts.



(** ** Further checks of the model against the documented examples *)

Example resolve_in_place :
  Resolver.formatted "/data/m.dla" ".onnx" (Some "") = "/data/m.dla.onnx".
Proof. reflexivity. Qed.

Example resolve_redirect :
  Resolver.formatted "/data/m.dla" ".onnx" (Some "/opt/models")
  = "/opt/models/m.dla.onnx".
Proof. reflexivity. Qed.

Example resolve_redirect_trailing_slash :
  Resolver.formatted "/data/m.dla" ".onnx" (Some "/opt/models/")
  = "/opt/models/m.dla.onnx".
Proof. reflexivity. Qed.

(** X15: with a redirect directory, a requested path [dir/name] shorter than
    1024 bytes resolves to the redirect directory, a separator if it
    lacks one, the file name and the suffix. *)
Corollary resolve_redirect_join (dir name suffix D : string) :
  name <> "" -> CString.no_slash name = true -> D <> "" ->
  CString.strlen (dir +:+ "/" +:+ name) < 1024 ->
  Resolver.formatted (dir +:+ "/" +:+ name) suffix (Some D)
  = D +:+ (if Resolver.ends_with_slash D then "" else "/") +:+ name +:+ suffix.
Proof.
  intros Hne Hns HD Hlen.
  rewrite formatted_rule by (intros _; exact Hlen).
  destruct D as [| a D']; [congruence |].
  unfold Resolver.resolution_rule. now rewrite basename_join.
Qed.

(** The separator is chosen by looking at the redirect directory only:
    the base name of the root directory is a slash of its own. *)
Example resolve_root_under_redirect :
  Resolver.formatted "/" ".onnx" (Some "/opt") = "/opt//.onnx".
Proof. reflexivity. Qed.

(** Files and environment together: the system file sets three fields,
    the local file overrides one of them, the environment another. *)
Example layered_load :
  let nl := String "010" "" in
  let fs : gmap string string :=
    {[ Config.system_conf :=
         "# system" +:+ nl +:+ "backend = onnx" +:+ nl +:+
         "threads=2" +:+ nl +:+ "model_dir = /opt/models" +:+ nl;
       Config.local_conf :=
         "  threads = 8  # local" +:+ nl +:+ "colour = blue" +:+ nl ]} in
  let env : gmap string string := {[ "NEURON_SHIM_BACKEND" := "stub" ]} in
  Config.neuron_shim_config_load fs env
  = {| Config.backend := "stub"; Config.suffix := "auto";
       Config.model_dir := "/opt/models"; Config.threads := 8;
       Config.force_cpu := false; Config.log_level := 3 |}.
Proof. vm_compute. reflexivity. Qed.

Example basename_of_directory : CString.basename "/data/dir//" = "dir".
Proof. reflexivity. Qed.

Example basename_of_root : CString.basename "///" = "/".
Proof. reflexivity. Qed.

(** A setting present in the environment and in a file takes the value
    of the environment. *)
Corollary environment_wins (fs env : gmap string string) (f : Config.field)
    (v : string) :
  env !! Config.env_name f = Some v ->
  Config.get f (Config.neuron_shim_config_load fs env) = Config.env_conv f v.
Proof.
  intros H. unfold Config.neuron_shim_config_load. rewrite load_from_layered.
  unfold Config.layered, Config.env_sets. now rewrite H.
Qed.

(** The scenario of the test program on the bare machine: the model file
    is missing, the load reports bad data; input and output are bound,
    inference succeeds and the output buffer is zero. *)
Example stub_end_to_end :
  let call := Runtime.stub_only dirty in
  let r1 := Runtime.NeuronRuntime_loadNetworkFromFile call (fun _ => false)
              bare_globals (Some bare_runtime) (Some "/tmp/test_model.dla") in
  let r2 := Runtime.NeuronRuntime_setInput call bare_globals
              (Runtime.rt_after r1) 0 500000 150528 (-1) in
  let r3 := Runtime.NeuronRuntime_setOutput call bare_globals
              (Runtime.rt_after r2) 0 1000 4004 (-1) in
  let r4 := Runtime.NeuronRuntime_inference call bare_globals
              (Runtime.rt_after r3) in
  let r5 := Runtime.NeuronRuntime_release bare_globals (Runtime.rt_after r4) in
  map Runtime.ret [r1; r2; r3; r4; r5] = [1; 0; 0; 0; 0] /\
  match Runtime.rt_after r4 with
  | Some {| Runtime.backend_ctx := Some (_, m) |} =>
      m 999 = Byte.xff /\ m 1000 = Byte.x00 /\ m 5003 = Byte.x00 /\
      m 5004 = Byte.xff
  | _ => False
  end.
Proof. vm_compute. repeat split; reflexivity. Qed.

(** A line is read as a C string: what follows a NUL byte is not seen.
    The first line below sets the backend to [on]; the second has no
    value before its NUL, does not scan and leaves [threads] alone. *)
Example nul_ends_the_line :
  let nl := String "010" "" in
  let fs : gmap string string :=
    {[ Config.local_conf :=
         "backend = on" +:+ String "000" ("nx" +:+ nl)
         +:+ "threads = " +:+ String "000" nl ]} in
  Config.backend (Config.neuron_shim_config_load fs ∅) = "on" /\
  Config.threads (Config.neuron_shim_config_load fs ∅) = 4.
Proof. vm_compute. split; reflexivity. Qed.

(** The tflite adapter leaves the index to the library: over a library
    that hands out its first tensor for every index, the size query
    past the end succeeds. *)
Example tflite_size_accessor_trusts_library :
  let api :=
    {| TFLite.TfLiteInterpreterGetInputTensor it _ :=
         TFLite.input_tensors it !! 0%nat;
       TFLite.TfLiteInterpreterGetOutputTensor it _ :=
         TFLite.output_tensors it !! 0%nat |} in
  TFLite.tflite_get_input_size_with api demo_tflite 5 = (0, Some 16) /\
  TFLite.tflite_get_output_size_with api demo_tflite 5 = (0, Some 8).
Proof. split; reflexivity. Qed.

(** A model with a tensor of nine dimensions: the dimensions do not fit
    [shape[8]], and the load has no defined outcome. *)
Example onnx_rank_nine_overruns_shape :
  let s := {| Onnx.s_inputs := [{| Onnx.ti_shape := replicate 9 2;
                                  Onnx.ti_type := Onnx.FLOAT |}];
              Onnx.s_outputs := [];
              Onnx.s_fails := fun _ => false |} in
  Onnx.onnx_load_from_file (fun _ => Some s) Onnx.onnx_created "m.dla.onnx"
  = None.
Proof. reflexivity. Qed.

(* ------------------------------------------------------------------ *)
(** * Further properties of the code                                   *)
(* ------------------------------------------------------------------ *)

(** ** Reading a configuration file *)
Section LineFacts.
Import CString Config Text.

Lemma fgets_go_join (room left : nat) (cur s : string) :
  join (fgets_go room left cur s) = cur +:+ s.
Proof.
  revert left cur. induction s as [| c s IH]; intros left cur; simpl.
  - rewrite append_nil_r. destruct cur; simpl; [reflexivity |].
    now rewrite append_nil_r.
  - assert (E : join ((cur +:+ String c "") :: fgets_go room room "" s)
                = cur +:+ String c s).
    { simpl. rewrite IH, append_assoc. reflexivity. }
    destruct (Ascii.eqb c "010"); [exact E |].
    destruct left as [| [| left]]; try exact E.
    rewrite IH, append_assoc. reflexivity.
Qed.

Lemma fgets_go_bounded (room left : nat) (cur s : string) :
  (1 <= left)%nat -> (String.length cur + left = room)%nat ->
  Forall (fun chunk => (1 <= String.length chunk <= room)%nat)
         (fgets_go room left cur s).
Proof.
  revert left cur. induction s as [| c s IH]; intros left cur Hl Hr; simpl.
  - destruct cur as [| x cur]; constructor; [| constructor].
    simpl in *. lia.
  - assert (Hc : (1 <= String.length (cur +:+ String c "") <= room)%nat)
      by (rewrite length_append; simpl; lia).
    assert (E : Forall (fun chunk => (1 <= String.length chunk <= room)%nat)
                  ((cur +:+ String c "") :: fgets_go room room "" s)).
    { constructor; [exact Hc |]. apply IH; simpl; lia. }
    destruct (Ascii.eqb c "010"); [exact E |].
    destruct left as [| [| left]]; try exact E.
    apply IH; [lia |]. rewrite length_append. simpl. lia.
Qed.

End LineFacts.

(** X1: the lines that the loop of [parse_config_file] reads with
    [fgets(line, 512, f)] are the text of the file cut into pieces:
    put back together they give the text again, and every piece has
    between 1 and 511 bytes. *)
Theorem fgets_chunks_partition_text (text : string) :
  Text.join (CString.fgets_all 512 text) = text /\
  Forall (fun chunk => (1 <= String.length chunk <= 511)%nat)
         (CString.fgets_all 512 text).
Proof.
  unfold CString.fgets_all. split.
  - apply fgets_go_join.
  - apply (fgets_go_bounded 511 511 "" text); simpl; lia.
Qed.

Section ScanFacts.
Import CString Config Text.


Lemma scan_spec (keep : ascii -> bool) (n : nat) (s w r : string) :
  scan keep n s = (w, r) ->
  s = w +:+ r /\ all_chars keep w = true /\ (String.length w <= n)%nat.
Proof.
  revert n w r. induction s as [| c s IH]; intros n w r H.
  - destruct n; simpl in H; injection H as <- <-; simpl; repeat split; lia.
  - destruct n as [| n]; simpl in H.
    + injection H as <- <-. simpl. repeat split; lia.
    + destruct (keep c) eqn:Hc.
      * destruct (scan keep n s) as [w' r'] eqn:E.
        injection H as <- <-.
        destruct (IH n w' r' E) as (-> & Hw & Hl).
        simpl. rewrite Hc, Hw. repeat split. lia.
      * injection H as <- <-. simpl. repeat split; lia.
Qed.





Lemma skip_blank_c_str (s : string) :
  skip_blank (c_str s) = c_str (skip_blank s).
Proof.
  induction s as [| c s IH]; [reflexivity |].
  cbn [c_str skip_blank].
  destruct (Ascii.eqb_spec c "000") as [-> | Hn]; [reflexivity |].
  cbn [skip_blank].
  destruct (Ascii.eqb c " " || Ascii.eqb c "009"); [exact IH |].
  cbn [c_str]. now destruct (Ascii.eqb_spec c "000").
Qed.

End ScanFacts.

Section ParseLineFacts.
Import CString Config Text ConfigText.

Lemma starts_with_app (p : ascii -> bool) (a b : string) :
  a <> "" -> starts_with p a = true -> starts_with p (a +:+ b) = true.
Proof. destruct a; [congruence | auto]. Qed.




End ParseLineFacts.



(** X3: whatever the line, the key and the value that the loop of
    [parse_config_file] scans from it fit the buffers [key[64]] and
    [value[512]]: the key has 1 to 63 bytes, none of them [=] or space,
    the value 1 to 511 bytes, none of them white space. *)
Theorem parsed_key_and_value_fit (line k v : string) :
  Config.parse_line line = Some (k, v) ->
  (1 <= String.length k <= 63)%nat /\
  Text.all_chars Text.key_char k = true /\
  (1 <= String.length v <= 511)%nat /\
  Text.all_chars Text.value_char v = true.
Proof.
  unfold Config.parse_line.
  destruct (Config.skip_blank (CString.c_str line)) as [| c p];
    [discriminate |].
  destruct (Ascii.eqb c "#" || Ascii.eqb c "010"); [discriminate |].
  unfold CString.sscanf_key_value.
  destruct (CString.scan _ 63 _) as [key r1] eqn:E1.
  destruct key as [| k0 key]; [discriminate |].
  destruct (CString.skip_space r1) as [| x r2]; [discriminate |].
  destruct (Ascii.eqb x "="); [| discriminate].
  destruct (CString.scan _ 511 _) as [value r3] eqn:E2.
  destruct value as [| v0 value]; [discriminate |].
  intros H. injection H as <- <-.
  apply scan_spec in E1 as (_ & Hk & Hkl).
  apply scan_spec in E2 as (_ & Hv & Hvl).
  simpl in Hkl, Hvl |- *. repeat split; try assumption; lia.
Qed.

Lemma parsed_key_and_value_fit_witness :
  (1 <= String.length "backend" <= 63)%nat /\
  Text.all_chars Text.key_char "backend" = true /\
  (1 <= String.length "tflite" <= 511)%nat /\
  Text.all_chars Text.value_char "tflite" = true.
Proof.
  apply (parsed_key_and_value_fit "backend=tflite" "backend" "tflite").
  reflexivity.
Defined.

Section IgnoredFacts.
Import CString Config Text ConfigText.

Lemma apply_setting_unknown (k v : string) (c : NeuronShimConfig) :
  known_key k = false -> apply_setting k v c = c.
Proof.
  unfold known_key, apply_setting. intros H.
  apply orb_false_iff in H as [H H6]. apply orb_false_iff in H as [H H5].
  apply orb_false_iff in H as [H H4]. apply orb_false_iff in H as [H H3].
  apply orb_false_iff in H as [H1 H2].
  now rewrite H1, H2, H3, H4, H5, H6.
Qed.

Lemma config_line_ignorable (c : NeuronShimConfig) (line : string) :
  ignorable line = true -> config_line c line = c.
Proof.
  unfold ignorable, config_line.
  destruct (parse_line line) as [[k v] |]; [| reflexivity].
  intros H. apply apply_setting_unknown. now destruct (known_key k).
Qed.

End IgnoredFacts.

(** X4: comment lines ([#] first after the blanks), blank lines, lines
    that do not scan as [key = value] and lines whose key is none of the
    six known ones are ignored: a file made of such lines, like a file
    that cannot be opened, leaves the configuration as it was. *)
Theorem unknown_lines_are_ignored (fs : gmap string string) (path : string)
    (c : Config.NeuronShimConfig) :
  (forall line,
     Text.starts_with ConfigText.comment_start (Config.skip_blank line) = true ->
     ConfigText.ignorable line = true) /\
  (match fs !! path with
   | Some text =>
       Forall (fun line => ConfigText.ignorable line = true)
              (CString.fgets_all 512 text)
   | None => True
   end ->
   Config.parse_config_file fs path c = c).
Proof.
  split.
  - intros line H. unfold ConfigText.ignorable, Config.parse_line.
    rewrite skip_blank_c_str.
    destruct (Config.skip_blank line) as [| x p]; [reflexivity |].
    simpl in H. unfold ConfigText.comment_start in H.
    cbn [CString.c_str]. destruct (Ascii.eqb x "000"); [reflexivity |].
    now rewrite H.
  - unfold Config.parse_config_file. destruct (fs !! path) as [text |]; [| reflexivity].
    generalize (CString.fgets_all 512 text). intros lines H. revert c.
    induction H as [| line lines Hl _ IH]; intros c; simpl; [reflexivity |].
    rewrite (config_line_ignorable c line Hl). apply IH.
Qed.

Lemma unknown_lines_are_ignored_witness :
  Config.parse_config_file
    {[ Config.local_conf :=
         "# a comment" +:+ String "010" ("colour = blue" +:+ String "010" "") ]}
    Config.local_conf Config.g_config = Config.g_config.
Proof.
  apply (unknown_lines_are_ignored _ Config.local_conf Config.g_config).
  rewrite lookup_singleton_eq.
  match goal with
  | |- Forall _ ?l => let l' := eval vm_compute in l in change l with l'
  end.
  repeat (constructor; [vm_compute; reflexivity |]). constructor.
Defined.

(** ** The loaded snapshot *)
Section SnapshotFacts.
Import CString Config ConfigText.

Lemma config_ext (c1 c2 : NeuronShimConfig) :
  (forall f, get f c1 = get f c2) -> c1 = c2.
Proof.
  intros H. destruct c1, c2.
  pose proof (H Backend) as H1. pose proof (H Suffix) as H2.
  pose proof (H ModelDir) as H3. pose proof (H Threads) as H4.
  pose proof (H ForceCpu) as H5. pose proof (H LogLevel) as H6.
  simpl in *. congruence.
Qed.

Lemma int_wrap_range (z : Z) : - 2 ^ 31 <= int_wrap z < 2 ^ 31.
Proof.
  unfold int_wrap.
  pose proof (Z.mod_pos_bound (z + 2 ^ 31) (2 ^ 32) ltac:(lia)). lia.
Qed.

Lemma file_conv_fits (f : field) (v : string) : fits f (file_conv f v).
Proof.
  destruct f; cbn [fits file_conv env_conv];
    try apply strn_length; try apply int_wrap_range; exact I.
Qed.

Lemma env_conv_fits (f : field) (v : string) : fits f (env_conv f v).
Proof.
  destruct f; cbn [fits file_conv env_conv];
    try apply strn_length; try apply int_wrap_range; exact I.
Qed.

Lemma layered_fits (g : NeuronShimConfig) (fs env : gmap string string)
    (f : field) :
  fits f (get f g) -> fits f (layered g fs env f).
Proof.
  intros Hg. unfold layered, env_sets, file_sets.
  destruct (env !! env_name f); simpl; [apply env_conv_fits |].
  destruct (file_text fs local_conf f); simpl; [apply file_conv_fits |].
  destruct (file_text fs system_conf f); simpl; [apply file_conv_fits | exact Hg].
Qed.

End SnapshotFacts.

(** X5: every field of the snapshot produced by
    [neuron_shim_config_load] fits the C object that holds it, whatever
    the files and the environment contain: [backend] and [suffix] have
    at most 31 bytes, [model_dir] at most 511, [threads] and [log_level]
    are within the range of [int]. *)
Theorem snapshot_fields_fit (fs env : gmap string string) :
  let c := Config.neuron_shim_config_load fs env in
  (String.length (Config.backend c) <= 31)%nat /\
  (String.length (Config.suffix c) <= 31)%nat /\
  (String.length (Config.model_dir c) <= 511)%nat /\
  - 2 ^ 31 <= Config.threads c < 2 ^ 31 /\
  - 2 ^ 31 <= Config.log_level c < 2 ^ 31.
Proof.
  cbv zeta. unfold Config.neuron_shim_config_load.
  assert (H : forall f, ConfigText.fits f
                (Config.get f (Config.neuron_shim_config_load_from
                                 Config.g_config fs env))).
  { intros f. rewrite load_from_layered. apply layered_fits.
    destruct f; simpl; lia. }
  pose proof (H Config.Backend). pose proof (H Config.Suffix).
  pose proof (H Config.ModelDir). pose proof (H Config.Threads).
  pose proof (H Config.LogLevel). simpl in *. repeat split; lia.
Qed.

(** X6: loading again changes nothing: [neuron_shim_config_load] run on
    the snapshot it has produced, with the same files and environment,
    gives that snapshot back. *)
Theorem config_reload_is_idempotent (g : Config.NeuronShimConfig)
    (fs env : gmap string string) :
  Config.neuron_shim_config_load_from
    (Config.neuron_shim_config_load_from g fs env) fs env
  = Config.neuron_shim_config_load_from g fs env.
Proof.
  apply config_ext. intros f. rewrite (load_from_layered _ fs env f).
  unfold Config.layered.
  destruct (Config.env_sets env f) eqn:E1.
  { rewrite load_from_layered. unfold Config.layered. now rewrite E1. }
  destruct (Config.file_sets fs Config.local_conf f) eqn:E2.
  { rewrite load_from_layered. unfold Config.layered. now rewrite E1, E2. }
  destruct (Config.file_sets fs Config.system_conf f) eqn:E3.
  { rewrite load_from_layered. unfold Config.layered. now rewrite E1, E2, E3. }
  reflexivity.
Qed.

Section SourceFacts.
Import CString Config.

Lemma env_name_inj (f f' : field) : env_name f = env_name f' -> f = f'.
Proof. destruct f, f'; simpl; intros H; try reflexivity; discriminate H. Qed.

Lemma supplied_none (fs env : gmap string string) (f : field) :
  supplied fs env f = None ->
  env_sets env f = None /\ file_sets fs local_conf f = None
  /\ file_sets fs system_conf f = None.
Proof.
  unfold supplied, env_sets, file_sets.
  destruct (env !! env_name f); [discriminate |].
  destruct (file_text fs local_conf f); [discriminate |].
  intros ->. repeat split.
Qed.

End SourceFacts.

(** X7: when no source supplies anything for any field (no variable of
    the six is set, and the two files are missing or assign none of the
    six keys), the snapshot is the compiled-in default. *)
Theorem no_source_gives_defaults (fs env : gmap string string) :
  (forall f, Config.supplied fs env f = None) ->
  Config.neuron_shim_config_load fs env = Config.g_config.
Proof.
  intros H. apply config_ext. intros f.
  unfold Config.neuron_shim_config_load. rewrite load_from_layered.
  destruct (supplied_none fs env f (H f)) as (E1 & E2 & E3).
  unfold Config.layered. now rewrite E1, E2, E3.
Qed.

Lemma no_source_gives_defaults_witness :
  Config.neuron_shim_config_load
    {[ Config.local_conf := "# nothing here" +:+ String "010" "" ]}
    {[ "HOME" := "/root" ]}
  = Config.g_config.
Proof.
  apply no_source_gives_defaults. intros f. destruct f; vm_compute; reflexivity.
Defined.

(** X8: setting the environment variable of one field decides that field
    and no other: with the variable of field [f] set to [v], field [f] of
    the snapshot is [v] as the environment is read, and every other
    field is what it is without the variable. *)
Theorem one_variable_one_field (fs env : gmap string string)
    (f f' : Config.field) (v : string) :
  let c := Config.neuron_shim_config_load fs (<[Config.env_name f := v]> env) in
  Config.get f c = Config.env_conv f v /\
  (f' <> f ->
   Config.get f' c = Config.get f' (Config.neuron_shim_config_load fs env)).
Proof.
  cbv zeta. unfold Config.neuron_shim_config_load.
  rewrite !load_from_layered. unfold Config.layered, Config.env_sets. split.
  - now rewrite lookup_insert_eq.
  - intros Hne. rewrite lookup_insert_ne; [reflexivity |].
    intros E. apply Hne. symmetry. now apply env_name_inj.
Qed.

Lemma one_variable_one_field_witness :
  let c := Config.neuron_shim_config_load ∅
             (<["NEURON_SHIM_NUM_THREADS" := "16"]> ∅) in
  Config.get Config.Threads c = Config.VInt 16 /\
  Config.get Config.LogLevel c = Config.VInt 3.
Proof.
  destruct (one_variable_one_field ∅ ∅ Config.Threads Config.LogLevel "16")
    as [H1 H2].
  split; [exact H1 |]. apply H2. discriminate.
Defined.

(** ** Backend selection *)
Section SelectorFacts.
Import Selector Build.

Lemma select_by_name (p : platform) (b : backend_id) :
  compiled p b = true ->
  neuron_shim_select_backend p (Some (backend_name b)) = (b, []).
Proof.
  intros H. unfold neuron_shim_select_backend.
  destruct b; simpl in *; rewrite ?H; simpl; try reflexivity.
  - now destruct (SHIM_HAS_ONNX p).
  - destruct (SHIM_HAS_ONNX p); simpl; now destruct (SHIM_HAS_TFLITE p).
Qed.

Lemma auto_detect_sound (p : platform) (b : backend_id) :
  fst (auto_detect p) = b ->
  compiled p b = true /\
  match library b with
  | Some lib => dlopen p lib = true
  | None => True
  end.
Proof.
  unfold auto_detect.
  destruct (SHIM_HAS_ONNX p) eqn:Ho; simpl.
  - destruct (dlopen p "libonnxruntime.so") eqn:Lo; simpl.
    + intros <-. simpl. auto.
    + destruct (SHIM_HAS_TFLITE p) eqn:Ht; simpl.
      * destruct (dlopen p "libtensorflowlite_c.so") eqn:Lt; simpl;
          intros <-; simpl; auto.
      * intros <-. simpl. auto.
  - destruct (SHIM_HAS_TFLITE p) eqn:Ht; simpl.
    + destruct (dlopen p "libtensorflowlite_c.so") eqn:Lt; simpl;
        intros <-; simpl; auto.
    + intros <-. simpl. auto.
Qed.

End SelectorFacts.

(** X9: [neuron_shim_select_backend] only ever returns an adapter that
    is compiled into the shim, and returns the onnx or the tflite
    adapter only when it was asked for by name or when the probe found
    its shared library; whatever the name and the machine, some adapter
    is returned. *)
Theorem selected_backend_is_available (p : Selector.platform)
    (name : option string) (b : Selector.backend_id) :
  fst (Selector.neuron_shim_select_backend p name) = b ->
  Build.compiled p b = true /\
  (name = Some (Selector.backend_name b) \/
   match Build.library b with
   | Some lib => Selector.dlopen p lib = true
   | None => True
   end).
Proof.
  unfold Selector.neuron_shim_select_backend.
  destruct name as [n |]; [| intros H; apply auto_detect_sound in H; tauto].
  destruct (Selector.SHIM_HAS_ONNX p) eqn:Ho; simpl.
  - destruct (String.eqb_spec n "onnx") as [-> | _]; simpl.
    { intros <-. simpl. auto. }
    destruct (Selector.SHIM_HAS_TFLITE p) eqn:Ht; simpl.
    + destruct (String.eqb_spec n "tflite") as [-> | _]; simpl.
      { intros <-. simpl. auto. }
      destruct (String.eqb_spec n "stub") as [-> | _]; simpl.
      { intros <-. simpl. auto. }
      destruct (Selector.auto_detect p) as [b' out] eqn:E. simpl. intros <-.
      pose proof (auto_detect_sound p b') as H. rewrite E in H.
      destruct (H eq_refl). auto.
    + destruct (String.eqb_spec n "stub") as [-> | _]; simpl.
      { intros <-. simpl. auto. }
      destruct (Selector.auto_detect p) as [b' out] eqn:E. simpl. intros <-.
      pose proof (auto_detect_sound p b') as H. rewrite E in H.
      destruct (H eq_refl). auto.
  - destruct (Selector.SHIM_HAS_TFLITE p) eqn:Ht; simpl.
    + destruct (String.eqb_spec n "tflite") as [-> | _]; simpl.
      { intros <-. simpl. auto. }
      destruct (String.eqb_spec n "stub") as [-> | _]; simpl.
      { intros <-. simpl. auto. }
      destruct (Selector.auto_detect p) as [b' out] eqn:E. simpl. intros <-.
      pose proof (auto_detect_sound p b') as H. rewrite E in H.
      destruct (H eq_refl). auto.
    + destruct (String.eqb_spec n "stub") as [-> | _]; simpl.
      { intros <-. simpl. auto. }
      destruct (Selector.auto_detect p) as [b' out] eqn:E. simpl. intros <-.
      pose proof (auto_detect_sound p b') as H. rewrite E in H.
      destruct (H eq_refl). auto.
Qed.

Lemma selected_backend_is_available_witness :
  Build.compiled tflite_platform Selector.BTflite = true /\
  (None = Some "tflite" \/
   Selector.dlopen tflite_platform "libtensorflowlite_c.so" = true).
Proof.
  apply (selected_backend_is_available tflite_platform None Selector.BTflite).
  reflexivity.
Defined.

(** X10: a backend asked for by name is returned as soon as it is
    compiled in, without any probe of the machine and without a word on
    the diagnostic stream: the answer is the same on every machine. *)
Theorem named_backend_is_honoured (p : Selector.platform)
    (b : Selector.backend_id) :
  Build.compiled p b = true ->
  Selector.neuron_shim_select_backend p (Some (Selector.backend_name b))
  = (b, []).
Proof. apply select_by_name. Qed.

Lemma named_backend_is_honoured_witness :
  Selector.neuron_shim_select_backend bare_platform (Some "stub")
  = (Selector.BStub, []).
Proof.
  apply (named_backend_is_honoured bare_platform Selector.BStub). reflexivity.
Defined.

(** X11: a name that selects no adapter of the build (unknown, or the
    name of an adapter that is not compiled in) never fails the
    selection: the adapter is the one auto-detection returns, and the
    stream carries a warning with the name, followed by what
    auto-detection prints. *)
Theorem unknown_name_falls_back (p : Selector.platform) (n : string) :
  Build.selectable p n = false ->
  Selector.neuron_shim_select_backend p (Some n)
  = (fst (Selector.neuron_shim_select_backend p None),
     ("[neuron-shim] unknown backend '" +:+ n +:+ "', falling back"
        +:+ Selector.nl)
       :: snd (Selector.neuron_shim_select_backend p None)).
Proof.
  unfold Build.selectable, Selector.neuron_shim_select_backend. intros H.
  apply orb_false_iff in H as [H H3]. apply orb_false_iff in H as [H1 H2].
  rewrite H1, H2, H3. now destruct (Selector.auto_detect p).
Qed.

Lemma unknown_name_falls_back_witness :
  Selector.neuron_shim_select_backend bare_platform (Some "tflite")
  = (Selector.BStub,
     [ "[neuron-shim] unknown backend 'tflite', falling back" +:+ Selector.nl;
       "[neuron-shim] using stub backend" +:+ Selector.nl ]).
Proof.
  apply (unknown_name_falls_back bare_platform "tflite"). reflexivity.
Defined.

(** X12: when the configured backend is the name of an adapter that is
    compiled in and the configured suffix is [auto], initialisation
    selects that adapter and resolves the suffix to the extension of the
    adapter selected: [.tflite] for tflite, [.onnx] for onnx and stub. *)
Theorem named_backend_suffix_matches (p : Selector.platform)
    (fs env : gmap string string) (b : Selector.backend_id) :
  Config.backend (Config.neuron_shim_config_load fs env)
    = Selector.backend_name b ->
  Config.suffix (Config.neuron_shim_config_load fs env) = "auto" ->
  Build.compiled p b = true ->
  let g := fst (Runtime.shim_global_init p fs env) in
  Runtime.g_backend g = b /\ Runtime.g_suffix g = Build.extension b.
Proof.
  intros Hb Hs Hc. cbv zeta. unfold Runtime.shim_global_init.
  rewrite Hb.
  assert (E : String.eqb (Selector.backend_name b) "auto" = false)
    by now destruct b.
  rewrite E, (select_by_name p b Hc). simpl.
  unfold Config.neuron_shim_config_get_suffix. rewrite Hs, Hb.
  split; [reflexivity |]. now destruct b.
Qed.

Lemma named_backend_suffix_matches_witness :
  let g := fst (Runtime.shim_global_init tflite_platform ∅
                  {[ "NEURON_SHIM_BACKEND" := "tflite" ]}) in
  Runtime.g_backend g = Selector.BTflite /\ Runtime.g_suffix g = ".tflite".
Proof.
  apply (named_backend_suffix_matches tflite_platform ∅
           {[ "NEURON_SHIM_BACKEND" := "tflite" ]} Selector.BTflite);
    vm_compute; reflexivity.
Defined.

(** ** More on model path resolution *)
Section ResolverOutcome.
Import CString Resolver.

Lemma strn_prefix (n : nat) (s : string) : String.prefix (strn n s) s = true.
Proof.
  revert s. induction n as [| n IH]; intros [| c s]; simpl; try reflexivity.
  destruct (ascii_dec c c); [apply IH | congruence].
Qed.

Lemma no_slash_snoc (s : string) (c : ascii) :
  no_slash s = true -> Ascii.eqb c slash = false ->
  no_slash (s +:+ String c "") = true.
Proof.
  intros Hs Hc. induction s as [| x s IH]; simpl in *.
  - now rewrite Hc.
  - apply andb_true_iff in Hs as [Hx Hs]. rewrite Hx. now apply IH.
Qed.

Lemma basename_go_no_slash (last cur s : string) :
  no_slash last = true -> no_slash cur = true ->
  no_slash (basename_go last cur s) = true.
Proof.
  revert last cur. induction s as [| c s IH]; intros last cur Hl Hc; simpl.
  - now destruct cur.
  - destruct (Ascii.eqb c slash) eqn:E.
    + apply IH; [now destruct cur | reflexivity].
    + apply IH; [exact Hl | now apply no_slash_snoc].
Qed.

End ResolverOutcome.

(** X13: with non-NULL arguments [neuron_shim_resolve_model] returns 0
    or -1; it returns 0 exactly when the formatted path fits the output
    buffer and is readable, and then the buffer holds the whole path and
    nothing is printed; whenever it returns -1 it has printed a
    diagnostic. *)
Theorem resolve_outcome (access_R_OK : string -> bool)
    (P suffix old : string) (D : option string) (resolved_len : Z) :
  let out := Resolver.formatted P suffix D in
  let r := Resolver.neuron_shim_resolve_model access_R_OK
             (Some P) (Some suffix) D (Some old) resolved_len in
  (Resolver.rc r = 0 <->
   CString.strlen out < resolved_len /\ CString.strlen out <= CString.INT_MAX
   /\ access_R_OK out = true) /\
  (Resolver.rc r = 0 -> Resolver.resolved r = Some out /\ Resolver.diag r = []) /\
  (Resolver.rc r <> 0 -> Resolver.rc r = -1 /\ Resolver.diag r <> []).
Proof.
  cbv zeta. unfold Resolver.neuron_shim_resolve_model, CString.snprintf_ret.
  set (out := Resolver.formatted P suffix D).
  assert (H0 : 0 <= CString.strlen out) by (unfold CString.strlen; lia).
  destruct (Z.ltb_spec CString.INT_MAX (CString.strlen out)) as [Hi | Hi]; simpl.
  { repeat split; try discriminate; try lia; intros (_ & ? & _); lia. }
  destruct (Z.ltb_spec (CString.strlen out) 0); [lia |]. simpl.
  destruct (Z.leb_spec resolved_len (CString.strlen out)) as [Hl | Hl]; simpl.
  { repeat split; try discriminate; try lia; intros (? & _); lia. }
  rewrite (snprintf_buf_fits old out resolved_len Hl).
  destruct (access_R_OK out) eqn:Ha; simpl.
  - repeat split; auto; congruence.
  - repeat split; try discriminate; try congruence; intros (_ & _ & ?); congruence.
Qed.

Lemma resolve_outcome_witness :
  let r := Resolver.neuron_shim_resolve_model (fun _ => true)
             (Some "/data/m.dla") (Some ".onnx") None (Some "") 1024 in
  Resolver.resolved r = Some "/data/m.dla.onnx" /\ Resolver.diag r = [].
Proof.
  destruct (resolve_outcome (fun _ => true) "/data/m.dla" ".onnx" "" None 1024)
    as (_ & H & _).
  exact (H eq_refl).
Defined.

(** X14: [neuron_shim_resolve_model] never writes past the output
    buffer: with a buffer of [resolved_len > 0] bytes the string left in
    it is shorter than [resolved_len] and is the beginning of the
    formatted path; with [resolved_len = 0], or with a NULL path or
    suffix, the buffer is left as it was. *)
Theorem resolve_stays_in_buffer (access_R_OK : string -> bool)
    (P suffix D : option string) (old : string) (resolved_len : Z) :
  let r := Resolver.neuron_shim_resolve_model access_R_OK P suffix D
             (Some old) resolved_len in
  match P, suffix with
  | Some p, Some s =>
      if 0 <? resolved_len then
        exists b, Resolver.resolved r = Some b /\
                  CString.strlen b < resolved_len /\
                  String.prefix b (Resolver.formatted p s D) = true
      else Resolver.resolved r = Some old
  | _, _ => Resolver.resolved r = Some old /\ Resolver.rc r = -1
  end.
Proof.
  cbv zeta. destruct P as [p |]; [| now destruct suffix].
  destruct suffix as [s |]; [| split; reflexivity].
  unfold Resolver.neuron_shim_resolve_model.
  set (out := Resolver.formatted p s D).
  assert (E : Resolver.resolved
                (if (CString.snprintf_ret out <? 0)
                    || (resolved_len <=? CString.snprintf_ret out)
                 then {| Resolver.rc := -1;
                         Resolver.resolved :=
                           Some (CString.snprintf_buf old resolved_len out);
                         Resolver.diag := [Resolver.msg_too_long] |}
                 else if negb (access_R_OK (CString.snprintf_buf old resolved_len out))
                 then {| Resolver.rc := -1;
                         Resolver.resolved :=
                           Some (CString.snprintf_buf old resolved_len out);
                         Resolver.diag :=
                           [Resolver.msg_not_found p
                              (CString.snprintf_buf old resolved_len out);
                            match D with
                            | Some (String _ _ as dir) =>
                                Resolver.msg_fix_redirect dir s
                                  (CString.snprintf_buf old resolved_len out)
                            | _ =>
                                Resolver.msg_fix_in_place s
                                  (CString.snprintf_buf old resolved_len out)
                            end;
                            Resolver.msg_box_end] |}
                 else {| Resolver.rc := 0;
                         Resolver.resolved :=
                           Some (CString.snprintf_buf old resolved_len out);
                         Resolver.diag := [] |})
              = Some (CString.snprintf_buf old resolved_len out)).
  { destruct (_ || _); [reflexivity |]. now destruct (negb _). }
  unfold CString.snprintf_buf in *.
  destruct (Z.ltb_spec 0 resolved_len) as [Hp | Hp].
  - destruct (Z.leb_spec resolved_len 0); [lia |].
    eexists. split; [exact E |]. split.
    + pose proof (strn_length (Z.to_nat (resolved_len - 1)) out).
      unfold CString.strlen. lia.
    + apply strn_prefix.
  - destruct (Z.leb_spec resolved_len 0); [exact E | lia].
Qed.

(** X16: POSIX [basename] as the resolver uses it: the result is never
    empty, it holds no slash unless it is the single slash, and taking
    the base name again changes nothing. *)
Theorem basename_is_a_file_name (path : string) :
  CString.basename path <> "" /\
  (CString.no_slash (CString.basename path) = true \/
   CString.basename path = "/") /\
  CString.basename (CString.basename path) = CString.basename path.
Proof.
  assert (H : CString.basename path <> "" /\
              (CString.no_slash (CString.basename path) = true \/
               CString.basename path = "/")).
  { unfold CString.basename. destruct path as [| c p]; [split; [discriminate | now left] |].
    pose proof (basename_go_no_slash "" "" (String c p) eq_refl eq_refl) as N.
    destruct (CString.basename_go "" "" (String c p)) as [| x b];
      split; try discriminate; auto. }
  destruct H as [Hne [Hns | Hroot]]; split; try assumption; split; auto.
  - set (b := CString.basename path) in *. unfold CString.basename at 1.
    destruct b as [| x b]; [congruence |].
    rewrite (basename_go_name "" "" (String x b) Hns). reflexivity.
  - rewrite Hroot. reflexivity.
Qed.

Lemma resolve_redirect_join_witness :
  Resolver.formatted ("/usr/share/models" +:+ "/" +:+ "person.dla") ".onnx"
    (Some "/opt/models")
  = "/opt/models" +:+ (if Resolver.ends_with_slash "/opt/models" then "" else "/")
    +:+ "person.dla" +:+ ".onnx".
Proof.
  apply (resolve_redirect_join "/usr/share/models" "person.dla" ".onnx"
           "/opt/models"); try discriminate; try reflexivity.
Defined.

(** ** More on the stub adapter *)
Section StubShapeFacts.
Import Mem Stub StubShape.

Lemma created_well_formed : well_formed (snd stub_create).
Proof. unfold well_formed. simpl. repeat split; lia. Qed.

Lemma step_well_formed (c c' : StubContext) (m m' : memory) (o : op) :
  well_formed c -> step (c, m) o = Some (c', m') -> well_formed c'.
Proof.
  intros (Hi & Ho & Hic & Hoc) Hstep.
  destruct o as [path | buf size | i buf size | i buf size | | addr x];
    simpl in Hstep.
  - injection Hstep as <- <-. unfold well_formed. simpl. repeat split; auto; lia.
  - injection Hstep as <- <-. unfold well_formed. simpl. repeat split; auto; lia.
  - unfold stub_set_input, MAX_TENSORS in Hstep.
    destruct (Z.ltb_spec i 32).
    + destruct (Z.ltb_spec i 0); [discriminate |].
      injection Hstep as <- <-. unfold well_formed. simpl.
      rewrite length_insert.
      destruct (Z.leb_spec (input_count c) i); repeat split; auto; lia.
    + injection Hstep as <- <-. unfold well_formed. auto.
  - unfold stub_set_output, MAX_TENSORS in Hstep.
    destruct (Z.ltb_spec i 32).
    + destruct (Z.ltb_spec i 0); [discriminate |].
      injection Hstep as <- <-. unfold well_formed. simpl.
      rewrite length_insert.
      destruct (Z.leb_spec (output_count c) i); repeat split; auto; lia.
    + injection Hstep as <- <-. unfold well_formed. auto.
  - rewrite stub_invoke_unfold in Hstep. injection Hstep as <- <-.
    unfold well_formed. simpl. auto.
  - injection Hstep as <- <-. unfold well_formed. auto.
Qed.

Lemma run_well_formed (ops : list op) (c c' : StubContext) (m m' : memory) :
  well_formed c -> run ops (c, m) = Some (c', m') -> well_formed c'.
Proof.
  revert c m. induction ops as [| o ops IH]; intros c m Hw Hrun.
  - simpl in Hrun. now injection Hrun as <- <-.
  - cbn [run] in Hrun.
    destruct (step (c, m) o) as [[c1 m1] |] eqn:E; [| discriminate].
    eapply IH; [| exact Hrun]. eapply step_well_formed; eauto.
Qed.

(** A visited buffer is zero after the loop. *)
Lemma zero_loop_covered (c : StubContext) (m : memory) (a : Z) :
  covered c a = true -> fst (zero_loop c (m, []) (visited c)) a = Byte.x00.
Proof.
  unfold covered. intros H. apply existsb_exists in H as (i & Hi & Hc).
  apply andb_true_iff in Hc as [Hb Hr].
  apply (zero_loop_fills c (visited c) (m, []) i).
  - now apply list_elem_of_In.
  - intros E. rewrite E in Hb. discriminate.
  - now apply in_range_spec.
Qed.

End StubShapeFacts.

(** X17: after any sequence of calls on a stub context since its
    creation, both tables still have their 32 slots, the two counts lie
    between 0 and 32, and the counts the adapter reports lie between 1
    and 32. *)
Theorem stub_counts_stay_in_table (ops : list Stub.op)
    (m0 m : Mem.memory) (c : Stub.StubContext) :
  Stub.run ops (snd Stub.stub_create, m0) = Some (c, m) ->
  StubShape.well_formed c /\
  1 <= snd (Stub.stub_get_input_count c) <= 32 /\
  1 <= snd (Stub.stub_get_output_count c) <= 32.
Proof.
  intros Hrun.
  pose proof (run_well_formed ops _ _ _ _ created_well_formed Hrun) as Hw.
  split; [exact Hw |]. destruct Hw as (_ & _ & Hi & Ho).
  unfold Stub.stub_get_input_count, Stub.stub_get_output_count. simpl.
  destruct (Z.ltb_spec 0 (Stub.input_count c));
    destruct (Z.ltb_spec 0 (Stub.output_count c)); lia.
Qed.

Lemma stub_counts_stay_in_table_witness :
  StubShape.well_formed (fst demo_state) /\
  1 <= snd (Stub.stub_get_input_count (fst demo_state)) <= 32 /\
  1 <= snd (Stub.stub_get_output_count (fst demo_state)) <= 32.
Proof.
  apply (stub_counts_stay_in_table demo_ops dirty (snd demo_state)).
  vm_compute. reflexivity.
Defined.

(** X18: on a stub context reached from creation, binding an output
    buffer of [size] bytes to a slot [0 <= i < 32] succeeds, the size
    query of that slot then answers [size] (1024 when [size] is 0), and
    the answers for all the other slots are what they were. *)
Theorem stub_bound_size_is_reported (ops : list Stub.op)
    (m0 m : Mem.memory) (c : Stub.StubContext) (i j buf size : Z) :
  Stub.run ops (snd Stub.stub_create, m0) = Some (c, m) ->
  0 <= i < 32 -> 0 <= j -> j <> i ->
  exists c',
    Stub.stub_set_output c i buf size = Some (0, c') /\
    Stub.stub_get_output_size c' i
      = Some (0, if 0 <? size then size else 1024) /\
    Stub.stub_get_output_size c' j = Stub.stub_get_output_size c j.
Proof.
  intros Hrun Hi Hj Hne.
  destruct (run_well_formed ops _ _ _ _ created_well_formed Hrun)
    as (_ & Ho & _ & _).
  unfold Stub.stub_set_output, Stub.MAX_TENSORS.
  destruct (Z.ltb_spec i 32); [| lia]. destruct (Z.ltb_spec i 0); [lia |].
  eexists. split; [reflexivity |].
  unfold Stub.stub_get_output_size, Stub.MAX_TENSORS. simpl. split.
  - destruct (Z.ltb_spec i 32); [| lia]. destruct (Z.ltb_spec i 0); [lia |].
    rewrite list_lookup_total_insert_eq by lia. reflexivity.
  - destruct (Z.ltb_spec j 32); [| reflexivity].
    destruct (Z.ltb_spec j 0); [lia |].
    rewrite list_lookup_total_insert_ne by lia. reflexivity.
Qed.

Lemma stub_bound_size_is_reported_witness :
  exists c',
    Stub.stub_set_output (fst demo_state) 3 7000 64 = Some (0, c') /\
    Stub.stub_get_output_size c' 3 = Some (0, 64) /\
    Stub.stub_get_output_size c' 0 = Stub.stub_get_output_size (fst demo_state) 0.
Proof.
  apply (stub_bound_size_is_reported demo_ops dirty (snd demo_state)
           (fst demo_state) 3 0 7000 64).
  - vm_compute. reflexivity.
  - lia.
  - lia.
  - discriminate.
Defined.

(** X19: the whole effect of [stub_invoke] on memory: a byte is zero
    afterwards if it lies in a non-NULL buffer bound to a slot below the
    output count, and is what it was otherwise. So a second invoke in a
    row changes no byte. *)
Theorem stub_invoke_memory (c : Stub.StubContext) (m : Mem.memory) :
  let '(_, c1, m1, _) := Stub.stub_invoke c m in
  (forall a, m1 a = if Stub.covered c a then Byte.x00 else m a) /\
  (let '(_, _, m2, _) := Stub.stub_invoke c1 m1 in forall a, m2 a = m1 a).
Proof.
  rewrite stub_invoke_unfold.
  assert (H : forall c m a,
             fst (Stub.zero_loop c (m, []) (Stub.visited c)) a
             = if Stub.covered c a then Byte.x00 else m a).
  { intros c0 m0 a. destruct (Stub.covered c0 a) eqn:E.
    - now apply zero_loop_covered.
    - now apply zero_loop_frame. }
  split; [apply H |].
  rewrite stub_invoke_unfold. intros a.
  set (c1 := {| Stub.model_path := Stub.model_path c |}).
  rewrite (H c1). change (Stub.covered c1 a) with (Stub.covered c a).
  destruct (Stub.covered c a) eqn:E; [| reflexivity].
  symmetry. rewrite H. now rewrite E.
Qed.

(** ** More on the onnx adapter *)
Section OnnxSizeFacts.
Import Mem Onnx OnnxMore.

Lemma size_fold (shape : list Z) (a : Z) :
  0 <= a < SIZE_MAX1 ->
  foldl (fun total d => to_size_t (total * (if d <=? 0 then 1 else d))) a shape
  = (a * dims_product shape) mod SIZE_MAX1.
Proof.
  unfold SIZE_MAX1. revert a. induction shape as [| d shape IH]; intros a Ha; simpl.
  - rewrite Z.mul_1_r. symmetry. now apply Z.mod_small.
  - rewrite IH by (unfold to_size_t, SIZE_MAX1; apply Z.mod_pos_bound; lia).
    unfold to_size_t, SIZE_MAX1, counted.
    rewrite Z.mul_mod_idemp_l by lia. f_equal. ring.
Qed.

Lemma dims_product_pos (shape : list Z) : 1 <= dims_product shape.
Proof.
  induction shape as [| d shape IH]; simpl; [lia |].
  unfold counted. destruct (Z.leb_spec d 0); nia.
Qed.

End OnnxSizeFacts.

(** X20: [compute_tensor_size] is the element size (1, 2, 4 or 8 bytes)
    times the product of the dimensions, every dimension that is zero or
    negative counting as 1, computed in [size_t]: the product reduced
    modulo 2^64, and the product itself when it is below 2^64. *)
Theorem tensor_size_is_product (shape : list Z) (t : Onnx.elem_type) :
  let exact := Onnx.ort_element_size t * OnnxMore.dims_product shape in
  Onnx.ort_element_size t ∈ [1; 2; 4; 8] /\
  Onnx.compute_tensor_size shape t = exact mod 2 ^ 64 /\
  (exact < 2 ^ 64 -> Onnx.compute_tensor_size shape t = exact) /\
  Onnx.compute_tensor_size shape t
  = Onnx.compute_tensor_size (map OnnxMore.counted shape) t.
Proof.
  cbv zeta.
  assert (He : 1 <= Onnx.ort_element_size t <= 8) by (destruct t; simpl; lia).
  assert (E : forall sh, Onnx.compute_tensor_size sh t
              = (Onnx.ort_element_size t * OnnxMore.dims_product sh) mod 2 ^ 64).
  { intros sh. unfold Onnx.compute_tensor_size.
    rewrite size_fold by (unfold Onnx.SIZE_MAX1; lia). reflexivity. }
  split.
  { destruct t; simpl;
      repeat first [apply list_elem_of_here | apply list_elem_of_further]. }
  split; [apply E |]. split.
  - intros Hlt. rewrite E. apply Z.mod_small.
    pose proof (dims_product_pos shape). nia.
  - rewrite !E. f_equal. f_equal.
    induction shape as [| d shape IH]; simpl; [reflexivity |].
    rewrite IH. f_equal. unfold OnnxMore.counted.
    destruct (Z.leb_spec d 0); simpl; [reflexivity |].
    destruct (Z.leb_spec d 0); [lia | reflexivity].
Qed.

Lemma tensor_size_is_product_witness :
  Onnx.compute_tensor_size [-1; 224; 224; 3] Onnx.FLOAT = 4 * (1 * (224 * (224 * (3 * 1)))).
Proof.
  destruct (tensor_size_is_product [-1; 224; 224; 3] Onnx.FLOAT)
    as (_ & _ & H & _).
  apply H. reflexivity.
Defined.

(** X21: [onnx_load_from_file] on a context with its two tables, for a
    path on which [CreateSession] succeeds and a model whose first 32
    inputs and outputs have at most 8 dimensions each. If no query of
    the session reports an error, the load returns 0, the adapter
    reports [min(32, n)] inputs and outputs for a model with [n] of
    them, and for every index below 32 that names a tensor of the model
    the size query returns 0 and the byte size computed from the shape
    and element type of that tensor. If the allocator or the input count
    cannot be had, the load returns -1 and the context keeps its counts
    and sizes. *)
Theorem onnx_reports_model_sizes
    (create_session : string -> option Onnx.OrtSession)
    (c0 : Onnx.OnnxContext) (path : string) (s : Onnx.OrtSession) :
  create_session path = Some s ->
  Onnx.well_formed c0 ->
  Forall (fun ti => (length (Onnx.ti_shape ti) <= 8)%nat)
         (take 32 (Onnx.s_inputs s)) ->
  Forall (fun ti => (length (Onnx.ti_shape ti) <= 8)%nat)
         (take 32 (Onnx.s_outputs s)) ->
  ((forall q, Onnx.s_fails s q = false) ->
   exists oc,
     Onnx.onnx_load_from_file create_session c0 path = Some (0, oc) /\
     Onnx.onnx_get_input_count oc
       = (0, Z.min 32 (Z.of_nat (length (Onnx.s_inputs s)))) /\
     Onnx.onnx_get_output_count oc
       = (0, Z.min 32 (Z.of_nat (length (Onnx.s_outputs s)))) /\
     (forall (i : nat) (ti : Onnx.tensor_info),
        (i < 32)%nat -> Onnx.s_inputs s !! i = Some ti ->
        Onnx.onnx_get_input_size oc (Z.of_nat i)
        = (0, Some (Onnx.compute_tensor_size (Onnx.ti_shape ti)
                      (Onnx.ti_type ti)))) /\
     (forall (i : nat) (ti : Onnx.tensor_info),
        (i < 32)%nat -> Onnx.s_outputs s !! i = Some ti ->
        Onnx.onnx_get_output_size oc (Z.of_nat i)
        = (0, Some (Onnx.compute_tensor_size (Onnx.ti_shape ti)
                      (Onnx.ti_type ti))))) /\
  (Onnx.s_fails s Onnx.GetAllocatorWithDefaultOptions = true \/
   Onnx.s_fails s Onnx.SessionGetInputCount = true ->
   exists oc,
     Onnx.onnx_load_from_file create_session c0 path = Some (-1, oc) /\
     Onnx.input_count oc = Onnx.input_count c0 /\
     Onnx.output_count oc = Onnx.output_count c0 /\
     Onnx.inputs oc = Onnx.inputs c0 /\ Onnx.outputs oc = Onnx.outputs c0).
Proof.
  intros Hs [Hwi Hwo] Hri Hro.
  unfold Onnx.onnx_load_from_file. rewrite Hs.
  unfold Onnx.populate_tensor_info. rewrite !take_clamped. split.
  - intros Hnf. rewrite !Hnf.
    destruct (fill_ok (fun i q => Onnx.s_fails s (Onnx.InputQuery i q))
                (take 32 (Onnx.s_inputs s)) 0%nat (Onnx.inputs c0))
      as (tin & Ein & _ & _ & Hin);
      [intros; apply Hnf | exact Hri | rewrite length_take; lia |].
    destruct (fill_ok (fun i q => Onnx.s_fails s (Onnx.OutputQuery i q))
                (take 32 (Onnx.s_outputs s)) 0%nat (Onnx.outputs c0))
      as (tout & Eout & _ & _ & Hout);
      [intros; apply Hnf | exact Hro | rewrite length_take; lia |].
    rewrite Ein. cbn [Z.eqb negb]. rewrite Eout.
    eexists. split; [reflexivity |].
    pose proof (clamped_range (Onnx.s_inputs s)).
    pose proof (clamped_range (Onnx.s_outputs s)).
    unfold Onnx.onnx_get_input_count, Onnx.onnx_get_output_count,
      Onnx.onnx_get_input_size, Onnx.onnx_get_output_size.
    cbn [Onnx.input_count Onnx.output_count Onnx.inputs Onnx.outputs].
    split; [f_equal; apply Z.mod_small; lia |].
    split; [f_equal; apply Z.mod_small; lia |].
    assert (Hmod : forall i : nat, (i < 32)%nat ->
              Onnx.to_size_t (Z.of_nat i) = Z.of_nat i)
      by (intros i Hi; unfold Onnx.to_size_t, Onnx.SIZE_MAX1;
          apply Z.mod_small; lia).
    split; intros i ti Hi Hti; rewrite (Hmod i Hi), Nat2Z.id;
      pose proof (lookup_lt_Some _ _ _ Hti) as Hlen;
      unfold Onnx.clamped, Onnx.MAX_TENSORS.
    + destruct (Z.leb_spec (Z.min 32 (Z.of_nat (length (Onnx.s_inputs s))))
                  (Z.of_nat i)); [lia |].
      rewrite <- (Hin i ti); [reflexivity |].
      rewrite lookup_take_lt by lia. exact Hti.
    + destruct (Z.leb_spec (Z.min 32 (Z.of_nat (length (Onnx.s_outputs s))))
                  (Z.of_nat i)); [lia |].
      rewrite <- (Hout i ti); [reflexivity |].
      rewrite lookup_take_lt by lia. exact Hti.
  - intros [H | H].
    + rewrite H. eexists. split; [reflexivity |]. now repeat split.
    + rewrite H. destruct (Onnx.s_fails s Onnx.GetAllocatorWithDefaultOptions);
        (eexists; split; [reflexivity |]; now repeat split).
Qed.

Lemma onnx_reports_model_sizes_witness :
  exists oc,
    Onnx.onnx_load_from_file (fun _ => Some demo_session) Onnx.onnx_created
      "m.dla.onnx" = Some (0, oc) /\
    Onnx.onnx_get_input_size oc 0 = (0, Some 150528) /\
    Onnx.onnx_get_output_size oc 0 = (0, Some 4004).
Proof.
  destruct (onnx_reports_model_sizes (fun _ => Some demo_session)
              Onnx.onnx_created "m.dla.onnx" demo_session eq_refl)
    as [H _].
  - split; reflexivity.
  - repeat constructor.
  - repeat constructor.
  - destruct (H (fun _ => eq_refl)) as (oc & Hl & _ & _ & Hin & Hout).
    exists oc. split; [exact Hl |]. split.
    + apply (Hin 0%nat {| Onnx.ti_shape := [1; 224; 224; 3];
                          Onnx.ti_type := Onnx.UINT8 |});
        [lia | reflexivity].
    + apply (Hout 0%nat {| Onnx.ti_shape := [1; 1001];
                           Onnx.ti_type := Onnx.FLOAT |});
        [lia | reflexivity].
Defined.

Section OnnxCopyFacts.
Import Mem Onnx OnnxMore.

Lemma copy_outputs_outside (r : OrtRun) (c : OnnxContext) (idx : list nat)
    (m : memory) (ws : list write) (a : Z) :
  (forall j, j ∈ idx -> misses r c a j) ->
  snd (fst (copy_outputs r c idx m ws)) a = m a.
Proof.
  revert m ws. induction idx as [| i idx IH]; intros m ws H; simpl;
    [reflexivity |].
  assert (Hrest : forall j, j ∈ idx -> misses r c a j)
    by (intros j Hj; apply H; now apply list_elem_of_further).
  pose proof (H i (list_elem_of_here _ _)) as Hi. unfold misses, written in Hi.
  destruct (output_tensor r i) as [data |]; [| now apply IH].
  destruct (Z.eqb_spec (b_buf (output_bindings c !!! i)) 0); [now apply IH |].
  destruct (data_ok r i); simpl; [| reflexivity].
  rewrite IH by exact Hrest. apply memcpy_outside. apply Hi. reflexivity.
Qed.

Lemma copy_outputs_content (r : OrtRun) (c : OnnxContext) (idx : list nat)
    (m : memory) (ws : list write) (a : Z) (i : nat) (data : Z -> Byte.byte) :
  NoDup idx -> i ∈ idx ->
  fst (fst (copy_outputs r c idx m ws)) = 0 ->
  output_tensor r i = Some data ->
  b_buf (output_bindings c !!! i) <> 0 ->
  in_range (b_buf (output_bindings c !!! i)) (copy_size c i) a = true ->
  (forall j, j ∈ idx -> j <> i -> misses r c a j) ->
  snd (fst (copy_outputs r c idx m ws)) a
  = data (a - b_buf (output_bindings c !!! i)).
Proof.
  intros Hnd. revert m ws.
  induction Hnd as [| k idx Hk Hnd IH]; intros m ws Hi Hrc Ht Hb Hr Hm.
  - now apply elem_of_nil in Hi.
  - apply elem_of_cons in Hi as [-> | Hi].
    + simpl in *. rewrite Ht in *.
      destruct (Z.eqb_spec (b_buf (output_bindings c !!! k)) 0); [contradiction |].
      destruct (data_ok r k); simpl in *; [| discriminate].
      rewrite copy_outputs_outside.
      * unfold memcpy. fold (copy_size c k). now rewrite Hr.
      * intros j Hj. apply Hm; [now apply list_elem_of_further |].
        intros ->. contradiction.
    + assert (Hrest : forall j, j ∈ idx -> j <> i -> misses r c a j)
        by (intros j Hj; apply Hm; now apply list_elem_of_further).
      simpl in *.
      destruct (output_tensor r k) as [dk |]; [| now apply IH].
      destruct (Z.eqb_spec (b_buf (output_bindings c !!! k)) 0); [now apply IH |].
      destruct (data_ok r k); simpl in *; [| discriminate].
      now apply IH.
Qed.

End OnnxCopyFacts.

(** X22: when [onnx_invoke] returns 0, a bound output buffer holds the
    bytes of its tensor: for a slot below the output count with a
    non-NULL buffer and a tensor, every byte within the first
    [min(bound size, tensor size)] bytes of the buffer that no other
    written slot reaches is the byte of the tensor at the same offset. *)
Theorem onnx_invoke_delivers_tensor (r : Onnx.OrtRun) (c : Onnx.OnnxContext)
    (m : Mem.memory) (i : nat) (data : Z -> Byte.byte) (a : Z) :
  fst (fst (Onnx.onnx_invoke r c m)) = 0 ->
  Z.of_nat i < Onnx.output_count c ->
  Onnx.output_tensor r i = Some data ->
  Mem.b_buf (Onnx.output_bindings c !!! i) <> 0 ->
  Mem.in_range (Mem.b_buf (Onnx.output_bindings c !!! i))
               (OnnxMore.copy_size c i) a = true ->
  (forall j : nat, Z.of_nat j < Onnx.output_count c -> j <> i ->
     OnnxMore.written r c j = true ->
     Mem.in_range (Mem.b_buf (Onnx.output_bindings c !!! j))
                  (OnnxMore.copy_size c j) a = false) ->
  snd (fst (Onnx.onnx_invoke r c m)) a
  = data (a - Mem.b_buf (Onnx.output_bindings c !!! i)).
Proof.
  unfold Onnx.onnx_invoke. intros Hrc Hi Ht Hb Hr Hm.
  destruct (Onnx.session c); [| discriminate].
  destruct (forallb _ _); simpl in *; [| discriminate].
  destruct (Onnx.run_ok r); simpl in *; [| discriminate].
  apply copy_outputs_content; try assumption.
  - apply NoDup_seq.
  - apply elem_of_seq. lia.
  - intros j Hj Hne Hw. apply elem_of_seq in Hj. apply Hm; [lia | exact Hne | exact Hw].
Qed.

Lemma onnx_invoke_delivers_tensor_witness :
  snd (fst (Onnx.onnx_invoke demo_run (demo_onnx 16) dirty)) 1015 = Byte.x2a.
Proof.
  apply (onnx_invoke_delivers_tensor demo_run (demo_onnx 16) dirty 0
           (fun _ => Byte.x2a) 1015).
  - vm_compute. reflexivity.
  - vm_compute. reflexivity.
  - reflexivity.
  - intros H. vm_compute in H. discriminate H.
  - vm_compute. reflexivity.
  - intros j Hj Hne _. exfalso.
    change (Onnx.output_count (demo_onnx 16)) with 1 in Hj. lia.
Defined.

Section OnnxCreateFacts.
Import OnnxMore.

Lemma providers_in_order (h : OrtHost) (env : gmap string string) :
  sublist (register_providers h env) [TensorRT; CUDA; MIGraphX; ROCm].
Proof.
  unfold register_providers.
  destruct (gpu_allowed env); [| apply sublist_nil_l].
  destruct (tensorrt_options_ok h && tensorrt_append_ok h),
           (cuda_options_ok h && cuda_append_ok h),
           (migraphx_ok h), (rocm_ok h); simpl;
    repeat first [apply sublist_nil | apply sublist_skip | apply sublist_cons].
Qed.

End OnnxCreateFacts.

(** X23: [onnx_create] succeeds exactly when the allocation, the API
    lookup, the environment, the session options and the memory info
    succeed: no execution provider is needed and none can make it fail.
    The providers registered come in the order TensorRT, CUDA, then
    MIGraphX or else ROCm, never both of these two, and none is
    registered when NEURON_SHIM_FORCE_CPU is [1]. A context is stored
    exactly when the call returns 0. *)
Theorem onnx_create_needs_no_accelerator (h : OnnxMore.OrtHost)
    (env : gmap string string) :
  let r := OnnxMore.onnx_create h env in
  (OnnxMore.status r = 0 <->
   OnnxMore.calloc_ok h && OnnxMore.api_ok h && OnnxMore.env_ok h
   && OnnxMore.session_options_ok h && OnnxMore.memory_info_ok h = true) /\
  (OnnxMore.status r = 0 \/ OnnxMore.status r = -1) /\
  (is_Some (OnnxMore.context r) <-> OnnxMore.status r = 0) /\
  sublist (OnnxMore.providers r)
          [OnnxMore.TensorRT; OnnxMore.CUDA; OnnxMore.MIGraphX; OnnxMore.ROCm] /\
  ~ (OnnxMore.MIGraphX ∈ OnnxMore.providers r
     /\ OnnxMore.ROCm ∈ OnnxMore.providers r) /\
  (env !! "NEURON_SHIM_FORCE_CPU" = Some "1" -> OnnxMore.providers r = []).
Proof.
  cbv zeta. unfold OnnxMore.onnx_create.
  assert (Hex : ~ (OnnxMore.MIGraphX ∈ OnnxMore.register_providers h env
                   /\ OnnxMore.ROCm ∈ OnnxMore.register_providers h env)).
  { unfold OnnxMore.register_providers.
    destruct (OnnxMore.gpu_allowed env);
      [| intros [H _]; now apply elem_of_nil in H].
    destruct (OnnxMore.tensorrt_options_ok h && OnnxMore.tensorrt_append_ok h),
             (OnnxMore.cuda_options_ok h && OnnxMore.cuda_append_ok h),
             (OnnxMore.migraphx_ok h), (OnnxMore.rocm_ok h); simpl;
      intros [H1 H2];
      repeat match goal with
             | H : _ ∈ _ :: _ |- _ => apply elem_of_cons in H as [H | H];
                                        try discriminate H
             | H : _ ∈ [] |- _ => apply elem_of_nil in H; contradiction
             end. }
  assert (Hcpu : env !! "NEURON_SHIM_FORCE_CPU" = Some "1" ->
                 OnnxMore.register_providers h env = []).
  { intros E. unfold OnnxMore.register_providers, OnnxMore.gpu_allowed.
    now rewrite E. }
  pose proof (providers_in_order h env) as Hs.
  assert (Hnil : ~ (OnnxMore.MIGraphX ∈ @nil OnnxMore.provider
                    /\ OnnxMore.ROCm ∈ @nil OnnxMore.provider))
    by (intros [H _]; now apply elem_of_nil in H).
  destruct (OnnxMore.calloc_ok h), (OnnxMore.api_ok h), (OnnxMore.env_ok h),
           (OnnxMore.session_options_ok h), (OnnxMore.memory_info_ok h);
    simpl; repeat apply conj; auto;
    try (intros; discriminate); try apply sublist_nil_l;
    try (intros H; try discriminate H; try (destruct H as [? H]; discriminate H));
    try reflexivity; eauto.
Qed.

Lemma onnx_create_needs_no_accelerator_witness :
  OnnxMore.status (OnnxMore.onnx_create cpu_host ∅) = 0.
Proof.
  destruct (onnx_create_needs_no_accelerator cpu_host ∅) as (H & _).
  apply H. reflexivity.
Defined.

(** X24: the thread count that [onnx_create] hands to the engine is read
    from NEURON_SHIM_NUM_THREADS alone (4 when it is unset): it is the
    [threads] field of the snapshot the loader produces when there is no
    configuration file, and it is the [threads] field of the snapshot in
    general only as long as no file assigns [threads]. *)
Theorem adapter_threads_ignore_files (fs env : gmap string string) :
  OnnxMore.num_threads env
  = Config.threads (Config.neuron_shim_config_load ∅ env) /\
  (Config.file_text fs Config.local_conf Config.Threads = None ->
   Config.file_text fs Config.system_conf Config.Threads = None ->
   OnnxMore.num_threads env
   = Config.threads (Config.neuron_shim_config_load fs env)).
Proof.
  assert (H : forall fs,
             Config.file_text fs Config.local_conf Config.Threads = None ->
             Config.file_text fs Config.system_conf Config.Threads = None ->
             OnnxMore.num_threads env
             = Config.threads (Config.neuron_shim_config_load fs env)).
  { intros fs0 E1 E2.
    pose proof (load_from_layered Config.g_config fs0 env Config.Threads) as L.
    unfold Config.layered, Config.env_sets, Config.file_sets in L.
    rewrite E1, E2 in L. simpl in L. unfold OnnxMore.num_threads.
    unfold Config.neuron_shim_config_load.
    destruct (env !! "NEURON_SHIM_NUM_THREADS"); simpl in L; congruence. }
  split; [apply H; reflexivity | apply H].
Qed.

Lemma adapter_threads_ignore_files_witness :
  OnnxMore.num_threads env_bad_threads
  = Config.threads (Config.neuron_shim_config_load fs_bad_log_level
                      env_bad_threads).
Proof.
  apply (proj2 (adapter_threads_ignore_files fs_bad_log_level env_bad_threads));
    vm_compute; reflexivity.
Defined.

(** ** More on the tflite adapter *)
Section TFLiteFacts.
Import Mem TFLite TFLiteMore.

Context {Model : Type}.
Variable lib : TfLiteLibrary Model.

Lemma build_interpreter_bindings (c : TFLiteContext) (model : Model) :
  output_bindings (snd (fst (tflite_build_interpreter lib c model)))
  = output_bindings c /\
  output_binding_count (snd (fst (tflite_build_interpreter lib c model)))
  = output_binding_count c.
Proof.
  unfold tflite_build_interpreter.
  destruct (interpreter_create lib model) as [it |]; [| now split].
  destruct (allocate_ok lib it); now split.
Qed.

Lemma build_interpreter_ok (c : TFLiteContext) (model : Model) :
  fst (fst (tflite_build_interpreter lib c model)) = 0 <->
  exists it, interpreter_create lib model = Some it /\ allocate_ok lib it = true.
Proof.
  unfold tflite_build_interpreter.
  destruct (interpreter_create lib model) as [it |]; simpl.
  - destruct (allocate_ok lib it) eqn:Ha; simpl; split.
    + intros _. now exists it.
    + reflexivity.
    + discriminate.
    + intros (it' & [= <-] & H). congruence.
  - split; [discriminate | now intros (it & H & _)].
Qed.

Lemma load_from_file_bindings (c : TFLiteContext) (path : string) :
  output_bindings (snd (fst (tflite_load_from_file lib c path)))
  = output_bindings c /\
  output_binding_count (snd (fst (tflite_load_from_file lib c path)))
  = output_binding_count c.
Proof.
  unfold tflite_load_from_file.
  destruct (model_from_file lib path) as [model |];
    [apply build_interpreter_bindings | now split].
Qed.

(** No copy is made for the slots of a table that holds no buffer. *)
Lemma copy_slots_unbound (it : TfLiteInterpreter) (c : TFLiteContext)
    (st : memory * list write) (idx : list nat) :
  (forall j, j ∈ idx -> b_buf (output_bindings c !!! j) = 0) ->
  foldl (copy_slot it c) st idx = st.
Proof.
  revert st. induction idx as [| j idx IH]; intros st H; [reflexivity |].
  simpl. unfold copy_slot at 2.
  rewrite (H j (list_elem_of_here _ _)). simpl.
  apply IH. intros k Hk. apply H. now apply list_elem_of_further.
Qed.

End TFLiteFacts.

(** X25: a tflite context that holds no interpreter (as created, or after
    a load that failed before an interpreter existed) fails every count
    and size query, [set_input] and [invoke] with -1, and [invoke] leaves
    memory alone; [set_output] on a slot 0..31 still succeeds and records
    the buffer. *)
Theorem tflite_without_model_fails (c : TFLite.TFLiteContext)
    (copy_ok : TFLite.TfLiteTensor -> Z -> bool) (invoke_ok : bool)
    (m : Mem.memory) (index buf size : Z) :
  TFLite.interpreter c = None ->
  TFLite.tflite_get_input_count c = (-1, None) /\
  TFLite.tflite_get_output_count c = (-1, None) /\
  TFLite.tflite_get_input_size c index = (-1, None) /\
  TFLite.tflite_get_output_size c index = (-1, None) /\
  TFLiteMore.tflite_set_input copy_ok c index buf size = -1 /\
  TFLite.tflite_invoke invoke_ok c m = (-1, m, []) /\
  (0 <= index < 32 ->
   exists c', TFLite.tflite_set_output c index buf size = Some (0, c') /\
              TFLite.interpreter c' = None /\
              TFLite.output_bindings c' !! Z.to_nat index
              = (if decide (Z.to_nat index < length (TFLite.output_bindings c))%nat
                 then Some {| Mem.b_buf := buf; Mem.b_size := size |}
                 else None)).
Proof.
  intros H.
  unfold TFLite.tflite_get_input_count, TFLite.tflite_get_output_count,
    TFLite.tflite_get_input_size, TFLite.tflite_get_output_size,
    TFLite.tflite_get_input_size_with, TFLite.tflite_get_output_size_with,
    TFLiteMore.tflite_set_input, TFLite.tflite_invoke.
  rewrite H. repeat (split; [reflexivity |]).
  intros Hi. unfold TFLite.tflite_set_output, TFLite.MAX_TENSORS.
  destruct (Z.leb_spec 32 index); [lia |].
  destruct (Z.ltb_spec index 0); [lia |].
  eexists. split; [reflexivity |]. simpl. split; [exact H |].
  destruct (decide _) as [Hlt | Hge].
  - now apply list_lookup_insert_eq.
  - apply lookup_ge_None_2. rewrite length_insert. lia.
Qed.

Lemma tflite_without_model_fails_witness :
  TFLite.tflite_get_input_size TFLite.tflite_created 0 = (-1, None) /\
  TFLite.tflite_invoke true TFLite.tflite_created dirty
  = (-1, dirty, []).
Proof.
  destruct (tflite_without_model_fails TFLite.tflite_created
              (fun _ _ => true) true dirty 0 4096 16 eq_refl)
    as (_ & _ & H1 & _ & _ & H2 & _).
  split; [exact H1 | exact H2].
Defined.

(** X26: [tflite_load_from_file] returns 0 exactly when the library reads
    a model from the file, creates an interpreter for it and allocates
    its tensors, and -1 otherwise. After a 0 the count and size queries
    answer from that interpreter. The output buffers bound before the
    load stay bound whatever the outcome. *)
Theorem tflite_load_outcome {Model : Type} (lib : TFLiteMore.TfLiteLibrary Model)
    (c : TFLite.TFLiteContext) (path : string) :
  let r := fst (fst (TFLiteMore.tflite_load_from_file lib c path)) in
  let c' := snd (fst (TFLiteMore.tflite_load_from_file lib c path)) in
  (r = 0 \/ r = -1) /\
  (r = 0 <->
   exists model it,
     TFLiteMore.model_from_file lib path = Some model /\
     TFLiteMore.interpreter_create lib model = Some it /\
     TFLiteMore.allocate_ok lib it = true /\
     TFLite.interpreter c' = Some it) /\
  (forall it, r = 0 -> TFLite.interpreter c' = Some it ->
     TFLite.tflite_get_input_count c'
     = (0, Some (Z.of_nat (length (TFLite.input_tensors it)))) /\
     TFLite.tflite_get_output_count c'
     = (0, Some (Z.of_nat (length (TFLite.output_tensors it)))) /\
     forall (i : nat) (t : TFLite.TfLiteTensor),
       (TFLite.input_tensors it !! i = Some t ->
        TFLite.tflite_get_input_size c' (Z.of_nat i) = (0, Some (TFLite.bytes t))) /\
       (TFLite.output_tensors it !! i = Some t ->
        TFLite.tflite_get_output_size c' (Z.of_nat i) = (0, Some (TFLite.bytes t)))) /\
  TFLite.output_bindings c' = TFLite.output_bindings c /\
  TFLite.output_binding_count c' = TFLite.output_binding_count c.
Proof.
  cbv zeta. split; [| split; [| split]].
  - unfold TFLiteMore.tflite_load_from_file, TFLiteMore.tflite_build_interpreter.
    destruct (TFLiteMore.model_from_file lib path) as [model |]; [| now right].
    destruct (TFLiteMore.interpreter_create lib model) as [it |]; [| now right].
    destruct (TFLiteMore.allocate_ok lib it); [now left | now right].
  - unfold TFLiteMore.tflite_load_from_file, TFLiteMore.tflite_build_interpreter.
    destruct (TFLiteMore.model_from_file lib path) as [model |]; simpl.
    + destruct (TFLiteMore.interpreter_create lib model) as [it |] eqn:Hc; simpl.
      * destruct (TFLiteMore.allocate_ok lib it) eqn:Ha; simpl; split.
        -- intros _. exists model, it. rewrite Hc. now repeat split.
        -- reflexivity.
        -- discriminate.
        -- intros (model' & it' & [= <-] & Hc' & Ha' & _).
           rewrite Hc in Hc'. injection Hc' as <-. congruence.
      * split; [discriminate |].
        intros (model' & it' & [= <-] & Hc' & _). congruence.
    + split; [discriminate |]. now intros (model & it & H & _).
  - intros it _ Hit.
    unfold TFLite.tflite_get_input_count, TFLite.tflite_get_output_count,
      TFLite.tflite_get_input_size, TFLite.tflite_get_output_size,
      TFLite.tflite_get_input_size_with, TFLite.tflite_get_output_size_with.
    rewrite Hit.
    cbn [TFLite.checked_lookup TFLite.TfLiteInterpreterGetInputTensor
         TFLite.TfLiteInterpreterGetOutputTensor]. split; [reflexivity |]. split; [reflexivity |].
    intros i t. unfold TFLite.get_tensor.
    destruct (Z.ltb_spec (Z.of_nat i) 0); [lia |]. rewrite Nat2Z.id.
    split; intros ->; reflexivity.
  - apply load_from_file_bindings.
Qed.

Lemma tflite_load_outcome_witness :
  TFLite.tflite_get_output_size
    (snd (fst (TFLiteMore.tflite_load_from_file demo_library
                 TFLite.tflite_created "m.dla.tflite"))) 0
  = (0, Some 8).
Proof.
  destruct (tflite_load_outcome demo_library TFLite.tflite_created
              "m.dla.tflite") as (_ & _ & H & _).
  destruct (H demo_interpreter eq_refl eq_refl) as (_ & _ & Hs).
  exact (proj2 (Hs 0%nat {| TFLite.bytes := 8;
                            TFLite.data := fun _ => Byte.x02 |}) eq_refl).
Defined.

(** X27: an output buffer bound before the model is loaded is served by
    the first inference. On a context as created, after [set_output] of a
    non-NULL buffer on a slot 0..31, a successful load and a successful
    run of the interpreter, [tflite_invoke] returns 0; when the buffer
    has room for the output tensor of that slot, memory differs from
    before exactly in the first bytes of the buffer, as many as the
    tensor has, which hold the bytes of the tensor. *)
Theorem tflite_binding_survives_load {Model : Type}
    (lib : TFLiteMore.TfLiteLibrary Model) (path : string)
    (index buf size : Z) (c1 : TFLite.TFLiteContext)
    (it : TFLite.TfLiteInterpreter) (t : TFLite.TfLiteTensor)
    (m : Mem.memory) (a : Z) :
  0 <= index < 32 -> buf <> 0 ->
  TFLite.bytes t <= size ->
  TFLite.tflite_set_output TFLite.tflite_created index buf size = Some (0, c1) ->
  let loaded := TFLiteMore.tflite_load_from_file lib c1 path in
  fst (fst loaded) = 0 ->
  TFLite.interpreter (snd (fst loaded)) = Some it ->
  TFLite.get_tensor (TFLite.output_tensors it) index = Some t ->
  let run := TFLite.tflite_invoke true (snd (fst loaded)) m in
  fst (fst run) = 0 /\
  snd (fst run) a
  = if Mem.in_range buf (TFLite.bytes t) a
    then TFLite.data t (a - buf) else m a.
Proof.
  intros Hi Hb Hroom Hset loaded Hrc Hit Ht run. subst run.
  destruct (load_from_file_bindings lib c1 path) as (Hbs & Hcnt).
  fold loaded in Hbs, Hcnt.
  unfold TFLite.tflite_set_output, TFLite.MAX_TENSORS in Hset.
  destruct (Z.leb_spec 32 index); [lia |].
  destruct (Z.ltb_spec index 0); [lia |].
  injection Hset as Hc1. 
  assert (B : TFLite.output_bindings (snd (fst loaded))
              = <[Z.to_nat index := {| Mem.b_buf := buf; Mem.b_size := size |}]>
                  (replicate 32 Mem.no_binding))
    by (rewrite Hbs, <- Hc1; reflexivity).
  assert (N : TFLite.output_binding_count (snd (fst loaded)) = index + 1).
  { rewrite Hcnt, <- Hc1. simpl. destruct (Z.leb_spec 0 index); [reflexivity | lia]. }
  unfold TFLite.tflite_invoke. rewrite Hit. simpl negb. cbv iota.
  rewrite N.
  replace (Z.to_nat (index + 1)) with (S (Z.to_nat index)) by lia.
  rewrite seq_S, foldl_app. rewrite Nat.add_0_l.
  rewrite (copy_slots_unbound it (snd (fst loaded)) (m, [])).
  - cbn [foldl]. unfold TFLite.copy_slot. rewrite B.
    rewrite list_lookup_total_insert_eq by (rewrite length_replicate; lia).
    cbn [Mem.b_buf Mem.b_size].
    destruct (Z.eqb_spec buf 0); [contradiction |].
    rewrite Z2Nat.id by lia. rewrite Ht. cbn [fst snd].
    split; [reflexivity |]. unfold Mem.memcpy.
    destruct (Z.ltb_spec (TFLite.bytes t) size); [reflexivity |].
    now replace size with (TFLite.bytes t) by lia.
  - intros j Hj. apply elem_of_seq in Hj. rewrite B.
    rewrite list_lookup_total_insert_ne by lia.
    rewrite (list_lookup_total_correct _ _ Mem.no_binding); [reflexivity |].
    apply lookup_replicate_2. lia.
Qed.

Lemma tflite_binding_survives_load_witness :
  exists c1,
    TFLite.tflite_set_output TFLite.tflite_created 0 1000 16 = Some (0, c1) /\
    snd (fst (TFLite.tflite_invoke true
                (snd (fst (TFLiteMore.tflite_load_from_file demo_library c1
                             "m.dla.tflite"))) dirty)) 1003
    = Byte.x02.
Proof.
  eexists. split; [reflexivity |].
  refine (proj2 (tflite_binding_survives_load demo_library "m.dla.tflite"
                   0 1000 16 _ demo_interpreter
                   {| TFLite.bytes := 8; TFLite.data := fun _ => Byte.x02 |}
                   dirty 1003 _ _ _ eq_refl eq_refl eq_refl eq_refl)).
  - lia.
  - discriminate.
  - simpl. lia.
Defined.

(** ** More on the dispatcher *)
Section DispatcherFacts.
Import CString Config Runtime RuntimeMore.

Context {C : Type}.
Variable vtable : Selector.backend_id -> NeuronShimBackend C.
Variable access_R_OK : string -> bool.
Variable g : globals.

Lemma code_of_cases (r : Z) :
  code_of r = NEURONRUNTIME_NO_ERROR \/ code_of r = NEURONRUNTIME_OP_FAILED.
Proof. unfold code_of. destruct (r =? 0); [now left | now right]. Qed.

(** What the resolver answers when the computed path fits the buffer of
    the dispatcher and can be read. *)
Lemma resolve_readable (p : string) :
  strlen (computed_path g p) < 1024 ->
  access_R_OK (computed_path g p) = true ->
  Resolver.neuron_shim_resolve_model access_R_OK (Some p) (Some (g_suffix g))
    (Some (model_dir (g_config g))) (Some "") 1024
  = {| Resolver.rc := 0;
       Resolver.resolved := Some (computed_path g p);
       Resolver.diag := [] |}.
Proof.
  intros Hlen Hacc. unfold Resolver.neuron_shim_resolve_model.
  fold (computed_path g p).
  rewrite (snprintf_buf_fits "" (computed_path g p) 1024 Hlen).
  unfold snprintf_ret.
  assert (0 <= strlen (computed_path g p)) by (unfold strlen; lia).
  destruct (Z.ltb_spec INT_MAX (strlen (computed_path g p)));
    [unfold INT_MAX in *; lia |].
  destruct (Z.ltb_spec (strlen (computed_path g p)) 0); [lia |].
  destruct (Z.leb_spec 1024 (strlen (computed_path g p))); [lia |].
  simpl. rewrite Hacc. reflexivity.
Qed.

End DispatcherFacts.

(** X28: a public call with a valid handle and no NULL argument reaches
    exactly one adapter function, with the index, the buffer and the
    size it was given (the padding flag is dropped, the info queries ask
    for the size), and returns NEURONRUNTIME_NO_ERROR when that function
    returns 0 and NEURONRUNTIME_OP_FAILED for any other status. *)
Theorem valid_call_reaches_one_adapter_function {C : Type}
    (vtable : Selector.backend_id -> Runtime.NeuronShimBackend C)
    (access_R_OK : string -> bool) (g : Runtime.globals)
    (a : Runtime.api_call C) (rt : Runtime.ShimRuntime C)
    (call : Runtime.adapter_call) :
  Runtime.handle_of a = Some rt ->
  Runtime.null_argument a = false ->
  RuntimeMore.forwarded a = Some call ->
  Runtime.run_call vtable access_R_OK g a
  = (Runtime.code_of
       (RuntimeMore.adapter_status (vtable (Runtime.rt_backend rt))
          (Runtime.backend_ctx rt) call),
     [call]).
Proof.
  intros Hh Hn Hf.
  destruct a; simpl in Hh, Hn, Hf; subst; try discriminate;
    injection Hf as <-; simpl;
    unfold Runtime.NeuronRuntime_loadNetworkFromBuffer,
      Runtime.NeuronRuntime_setInput, Runtime.NeuronRuntime_setOutput,
      Runtime.NeuronRuntime_getInputCount, Runtime.NeuronRuntime_getOutputCount,
      Runtime.NeuronRuntime_getInputSize, Runtime.NeuronRuntime_getOutputSize,
      Runtime.NeuronRuntime_getInputInfo, Runtime.NeuronRuntime_getOutputInfo,
      Runtime.NeuronRuntime_inference, Runtime.query, Runtime.info_query;
    try rewrite Hn;
    repeat match goal with
           | x : option _ |- _ => destruct x; try discriminate
           end;
    try reflexivity;
    match goal with
    | |- context [let '(_, _) := ?e in _] => destruct e; reflexivity
    end.
Qed.

Lemma valid_call_reaches_one_adapter_function_witness :
  Runtime.run_call (Runtime.stub_only dirty) (fun _ => false) bare_globals
    (Runtime.SetOutput (Some bare_runtime) 0 1000 4004 1)
  = (Runtime.NEURONRUNTIME_NO_ERROR, [Runtime.ASetOutput 0 1000 4004]).
Proof.
  exact (valid_call_reaches_one_adapter_function (Runtime.stub_only dirty)
           (fun _ => false) bare_globals
           (Runtime.SetOutput (Some bare_runtime) 0 1000 4004 1)
           bare_runtime (Runtime.ASetOutput 0 1000 4004)
           eq_refl eq_refl eq_refl).
Defined.

(** X29: the public calls return only NEURONRUNTIME_NO_ERROR (0),
    BAD_DATA (1), UNEXPECTED_NULL (3) or OP_FAILED (7), each makes at
    most one adapter call, and BAD_DATA comes from
    [NeuronRuntime_loadNetworkFromFile] alone, with no adapter call. *)
Theorem public_return_codes {C : Type}
    (vtable : Selector.backend_id -> Runtime.NeuronShimBackend C)
    (access_R_OK : string -> bool) (g : Runtime.globals)
    (a : Runtime.api_call C) :
  let r := Runtime.run_call vtable access_R_OK g a in
  fst r ∈ [Runtime.NEURONRUNTIME_NO_ERROR; Runtime.NEURONRUNTIME_BAD_DATA;
           Runtime.NEURONRUNTIME_UNEXPECTED_NULL;
           Runtime.NEURONRUNTIME_OP_FAILED] /\
  (length (snd r) <= 1)%nat /\
  (fst r = Runtime.NEURONRUNTIME_BAD_DATA ->
   snd r = [] /\ exists rt p, a = Runtime.LoadNetworkFromFile (Some rt) (Some p)).
Proof.
  cbv zeta.
  assert (K : forall (st : Z) (cs : list Runtime.adapter_call),
            (length cs <= 1)%nat ->
            (Runtime.code_of st)
              ∈ [Runtime.NEURONRUNTIME_NO_ERROR; Runtime.NEURONRUNTIME_BAD_DATA;
                 Runtime.NEURONRUNTIME_UNEXPECTED_NULL;
                 Runtime.NEURONRUNTIME_OP_FAILED] /\
            (length cs <= 1)%nat /\
            (Runtime.code_of st = Runtime.NEURONRUNTIME_BAD_DATA ->
             cs = [] /\ exists rt p,
               a = Runtime.LoadNetworkFromFile (Some rt) (Some p))).
  { intros st cs Hcs. split; [| split; [exact Hcs |]].
    - destruct (code_of_cases st) as [-> | ->];
        rewrite !elem_of_cons; tauto.
    - destruct (code_of_cases st) as [-> | ->]; discriminate. }
  assert (N : forall cs : list Runtime.adapter_call,
            Runtime.NEURONRUNTIME_UNEXPECTED_NULL
              ∈ [Runtime.NEURONRUNTIME_NO_ERROR; Runtime.NEURONRUNTIME_BAD_DATA;
                 Runtime.NEURONRUNTIME_UNEXPECTED_NULL;
                 Runtime.NEURONRUNTIME_OP_FAILED] /\
            (length (@nil Runtime.adapter_call) <= 1)%nat /\
            (Runtime.NEURONRUNTIME_UNEXPECTED_NULL = Runtime.NEURONRUNTIME_BAD_DATA ->
             @nil Runtime.adapter_call = [] /\ exists rt p,
               a = Runtime.LoadNetworkFromFile (Some rt) (Some p))).
  { intros _. split; [rewrite !elem_of_cons; tauto |].
    split; [simpl; lia | discriminate]. }
  assert (Z0 : forall cs : list Runtime.adapter_call, (length cs <= 1)%nat ->
            Runtime.NEURONRUNTIME_NO_ERROR
              ∈ [Runtime.NEURONRUNTIME_NO_ERROR; Runtime.NEURONRUNTIME_BAD_DATA;
                 Runtime.NEURONRUNTIME_UNEXPECTED_NULL;
                 Runtime.NEURONRUNTIME_OP_FAILED] /\
            (length cs <= 1)%nat /\
            (Runtime.NEURONRUNTIME_NO_ERROR = Runtime.NEURONRUNTIME_BAD_DATA ->
             cs = [] /\ exists rt p,
               a = Runtime.LoadNetworkFromFile (Some rt) (Some p))).
  { intros cs Hcs. split; [rewrite !elem_of_cons; tauto |].
    split; [exact Hcs | discriminate]. }
  destruct a as [rt | rt p | rt b n | rt i b n pad | rt i b n pad | rt c | rt c
                 | rt i sz | rt i sz | rt i info | rt i info | rt | rt q | rt q];
    simpl;
    unfold Runtime.NeuronRuntime_release,
      Runtime.NeuronRuntime_loadNetworkFromBuffer,
      Runtime.NeuronRuntime_setInput, Runtime.NeuronRuntime_setOutput,
      Runtime.NeuronRuntime_getInputCount, Runtime.NeuronRuntime_getOutputCount,
      Runtime.NeuronRuntime_getInputSize, Runtime.NeuronRuntime_getOutputSize,
      Runtime.NeuronRuntime_getInputInfo, Runtime.NeuronRuntime_getOutputInfo,
      Runtime.NeuronRuntime_inference, Runtime.NeuronRuntime_setQoSOption,
      Runtime.NeuronRuntime_getProfiledQoSData, Runtime.query,
      Runtime.info_query.
  2: { unfold Runtime.NeuronRuntime_loadNetworkFromFile.
       destruct rt as [rt |]; [| apply (N [])].
       destruct p as [p |]; [| apply (N [])].
       destruct (negb _).
       - simpl. split; [rewrite !elem_of_cons; tauto |].
         split; [lia |]. intros _. split; [reflexivity |]. now exists rt, p.
       - destruct (Runtime.load_from_file _ _ _) as [st c].
         destruct (negb (st =? 0)); simpl.
         + split; [rewrite !elem_of_cons; tauto |].
           split; [lia | discriminate].
         + apply (Z0 [_]). simpl; lia. }
  all: try (destruct rt as [rt |]; [| apply (N [])]).
  all: try (apply (Z0 [_]); simpl; lia).
  all: try (apply (Z0 []); simpl; lia).
  all: try (destruct (b =? 0); [apply (N []) |]).
  all: try match goal with
           | x : option _ |- _ => destruct x; [| apply (N [])]
           end.
  all: match goal with
       | |- context [let '(_, _) := ?e in _] =>
           destruct e; apply (K _ [_]); simpl; lia
       end.
Qed.

Lemma public_return_codes_witness :
  snd (Runtime.run_call (Runtime.stub_only dirty) (fun _ => false) bare_globals
         (Runtime.LoadNetworkFromFile (Some bare_runtime) (Some "/data/m.dla")))
  = [].
Proof.
  destruct (public_return_codes (Runtime.stub_only dirty) (fun _ => false)
              bare_globals
              (Runtime.LoadNetworkFromFile (Some bare_runtime)
                 (Some "/data/m.dla"))) as (_ & _ & H).
  apply H. vm_compute. reflexivity.
Defined.

(** X30: when the computed model path fits the 1024-byte buffer of the
    dispatcher and is readable, [NeuronRuntime_loadNetworkFromFile] on a
    valid handle prints nothing from the resolver and hands exactly the
    computed path to [load_from_file] of the adapter of the handle; the
    call returns NO_ERROR when the adapter returns 0 and OP_FAILED
    otherwise, and the runtime keeps the context the adapter left. *)
Theorem load_readable_model_reaches_adapter {C : Type}
    (vtable : Selector.backend_id -> Runtime.NeuronShimBackend C)
    (access_R_OK : string -> bool) (g : Runtime.globals)
    (rt : Runtime.ShimRuntime C) (p : string) :
  CString.strlen (Runtime.computed_path g p) < 1024 ->
  access_R_OK (Runtime.computed_path g p) = true ->
  let r := Runtime.NeuronRuntime_loadNetworkFromFile vtable access_R_OK g
             (Some rt) (Some p) in
  let l := Runtime.load_from_file (vtable (Runtime.rt_backend rt))
             (Runtime.backend_ctx rt) (Runtime.computed_path g p) in
  Runtime.calls r = [Runtime.ALoadFromFile (Runtime.computed_path g p)] /\
  Runtime.ret r = Runtime.code_of (fst l) /\
  Runtime.rt_after r = Some (Runtime.with_ctx rt (snd l)) /\
  (forall text, Runtime.Printed text ∉ Runtime.err r).
Proof.
  intros Hlen Hacc. cbv zeta.
  unfold Runtime.NeuronRuntime_loadNetworkFromFile.
  rewrite (resolve_readable access_R_OK g p Hlen Hacc). simpl.
  destruct (Runtime.load_from_file _ _ _) as [st c]. simpl.
  unfold Runtime.code_of, Runtime.LOG_INFO, Runtime.LOG_ERR, Runtime.SHIM_LOG.
  destruct (st =? 0); simpl; repeat split; try reflexivity;
    intros text H;
    repeat (apply elem_of_app in H as [H | H]);
    repeat match type of H with
           | _ ∈ (if ?b then _ else _) => destruct b
           end;
    repeat (apply elem_of_cons in H as [H | H]; [discriminate |]);
    now apply elem_of_nil in H.
Qed.

Lemma load_readable_model_reaches_adapter_witness :
  Runtime.ret
    (Runtime.NeuronRuntime_loadNetworkFromFile (Runtime.stub_only dirty)
       (fun _ => true) bare_globals (Some bare_runtime) (Some "/data/m.dla"))
  = Runtime.NEURONRUNTIME_NO_ERROR.
Proof.
  destruct (load_readable_model_reaches_adapter (Runtime.stub_only dirty)
              (fun _ => true) bare_globals bare_runtime "/data/m.dla"
              ltac:(vm_compute; reflexivity) eq_refl) as (_ & H & _).
  exact H.
Defined.
